(** * version_bumper.py: the [.res] build-number patcher

    A shallow embedding of [ResVersionBumper] (src/version_bumper.py) and
    the properties of its same-width and resizing patches.

    The resource buffer ([bytearray]) is a [list byte]; Python integers are
    [Z]; offsets are [Z] as well, because [struct] and slices accept negative
    positions and the code compares against [-1].  A method of the class is a
    function from the object's state to [res (state * result)]: [Ok] is a
    normal return, [Raise] an exception that leaves the method. *)

From Stdlib Require Import ZArith List Lia Bool String Ascii DecimalString.
From Stdlib.Strings Require Import Byte.
Import ListNotations.
Open Scope Z_scope.

(** ** Exceptions and results *)

(** [struct.error] is raised for two different reasons by the calls the tool
    makes: the two bytes do not fit in the buffer at the offset, or the value
    does not fit the [H] format (the spec's OutOfRange). *)
Inductive struct_reason : Set :=
| BufferBounds
| FormatRange.

(** The exceptions that the calls of the tool can raise.  [OutOfFuel] is
    not one of Python's: it marks a loop of the model that ran out of
    rounds, which [terminates_bump] rules out. *)
Inductive exn : Set :=
| StructError (why : struct_reason)
| ValueError
| IndexError
| RuntimeError
| AttributeError
| OutOfFuel.

Inductive res (A : Type) : Type :=
| Ok (a : A)
| Raise (e : exn).

Arguments Ok {A} a.
Arguments Raise {A} e.

(** Sequencing: an exception skips what follows. *)
Definition bind {A B : Type} (m : res A) (k : A -> res B) : res B :=
  match m with
  | Ok a => k a
  | Raise e => Raise e
  end.

Notation "x <- m ;; k" := (bind m (fun x => k))
  (at level 61, m at next level, right associativity).
Notation "' p <- m ;; k" := (bind m (fun p => k))
  (at level 61, p pattern, m at next level, right associativity).

(** ** Python's [bytearray], slices and [struct] *)

Module Py.

(** [len(data)] *)
Definition blen (data : list byte) : Z := Z.of_nat (List.length data).

(** A byte as the integer that indexing yields, and back. *)
Definition byte_val (b : byte) : Z := Z.of_N (Byte.to_N b).

Definition byte_of_Z (z : Z) : byte :=
  match Byte.of_N (Z.to_N z) with
  | Some b => b
  | None => x00
  end.

(** A slice bound: negative counts from the end, then clamped to [0, len]. *)
Definition slice_index (data : list byte) (i : Z) : nat :=
  let j := if i <? 0 then i + blen data else i in
  Z.to_nat (Z.min (Z.max j 0) (blen data)).

(** [data[lo:hi]], [data[:hi]] and [data[lo:]]. *)
Definition slice (data : list byte) (lo hi : Z) : list byte :=
  let a := slice_index data lo in
  let b := slice_index data hi in
  firstn (b - a) (skipn a data).

Definition slice_to (data : list byte) (hi : Z) : list byte :=
  firstn (slice_index data hi) data.

Definition slice_from (data : list byte) (lo : Z) : list byte :=
  skipn (slice_index data lo) data.

(** [data[i]]: a negative index counts from the end; outside the buffer is
    an [IndexError]. *)
Definition index_of (data : list byte) (i : Z) : res nat :=
  let j := if i <? 0 then i + blen data else i in
  if (j <? 0) || (blen data <=? j) then Raise IndexError else Ok (Z.to_nat j).

Definition getitem (data : list byte) (i : Z) : res byte :=
  j <- index_of data i ;;
  match nth_error data j with
  | Some b => Ok b
  | None => Raise IndexError
  end.

(** [data[i] = b]. *)
Definition setitem (data : list byte) (i : Z) (b : byte) : res (list byte) :=
  j <- index_of data i ;;
  Ok (firstn j data ++ b :: skipn (j + 1) data).

(** [sub] is a prefix of [l]. *)
Fixpoint starts_with (sub l : list byte) : bool :=
  match sub, l with
  | [], _ => true
  | s :: sub', x :: l' => Byte.eqb s x && starts_with sub' l'
  | _ :: _, [] => false
  end.

(** The first position of [sub] in [l], whose head sits at offset [k]. *)
Fixpoint find_in (sub l : list byte) (k : Z) : Z :=
  if starts_with sub l then k
  else match l with
       | [] => -1
       | _ :: l' => find_in sub l' (k + 1)
       end.

(** [data.find(sub, start)]: lowest index at or after [start], or [-1]. *)
Definition find (data sub : list byte) (start : Z) : Z :=
  let s0 := if start <? 0 then Z.max (start + blen data) 0 else start in
  if blen data <? s0 then -1
  else find_in sub (skipn (Z.to_nat s0) data) s0.

(** Where [struct.unpack_from] and [struct.pack_into] place [size] bytes at
    [offset]: a negative offset is relative to the end of the buffer, and
    the bytes must lie inside it. *)
Definition struct_offset (size : Z) (data : list byte) (offset : Z) : res nat :=
  if offset <? 0 then
    if 0 <? offset + size then Raise (StructError BufferBounds)
    else if offset + blen data <? 0 then Raise (StructError BufferBounds)
    else if blen data - (offset + blen data) <? size
         then Raise (StructError BufferBounds)
         else Ok (Z.to_nat (offset + blen data))
  else if blen data - offset <? size then Raise (StructError BufferBounds)
       else Ok (Z.to_nat offset).

(** Little-endian value of a run of bytes. *)
Fixpoint le_value (bs : list byte) : Z :=
  match bs with
  | [] => 0
  | b :: bs' => byte_val b + 256 * le_value bs'
  end.

(** [struct.unpack_from('<H', data, offset)[0]] *)
Definition unpack_from_H (data : list byte) (offset : Z) : res Z :=
  o <- struct_offset 2 data offset ;;
  Ok (le_value (firstn 2 (skipn o data))).

(** [struct.unpack_from('<I', data, offset)[0]] *)
Definition unpack_from_I (data : list byte) (offset : Z) : res Z :=
  o <- struct_offset 4 data offset ;;
  Ok (le_value (firstn 4 (skipn o data))).

(** Two bytes written in place at position [n]. *)
Definition put2 (data : list byte) (n : nat) (b0 b1 : byte) : list byte :=
  firstn n data ++ [b0; b1] ++ skipn (n + 2) data.

(** [struct.pack_into('<H', data, offset, v)]: the bounds of the buffer are
    checked first, then the value against the format, [0 <= v <= 65535]. *)
Definition pack_into_H (data : list byte) (offset v : Z) : res (list byte) :=
  o <- struct_offset 2 data offset ;;
  if (v <? 0) || (65535 <? v) then Raise (StructError FormatRange)
  else Ok (put2 data o (byte_of_Z (v mod 256)) (byte_of_Z (v / 256))).

(** [str(n)] for an [int]. *)
Definition str (n : Z) : string := NilZero.string_of_int (Z.to_int n).

(** [len(s)] *)
Definition len (s : string) : Z := Z.of_nat (String.length s).

(** [s.encode('utf-16-le')] for the strings the tool builds: every code
    point is below 256, so each becomes the byte and a zero. *)
Fixpoint encode_utf16le (s : string) : list byte :=
  match s with
  | EmptyString => []
  | String c s' => byte_of_ascii c :: x00 :: encode_utf16le s'
  end.

(** [ord(c)] *)
Definition ord (c : ascii) : Z := Z.of_N (N_of_ascii c).

(** [s.split('.')] on a string given by its code points. *)
Fixpoint split_dot (s : list Z) : list (list Z) :=
  match s with
  | [] => [[]]
  | c :: s' =>
      if c =? 46 then [] :: split_dot s'
      else match split_dot s' with
           | [] => [[c]]
           | p :: ps => (c :: p) :: ps
           end
  end.

End Py.

Import Py.

(** ** The data model *)

(** [VersionInfo]: Major.Minor.Build.Release, such as 10.2503.6.0. *)
Record VersionInfo : Set := mkVersionInfo {
  major : Z;
  minor : Z;
  build : Z;
  release : Z
}.

(** [VersionInfo.__str__] and the f-strings that spell a version out. *)
Definition version_text (major minor : Z) (build : string) (release : Z) : string :=
  (str major ++ "." ++ str minor ++ "." ++ build ++ "." ++ str release)%string.

Definition VersionInfo_str (v : VersionInfo) : string :=
  version_text (major v) (minor v) (str (build v)) (release v).

(** What a ledger line describes ([type_desc]). *)
Inductive field_kind : Set :=
| FileVersionLS_Build
| FileVersion_text_Build
| Resource_DataSize
| StringFileInfo_wLength
| StringTable_wLength
| FileVersion_wLength
| FileVersion_wValueLength.

(** The before and after columns: a half-word shown as hex and decimal, a
    piece of text, or a number. *)
Inductive shown : Set :=
| ShownHalfWord (hi lo : byte) (v : Z)
| ShownText (s : string)
| ShownInt (n : Z).

(** [ModificationRecord]; [location] is the offset that the tool prints in
    hexadecimal. *)
Record ModificationRecord : Set := mkModificationRecord {
  file : string;
  location : Z;
  type_desc : field_kind;
  old_value : shown;
  new_value : shown
}.

(** The lines on standard output that report a failure, a warning, the
    decoded binary version or a count; banners and the other informative
    lines are left out. *)
Inductive message : Set :=
| ErrFileMissing
| ErrSignatureNotFound
| ErrMarkerNotFound
| WarnBuildNotLocated
| ErrBuildNotLocated
| InfoBinaryVersion (v : VersionInfo)
| InfoUpdatedCount (n : Z).

(** The state of a [ResVersionBumper] object, with what it has printed. *)
Record ResVersionBumper : Set := mkResVersionBumper {
  data : list byte;
  modifications : list ModificationRecord;
  ffi_offset : Z;
  file_version_ls_offset : Z;
  product_version_ls_offset : Z;
  file_version_string_offset : Z;
  current_version : option VersionInfo;
  new_version : option VersionInfo;
  console : list message
}.

(** The [.res] file and its [.bak] copy. *)
Record disk : Set := mkDisk {
  res_file : option (list byte);
  res_file_bak : option (list byte)
}.

(** Assignments to the attributes, [self.modifications.append] and the
    print functions. *)
Definition set_data (self : ResVersionBumper) (d : list byte) : ResVersionBumper :=
  mkResVersionBumper d (modifications self) (ffi_offset self)
    (file_version_ls_offset self) (product_version_ls_offset self)
    (file_version_string_offset self) (current_version self)
    (new_version self) (console self).

Definition record (self : ResVersionBumper) (m : ModificationRecord) : ResVersionBumper :=
  mkResVersionBumper (data self) (modifications self ++ [m]) (ffi_offset self)
    (file_version_ls_offset self) (product_version_ls_offset self)
    (file_version_string_offset self) (current_version self)
    (new_version self) (console self).

Definition print (self : ResVersionBumper) (m : message) : ResVersionBumper :=
  mkResVersionBumper (data self) (modifications self) (ffi_offset self)
    (file_version_ls_offset self) (product_version_ls_offset self)
    (file_version_string_offset self) (current_version self)
    (new_version self) (console self ++ [m]).

Definition set_binary_offsets (self : ResVersionBumper) (ffi ls pls : Z) : ResVersionBumper :=
  mkResVersionBumper (data self) (modifications self) ffi ls pls
    (file_version_string_offset self) (current_version self)
    (new_version self) (console self).

Definition set_string_offset (self : ResVersionBumper) (off : Z) : ResVersionBumper :=
  mkResVersionBumper (data self) (modifications self) (ffi_offset self)
    (file_version_ls_offset self) (product_version_ls_offset self)
    off (current_version self) (new_version self) (console self).

Definition set_current_version (self : ResVersionBumper) (v : VersionInfo) : ResVersionBumper :=
  mkResVersionBumper (data self) (modifications self) (ffi_offset self)
    (file_version_ls_offset self) (product_version_ls_offset self)
    (file_version_string_offset self) (Some v) (new_version self) (console self).

Definition set_new_version (self : ResVersionBumper) (v : VersionInfo) : ResVersionBumper :=
  mkResVersionBumper (data self) (modifications self) (ffi_offset self)
    (file_version_ls_offset self) (product_version_ls_offset self)
    (file_version_string_offset self) (current_version self) (Some v) (console self).

(** [ResVersionBumper.__init__] *)
Definition init : ResVersionBumper :=
  mkResVersionBumper [] [] (-1) (-1) (-1) (-1) None None [].

(** [VS_FFI_SIGNATURE]: 0xFEEF04BD, little-endian. *)
Definition VS_FFI_SIGNATURE : list byte := [xbd; x04; xef; xfe].

(** ["FileVersion".encode('utf-16-le')] *)
Definition file_version_key : list byte := encode_utf16le "FileVersion".

(** ** The loops, each with the number of rounds it can take at most *)

(** [while search_start < len(self.data) and self.data[search_start] == 0] *)
Fixpoint skip_padding (fuel : nat) (d : list byte) (search_start : Z) : res Z :=
  match fuel with
  | O => Raise OutOfFuel
  | S fuel' =>
      if search_start <? blen d then
        b <- getitem d search_start ;;
        if byte_val b =? 0 then skip_padding fuel' d (search_start + 1)
        else Ok search_start
      else Ok search_start
  end.

(** The loop that reads the version text up to its zero code unit. *)
Fixpoint read_version_chars (fuel : nat) (d : list byte) (i : Z) : res (list Z) :=
  match fuel with
  | O => Raise OutOfFuel
  | S fuel' =>
      if i <? blen d - 1 then
        char_code <- unpack_from_H d i ;;
        if char_code =? 0 then Ok []
        else rest <- read_version_chars fuel' d (i + 2) ;; Ok (char_code :: rest)
      else Ok []
  end.

(** The loop that both patchers run to find where the build digits start:
    two bytes past the second dot, or [-1]. *)
Fixpoint scan_build_offset (fuel : nat) (d : list byte) (i dot_count : Z) : res Z :=
  match fuel with
  | O => Raise OutOfFuel
  | S fuel' =>
      if i <? blen d - 1 then
        char_code <- unpack_from_H d i ;;
        if char_code =? 0 then Ok (-1)
        else if char_code =? ord "." then
          if dot_count + 1 =? 2 then Ok (i + 2)
          else scan_build_offset fuel' d (i + 2) (dot_count + 1)
        else scan_build_offset fuel' d (i + 2) dot_count
      else Ok (-1)
  end.

(** The loop that finds where the build digits end: the next dot or zero. *)
Fixpoint scan_build_end (fuel : nat) (d : list byte) (build_end_offset : Z) : res Z :=
  match fuel with
  | O => Raise OutOfFuel
  | S fuel' =>
      if build_end_offset <? blen d - 1 then
        char_code <- unpack_from_H d build_end_offset ;;
        if (char_code =? ord ".") || (char_code =? 0) then Ok build_end_offset
        else scan_build_end fuel' d (build_end_offset + 2)
      else Ok build_end_offset
  end.

(** Rounds that suffice for a loop that starts at [i] and walks forward. *)
Definition rounds (d : list byte) (i : Z) : nat := S (Z.to_nat (blen d - i)).

(** [for j, char in enumerate(s): struct.pack_into('<H', data, off + j * 2, ord(char))] *)
Fixpoint write_chars (d : list byte) (off j : Z) (s : string) : res (list byte) :=
  match s with
  | EmptyString => Ok d
  | String char s' =>
      d' <- pack_into_H d (off + j * 2) (ord char) ;;
      write_chars d' off (j + 1) s'
  end.

(** [for i, byte in enumerate(pattern): data[pos + i] = byte] *)
Fixpoint overwrite (d : list byte) (pos i : Z) (pattern : list byte) : res (list byte) :=
  match pattern with
  | [] => Ok d
  | b :: pattern' =>
      d' <- setitem d (pos + i) b ;;
      overwrite d' pos (i + 1) pattern'
  end.

(** The sweep of [_update_all_version_strings]: find, overwrite in place,
    move past the match; gives the buffer and the count. *)
Fixpoint replace_each (fuel : nat) (d old_pattern new_pattern : list byte)
    (pos count : Z) : res (list byte * Z) :=
  match fuel with
  | O => Raise OutOfFuel
  | S fuel' =>
      let pos := find d old_pattern pos in
      if pos =? -1 then Ok (d, count)
      else
        d' <- overwrite d pos 0 new_pattern ;;
        replace_each fuel' d' old_pattern new_pattern
          (pos + blen old_pattern) (count + 1)
  end.

(** The scan of [_update_all_version_strings_with_length_change]:
    [positions], in ascending order. *)
Fixpoint find_positions (fuel : nat) (d old_pattern : list byte) (pos : Z)
    : res (list Z) :=
  match fuel with
  | O => Raise OutOfFuel
  | S fuel' =>
      let pos := find d old_pattern pos in
      if pos =? -1 then Ok []
      else
        rest <- find_positions fuel' d old_pattern (pos + blen old_pattern) ;;
        Ok (pos :: rest)
  end.

(** [data[:pos] + bytearray(new_pattern) + data[pos + len(old_pattern):]] *)
Definition splice (d : list byte) (pos : Z) (new_pattern : list byte) (stop : Z)
    : list byte :=
  slice_to d pos ++ new_pattern ++ slice_from d stop.

(** ** The methods of [ResVersionBumper] *)

Section Methods.

(** The builtin [int(s)] on a string given by its code points; [None] is
    its [ValueError].  Which spellings it reads (signs, spaces, underscores,
    digits of other scripts) is left to the interpreter. *)
Variable py_int : list Z -> option Z.

Definition int (s : list Z) : res Z :=
  match py_int s with
  | Some n => Ok n
  | None => Raise ValueError
  end.

(** [VersionInfo.from_string] *)
Definition from_string (version_str : list Z) : res VersionInfo :=
  match split_dot version_str with
  | [p0; p1; p2; p3] =>
      major <- int p0 ;;
      minor <- int p1 ;;
      build <- int p2 ;;
      release <- int p3 ;;
      Ok (mkVersionInfo major minor build release)
  | _ => Raise ValueError
  end.

Definition load (fs : disk) (self : ResVersionBumper) : ResVersionBumper * bool :=
  match res_file fs with
  | None => (print self ErrFileMissing, false)
  | Some content => (set_data self content, true)
  end.

Definition find_binary_version (self : ResVersionBumper)
    : res (ResVersionBumper * bool) :=
  let pos := find (data self) VS_FFI_SIGNATURE 0 in
  if pos =? -1 then Ok (print self ErrSignatureNotFound, false)
  else
    let file_version_ls_offset := pos + 4 + 4 + 4 in
    let product_version_ls_offset := file_version_ls_offset + 4 + 4 in
    let self := set_binary_offsets self pos file_version_ls_offset
                  product_version_ls_offset in
    file_ver_ms <- unpack_from_I (data self) (pos + 4 + 4) ;;
    file_ver_ls <- unpack_from_I (data self) file_version_ls_offset ;;
    let major := Z.land (Z.shiftr file_ver_ms 16) 0xFFFF in
    let minor := Z.land file_ver_ms 0xFFFF in
    let build := Z.land (Z.shiftr file_ver_ls 16) 0xFFFF in
    let release := Z.land file_ver_ls 0xFFFF in
    Ok (print self (InfoBinaryVersion (mkVersionInfo major minor build release)),
        true).

Definition find_string_version (self : ResVersionBumper)
    : res (ResVersionBumper * bool) :=
  let pos := find (data self) file_version_key 0 in
  if pos =? -1 then Ok (print self ErrMarkerNotFound, false)
  else
    let search_start := pos + blen file_version_key + 2 in
    search_start <- skip_padding (rounds (data self) search_start)
                      (data self) search_start ;;
    let self := set_string_offset self search_start in
    version_chars <- read_version_chars (rounds (data self) search_start)
                       (data self) search_start ;;
    v <- from_string version_chars ;;
    Ok (set_current_version self v, true).

Definition analyze (fs : disk) (self : ResVersionBumper)
    : res (ResVersionBumper * bool) :=
  let '(self, ok) := load fs self in
  if negb ok then Ok (self, false)
  else
    '(self, ok) <- find_binary_version self ;;
    if negb ok then Ok (self, false)
    else
      '(self, ok) <- find_string_version self ;;
      if negb ok then Ok (self, false)
      else Ok (self, true).

Definition calculate_new_version (self : ResVersionBumper) (new_build : option Z)
    : res (ResVersionBumper * VersionInfo) :=
  match current_version self with
  | None => Raise RuntimeError
  | Some cv =>
      let new_build :=
        match new_build with
        | None => build cv + 1
        | Some b => b
        end in
      let nv := mkVersionInfo (major cv) (minor cv) new_build (release cv) in
      Ok (set_new_version self nv, nv)
  end.

Definition update_binary_version (self : ResVersionBumper) : res ResVersionBumper :=
  match new_version self with
  | None => Raise RuntimeError
  | Some nv =>
      let new_build := build nv in
      let build_offset := file_version_ls_offset self + 2 in
      let old_bytes := slice (data self) build_offset (build_offset + 2) in
      old1 <- getitem old_bytes 1 ;;
      old0 <- getitem old_bytes 0 ;;
      old <- unpack_from_H (data self) build_offset ;;
      d <- pack_into_H (data self) build_offset new_build ;;
      let self := set_data self d in
      let new_bytes := slice (data self) build_offset (build_offset + 2) in
      new1 <- getitem new_bytes 1 ;;
      new0 <- getitem new_bytes 0 ;;
      Ok (record self
            (mkModificationRecord ".res" build_offset FileVersionLS_Build
               (ShownHalfWord old1 old0 old)
               (ShownHalfWord new1 new0 new_build)))
  end.

Definition _update_all_version_strings (self : ResVersionBumper)
    (old_build new_build : string) : res ResVersionBumper :=
  let old_pattern := encode_utf16le ("." ++ old_build ++ ".") in
  let new_pattern := encode_utf16le ("." ++ new_build ++ ".") in
  '(d, count) <- replace_each (rounds (data self) 0) (data self)
                   old_pattern new_pattern 0 0 ;;
  let self := set_data self d in
  Ok (if 1 <? count then print self (InfoUpdatedCount count) else self).

Definition _update_string_version_same_length (self : ResVersionBumper)
    (old_build_str new_build_str : string) : res (ResVersionBumper * bool) :=
  let version_start := file_version_string_offset self in
  build_str_offset <- scan_build_offset (rounds (data self) version_start)
                        (data self) version_start 0 ;;
  if build_str_offset =? -1 then Ok (print self WarnBuildNotLocated, false)
  else
    d <- write_chars (data self) build_str_offset 0 new_build_str ;;
    let self := set_data self d in
    let self := record self
                  (mkModificationRecord ".res" build_str_offset
                     FileVersion_text_Build
                     (ShownText old_build_str) (ShownText new_build_str)) in
    self <- _update_all_version_strings self old_build_str new_build_str ;;
    Ok (self, true).

(** The block that [_update_length_fields] repeats for each field: its
    body, and the body under its guard. *)
Definition rewrite_length_field (kind : field_kind) (delta : Z)
    (self : ResVersionBumper) (offset : Z) : res ResVersionBumper :=
  old_val <- unpack_from_H (data self) offset ;;
  let new_val := old_val + delta in
  d <- pack_into_H (data self) offset new_val ;;
  Ok (record (set_data self d)
        (mkModificationRecord ".res" offset kind
           (ShownInt old_val) (ShownInt new_val))).

Definition adjust_length_field (kind : field_kind) (delta : Z)
    (self : ResVersionBumper) (offset : Z) : res ResVersionBumper :=
  if offset <? blen (data self) - 2
  then rewrite_length_field kind delta self offset
  else Ok self.

(** [for offset in offsets: ...] *)
Fixpoint for_each (body : ResVersionBumper -> Z -> res ResVersionBumper)
    (offsets : list Z) (self : ResVersionBumper) : res ResVersionBumper :=
  match offsets with
  | [] => Ok self
  | offset :: offsets' =>
      self <- body self offset ;;
      for_each body offsets' self
  end.

Definition _update_length_fields (self : ResVersionBumper)
    (byte_diff aligned_byte_diff fv_entry_offset : Z) : res ResVersionBumper :=
  let resource_size_offsets := [0x0020; 0x0040] in
  self <- for_each (adjust_length_field Resource_DataSize aligned_byte_diff)
            resource_size_offsets self ;;
  let sfi_offset := 0x009C in
  self <- adjust_length_field StringFileInfo_wLength aligned_byte_diff
            self sfi_offset ;;
  let st_offset := 0x00C0 in
  self <- adjust_length_field StringTable_wLength aligned_byte_diff
            self st_offset ;;
  let fv_wLength_offset := 0x015C in
  let fv_wValueLength_offset := 0x015E in
  self <- adjust_length_field FileVersion_wLength byte_diff
            self fv_wLength_offset ;;
  let char_diff := byte_diff / 2 in
  adjust_length_field FileVersion_wValueLength char_diff
    self fv_wValueLength_offset.

Definition _update_all_version_strings_with_length_change
    (self : ResVersionBumper) (old_build new_build : string)
    : res ResVersionBumper :=
  match current_version self, new_version self with
  | Some cv, Some nv =>
      let old_version := version_text (major cv) (minor cv) old_build (release cv) in
      let new_version := version_text (major nv) (minor nv) new_build (release nv) in
      let old_pattern := encode_utf16le old_version in
      let new_pattern := encode_utf16le new_version in
      positions <- find_positions (rounds (data self) 0) (data self)
                     old_pattern 0 ;;
      let d := fold_left
                 (fun d pos => splice d pos new_pattern (pos + blen old_pattern))
                 (rev (tl positions)) (data self) in
      let self := set_data self d in
      let found := Z.of_nat (List.length positions) in
      Ok (if 1 <? found then print self (InfoUpdatedCount found) else self)
  | _, _ => Raise AttributeError
  end.

Definition _update_string_version_diff_length (self : ResVersionBumper)
    (old_build_str new_build_str : string) (len_diff : Z)
    : res (ResVersionBumper * bool) :=
  let byte_diff := len_diff * 2 in
  let aligned_byte_diff := ((byte_diff + 3) / 4) * 4 in
  let fv_key_pos := find (data self) file_version_key 0 in
  if fv_key_pos =? -1 then Ok (print self ErrMarkerNotFound, false)
  else
    let fv_entry_offset := fv_key_pos - 6 in
    fv_wLength <- unpack_from_H (data self) fv_entry_offset ;;
    fv_wValueLength <- unpack_from_H (data self) (fv_entry_offset + 2) ;;
    let version_start := file_version_string_offset self in
    build_str_offset <- scan_build_offset (rounds (data self) version_start)
                          (data self) version_start 0 ;;
    if build_str_offset =? -1 then Ok (print self ErrBuildNotLocated, false)
    else
      build_end_offset <- scan_build_end (rounds (data self) build_str_offset)
                            (data self) build_str_offset ;;
      let fv_entry_end := fv_entry_offset + fv_wLength in
      let new_build_bytes := encode_utf16le new_build_str in
      let self := set_data self
                    (splice (data self) build_str_offset new_build_bytes
                       build_end_offset) in
      let self := record self
                    (mkModificationRecord ".res" build_str_offset
                       FileVersion_text_Build
                       (ShownText old_build_str) (ShownText new_build_str)) in
      let padding_needed := aligned_byte_diff - byte_diff in
      let self :=
        if 0 <? padding_needed then
          let string_end_offset := fv_entry_end + byte_diff in
          set_data self
            (splice (data self) string_end_offset
               (repeat x00 (Z.to_nat padding_needed)) string_end_offset)
        else self in
      self <- _update_length_fields self byte_diff aligned_byte_diff
                fv_entry_offset ;;
      self <- _update_all_version_strings_with_length_change self
                old_build_str new_build_str ;;
      Ok (self, true).

Definition update_string_version (self : ResVersionBumper)
    : res (ResVersionBumper * bool) :=
  match current_version self, new_version self with
  | Some cv, Some nv =>
      let old_build_str := str (build cv) in
      let new_build_str := str (build nv) in
      let len_diff := len new_build_str - len old_build_str in
      if len_diff =? 0
      then _update_string_version_same_length self old_build_str new_build_str
      else _update_string_version_diff_length self old_build_str new_build_str
             len_diff
  | _, _ => Raise RuntimeError
  end.

(** [save]: copy the file to its [.bak], then write the buffer. *)
Definition save (fs : disk) (self : ResVersionBumper) : disk :=
  mkDisk (Some (data self)) (res_file fs).

(** [ResVersionBumper.bump]: the result and the disk it leaves.  The value
    that [update_string_version] returns is dropped, as in the source.  The
    lines that [bump] prints are left out; the two that spell the current and
    the new version come before the binary update, and the interpreter
    refuses to print an integer of more than 4300 digits, so for such a
    build the run ends there, on [ValueError], with the disk as it was. *)
Definition bump (fs : disk) (self : ResVersionBumper) (new_build : option Z)
    (dry_run : bool) : res bool * disk :=
  match analyze fs self with
  | Raise e => (Raise e, fs)
  | Ok (self, false) => (Ok false, fs)
  | Ok (self, true) =>
      match
        ('(self, _) <- calculate_new_version self new_build ;;
         self <- update_binary_version self ;;
         '(self, _) <- update_string_version self ;;
         Ok self)
      with
      | Raise e => (Raise e, fs)
      | Ok self => if dry_run then (Ok true, fs) else (Ok true, save fs self)
      end
  end.

(** Step 6 of [ProjectVersionBumper.bump]: the version handed to both
    bumpers. *)
Definition project_new_version (current_version : VersionInfo)
    (new_build : option Z) : VersionInfo :=
  let new_build :=
    match new_build with
    | None => build current_version + 1
    | Some b => b
    end in
  mkVersionInfo (major current_version) (minor current_version) new_build
    (release current_version).

End Methods.

(** ** A reading of decimal text, and sample buffers *)

(** [int(s)] on ASCII text: optional blanks around (tab to carriage return,
    and the space), an optional sign, digits with single underscores between
    them, and no more than 4300 digits, the interpreter's default limit.  The
    interpreter reads more (the digits and blanks of other scripts); the
    examples below only use plain digits, where the two agree. *)
Definition is_blank (c : Z) : bool :=
  ((9 <=? c) && (c <=? 13)) || (c =? 32).

Definition is_digit (c : Z) : bool := (48 <=? c) && (c <=? 57).

Fixpoint digits_value (acc : Z) (after_digit : bool) (s : list Z) : option Z :=
  match s with
  | [] => if after_digit then Some acc else None
  | c :: s' =>
      if (48 <=? c) && (c <=? 57) then digits_value (10 * acc + (c - 48)) true s'
      else if (c =? 95) && after_digit then digits_value acc false s'
      else None
  end.

Fixpoint drop_blanks (s : list Z) : list Z :=
  match s with
  | c :: s' => if is_blank c then drop_blanks s' else s
  | [] => []
  end.

Definition int_ascii (s : list Z) : option Z :=
  let s := rev (drop_blanks (rev (drop_blanks s))) in
  if 4300 <? Z.of_nat (List.length (filter is_digit s)) then None
  else
    match s with
    | 43 :: s' => digits_value 0 false s'
    | 45 :: s' => option_map Z.opp (digits_value 0 false s')
    | _ => digits_value 0 false s
    end.

(** Builders for a version resource as the resource compiler lays it out. *)
Definition u16 (v : Z) : list byte := [byte_of_Z (v mod 256); byte_of_Z (v / 256)].

Definition u32 (v : Z) : list byte := u16 (v mod 65536) ++ u16 (v / 65536).

Definition utf16z (s : string) : list byte := encode_utf16le s ++ [x00; x00].

(** Zero bytes up to the next multiple of four, [l] starting [lead] bytes
    into its block. *)
Definition pad4 (lead : Z) (l : list byte) : list byte :=
  l ++ repeat x00 (Z.to_nat ((- (lead + blen l)) mod 4)).

(** A length-prefixed block: wLength, wValueLength, wType, key, content. *)
Definition block (wValueLength wType : Z) (key : string) (content : list byte)
    : list byte :=
  let body := pad4 2 (u16 wValueLength ++ u16 wType ++ utf16z key) ++ content in
  u16 (2 + blen body) ++ body.

Definition string_entry (key value : string) : list byte :=
  pad4 0 (block (len value + 1) 1 key (utf16z value)).

Definition fixed_file_info (v : VersionInfo) : list byte :=
  VS_FFI_SIGNATURE ++ u32 0x00010000
    ++ u32 (major v * 65536 + minor v) ++ u32 (build v * 65536 + release v)
    ++ u32 (major v * 65536 + minor v) ++ u32 (build v * 65536 + release v)
    ++ u32 0x3F ++ u32 0 ++ u32 4 ++ u32 1 ++ u32 0 ++ u32 0 ++ u32 0.

(** A [.res] file: the empty resource, then an RT_VERSION resource whose
    string table holds CompanyName, FileDescription, FileVersion with the
    text [file_version], and the entries [more]. *)
Definition sample_res (v : VersionInfo) (file_version : string)
    (more : list byte) : list byte :=
  let strings :=
    string_entry "CompanyName" "Acme"
      ++ string_entry "FileDescription" "Tube processing utility"
      ++ string_entry "FileVersion" file_version
      ++ more in
  let table := block 0 1 "080404E4" strings in
  let string_file_info := block 0 1 "StringFileInfo" table in
  let var_file_info :=
    block 0 1 "VarFileInfo" (block 4 0 "Translation" (u16 0x0804 ++ u16 0x04E4)) in
  let version_info :=
    block 0x34 0 "VS_VERSION_INFO"
      (fixed_file_info v ++ string_file_info ++ var_file_info) in
  (u32 0 ++ u32 0x20 ++ u32 0xFFFF ++ u32 0xFFFF ++ repeat x00 16)
    ++ (u32 (blen version_info) ++ u32 0x20 ++ u32 0x10FFFF ++ u32 0x1FFFF
          ++ u32 0 ++ u16 0x1030 ++ u16 0x0804 ++ u32 0 ++ u32 0)
    ++ version_info.

Definition v_10_2503 (build : Z) : VersionInfo := mkVersionInfo 10 2503 build 0.

(** FileVersion and ProductVersion both spell the version out. *)
Definition res_two (build : Z) : list byte :=
  sample_res (v_10_2503 build) (VersionInfo_str (v_10_2503 build))
    (string_entry "ProductVersion" (VersionInfo_str (v_10_2503 build))).

(** A third entry repeats it once more. *)
Definition res_three (build : Z) : list byte :=
  sample_res (v_10_2503 build) (VersionInfo_str (v_10_2503 build))
    (string_entry "ProductVersion" (VersionInfo_str (v_10_2503 build))
       ++ string_entry "Comments" (VersionInfo_str (v_10_2503 build))).

(** The version text spells build 9 with a leading zero. *)
Definition res_leading_zero : list byte :=
  sample_res (v_10_2503 9) "10.2503.09.0" [].

Definition on_disk (content : list byte) : disk := mkDisk (Some content) None.

(** The in-memory steps of a session on [content], stopping at the first
    step that does not report success: analysis, the new version, the binary
    half-word, the version text. *)
Definition session (py_int : list Z -> option Z) (content : list byte)
    (new_build : option Z) : res (ResVersionBumper * bool) :=
  '(self, ok) <- analyze py_int (on_disk content) init ;;
  if negb ok then Ok (self, false)
  else
    '(self, _) <- calculate_new_version self new_build ;;
    self <- update_binary_version self ;;
    update_string_version self.

(** ** Vocabulary of the statements *)

(** A length field: what it is, where it is, what is added to it. *)
Record length_field : Set := mkLengthField {
  lf_kind : field_kind;
  lf_offset : Z;
  lf_delta : Z
}.

(** The fields of [_update_length_fields], in the order it visits them. *)
Definition length_fields (byte_diff aligned_byte_diff : Z) : list length_field :=
  [mkLengthField Resource_DataSize 0x0020 aligned_byte_diff;
   mkLengthField Resource_DataSize 0x0040 aligned_byte_diff;
   mkLengthField StringFileInfo_wLength 0x009C aligned_byte_diff;
   mkLengthField StringTable_wLength 0x00C0 aligned_byte_diff;
   mkLengthField FileVersion_wLength 0x015C byte_diff;
   mkLengthField FileVersion_wValueLength 0x015E (byte_diff / 2)].

(** The guarded block over a table of fields. *)
Fixpoint adjust_fields (fields : list length_field) (self : ResVersionBumper)
    : res ResVersionBumper :=
  match fields with
  | [] => Ok self
  | f :: fields' =>
      self <- adjust_length_field (lf_kind f) (lf_delta f) self (lf_offset f) ;;
      adjust_fields fields' self
  end.

(** The bare block over a table of fields. *)
Fixpoint rewrite_fields (fields : list length_field) (self : ResVersionBumper)
    : res ResVersionBumper :=
  match fields with
  | [] => Ok self
  | f :: fields' =>
      self <- rewrite_length_field (lf_kind f) (lf_delta f) self (lf_offset f) ;;
      rewrite_fields fields' self
  end.

(** The fields whose offset passes the guard [offset < n - 2]. *)
Definition guarded (n : Z) (fields : list length_field) : list length_field :=
  filter (fun f => lf_offset f <? n - 2) fields.

(** Fields in ascending order, none below [lo], none overlapping the next. *)
Fixpoint apart (lo : Z) (fields : list length_field) : Prop :=
  match fields with
  | [] => True
  | f :: fields' => lo <= lf_offset f /\ apart (lf_offset f + 2) fields'
  end.



(** [sub] occurs somewhere in [d]. *)
Definition occurs (sub d : list byte) : Prop :=
  exists before after, d = before ++ sub ++ after.

(** [sub] sits at offset [p] of [d]. *)
Definition at_offset (sub d : list byte) (p : Z) : Prop :=
  0 <= p /\ starts_with sub (skipn (Z.to_nat p) d) = true.

(** Offsets in ascending order between [lo] and [hi], each leaving room for
    [width] bytes before the next. *)
Fixpoint spaced (width lo hi : Z) (positions : list Z) : Prop :=
  match positions with
  | [] => True
  | p :: positions' =>
      lo <= p /\ p + width <= hi /\ spaced width (p + width) hi positions'
  end.

(** How many further occurrences the sweep that closes a resizing patch
    rewrote, read off what it printed: it reports the [n] matches it found
    when there are more than one, and rewrites all of them but one. *)
Definition extra (m : message) : Z :=
  match m with
  | InfoUpdatedCount n => n - 1
  | _ => 0
  end.

Definition further_rewritten (out : list message) : Z :=
  fold_right (fun m acc => extra m + acc) 0 out.

(** The object as [update_string_version] receives it in a session on
    [content]: analysed, the new version planned, the binary half-word
    written. *)
Definition prepared (py_int : list Z -> option Z) (content : list byte)
    (new_build : option Z) : option ResVersionBumper :=
  match analyze py_int (on_disk content) init with
  | Ok (self, true) =>
      match calculate_new_version self new_build with
      | Ok (self, _) =>
          match update_binary_version self with
          | Ok self => Some self
          | Raise _ => None
          end
      | Raise _ => None
      end
  | _ => None
  end.

(** The span of the build digits as the resizing patch measures it in the
    version text: from two bytes past the second dot to the next dot or
    zero. *)
Definition build_span (self : ResVersionBumper) : res (Z * Z) :=
  let d := data self in
  let version_start := file_version_string_offset self in
  build_str_offset <- scan_build_offset (rounds d version_start) d version_start 0 ;;
  build_end_offset <- scan_build_end (rounds d build_str_offset) d build_str_offset ;;
  Ok (build_str_offset, build_end_offset).

(** [aligned_byte_diff]: [byte_diff] rounded up to a multiple of four. *)
Definition round_up_4 (byte_diff : Z) : Z := (byte_diff + 3) / 4 * 4.

(** The buffer that a session leaves when every step reported success. *)
Definition patched_buffer (r : res (ResVersionBumper * bool)) : option (list byte) :=
  match r with
  | Ok (self, true) => Some (data self)
  | _ => None
  end.

(** The states around [update_string_version] in a session, for the sample
    sessions below. *)
Definition around_text_update (content : list byte) (new_build : option Z)
    : ResVersionBumper * ResVersionBumper :=
  match prepared int_ascii content new_build with
  | Some before =>
      match update_string_version before with
      | Ok (after, _) => (before, after)
      | Raise _ => (before, before)
      end
  | None => (init, init)
  end.

(** 10.2503.9.0 to build 10, FileVersion and ProductVersion present. *)
Definition grow_two : ResVersionBumper * ResVersionBumper :=
  Eval vm_compute in around_text_update (res_two 9) (Some 10).

(** 10.2503.6.0 to build 7, FileVersion and ProductVersion present. *)
Definition same_two : ResVersionBumper * ResVersionBumper :=
  Eval vm_compute in around_text_update (res_two 6) (Some 7).

(** The buffer [grow_two] left, back to build 9. *)
Definition shrink_two : ResVersionBumper * ResVersionBumper :=
  Eval vm_compute in around_text_update (data (snd grow_two)) (Some 9).

(** One session to build [there], a second one on its output to [back]. *)
Definition round_trip (py_int : list Z -> option Z) (content : list byte)
    (there back : Z) : option (list byte) :=
  match patched_buffer (session py_int content (Some there)) with
  | Some grown => patched_buffer (session py_int grown (Some back))
  | None => None
  end.

(** A file whose fixed info sits so close to the FileVersion key that the
    FileVersionLS field lies over the first two characters of the key. *)
Definition res_overlap : list byte :=
  VS_FFI_SIGNATURE ++ u32 0x00010000 ++ u32 (1 * 65536 + 2)
    ++ file_version_key ++ [x00; x00] ++ utf16z "1.2.9.0".

(** What [bump] leaves on disk. *)
Definition file_after (r : res bool * disk) : option (list byte) :=
  res_file (snd r).

(** The object after the analysis of [content]. *)
Definition analysed (content : list byte) : ResVersionBumper :=
  match analyze int_ascii (on_disk content) init with
  | Ok (self, _) => self
  | Raise _ => init
  end.

(** The loops of the model were given enough rounds. *)
Definition terminates {A : Type} (r : res A) : Prop := r <> Raise OutOfFuel.


(** ** Vocabulary of the further properties *)

(** The version that [find_binary_version] decodes from dwFileVersionMS and
    dwFileVersionLS and prints. *)
Definition binary_version (file_ver_ms file_ver_ls : Z) : VersionInfo :=
  mkVersionInfo (Z.land (Z.shiftr file_ver_ms 16) 0xFFFF)
    (Z.land file_ver_ms 0xFFFF)
    (Z.land (Z.shiftr file_ver_ls 16) 0xFFFF)
    (Z.land file_ver_ls 0xFFFF).

(** A component that fits a half-word. *)
Definition fits_half_word (n : Z) : Prop := 0 <= n <= 65535.

(** The code points of a string, as [ord] gives them. *)
Fixpoint codes (s : string) : list Z :=
  match s with
  | EmptyString => []
  | String c s' => ord c :: codes s'
  end.

(** What may follow a text in the buffer for the reading loop to stop at its
    end: the zero code unit, or fewer than two bytes. *)
Definition terminated (tail : list byte) : Prop :=
  match tail with
  | b0 :: b1 :: _ => b0 = x00 /\ b1 = x00
  | _ => True
  end.

(** The ledger line of a length field that read [v] before its delta was
    added. *)
Definition length_record (f : length_field) (v : Z) : ModificationRecord :=
  mkModificationRecord ".res" (lf_offset f) (lf_kind f)
    (ShownInt v) (ShownInt (v + lf_delta f)).

(** Field [f] reads [v] in [d], and [r] is its ledger line. *)
Definition recorded (d : list byte) (f : length_field) (r : ModificationRecord)
    : Prop :=
  exists v, unpack_from_H d (lf_offset f) = Ok v /\ r = length_record f v.

(** The code units of [p] stand at [i], none of them a zero or a dot, and a
    dot follows. *)
Definition part_then_dot (d : list byte) (i : Z) (p : list Z) : Prop :=
  (forall j c, nth_error p j = Some c ->
     unpack_from_H d (i + 2 * Z.of_nat j) = Ok c /\ c <> 0 /\ c <> 46) /\
  unpack_from_H d (i + 2 * Z.of_nat (List.length p)) = Ok 46.

(** ** The project file: [DprojVersionBumper.update] *)





Module Dproj.

(** [type_desc] of the two lines that [update] writes. *)
Inductive desc : Set :=
| VerInfo_Release_tag
| FileVersion_string.

(** [ModificationRecord] as [update] fills it: [location] is a label. *)
Record ModificationRecord : Set := mkModificationRecord {
  file : string;
  location : string;
  type_desc : desc;
  old_value : string;
  new_value : string
}.




End Dproj.





(** An object whose buffer spells 1.2.9.0 three times, before and after the
    sweep that closes a resizing patch to build 10. *)
Definition three_texts : ResVersionBumper :=
  set_new_version
    (set_current_version
       (set_data init (utf16z "1.2.9.0" ++ utf16z "1.2.9.0" ++ utf16z "1.2.9.0"))
       (mkVersionInfo 1 2 9 0))
    (mkVersionInfo 1 2 10 0).

Definition three_texts_swept : ResVersionBumper :=
  Eval vm_compute in
    match _update_all_version_strings_with_length_change three_texts "9" "10" with
    | Ok self => self
    | Raise _ => init
    end.

(** An integer that [str] and the f-strings still render: past 4300 decimal
    digits, its default limit, the interpreter raises [ValueError]. *)
Definition printable (n : Z) : Prop := Z.abs n < 10 ^ 4300.

(** [sample_res] with another company name: the entries after it move. *)
Definition sample_res_company (company : string) (v : VersionInfo)
    (file_version : string) (more : list byte) : list byte :=
  let strings :=
    string_entry "CompanyName" company
      ++ string_entry "FileDescription" "Tube processing utility"
      ++ string_entry "FileVersion" file_version
      ++ more in
  let table := block 0 1 "080404E4" strings in
  let string_file_info := block 0 1 "StringFileInfo" table in
  let var_file_info :=
    block 0 1 "VarFileInfo" (block 4 0 "Translation" (u16 0x0804 ++ u16 0x04E4)) in
  let version_info :=
    block 0x34 0 "VS_VERSION_INFO"
      (fixed_file_info v ++ string_file_info ++ var_file_info) in
  (u32 0 ++ u32 0x20 ++ u32 0xFFFF ++ u32 0xFFFF ++ repeat x00 16)
    ++ (u32 (blen version_info) ++ u32 0x20 ++ u32 0x10FFFF ++ u32 0x1FFFF
          ++ u32 0 ++ u16 0x1030 ++ u16 0x0804 ++ u32 0 ++ u32 0)
    ++ version_info.

(** The company is Acme Corp: the FileVersion entry starts at 0x0164, eight
    bytes past the offset that [_update_length_fields] writes to. *)
Definition res_moved_entry : list byte :=
  sample_res_company "Acme Corp" (v_10_2503 9) (VersionInfo_str (v_10_2503 9))
    (string_entry "ProductVersion" (VersionInfo_str (v_10_2503 9))).
(** * Properties *)

(** ** Results of [bind] *)

Lemma bind_Ok {A B : Type} (m : res A) (k : A -> res B) (b : B) :
  bind m k = Ok b -> exists a, m = Ok a /\ k a = Ok b.
Proof.
  destruct m as [a|e]; simpl; intros H; [exists a; split; auto | discriminate].
Qed.

Ltac bind_inv H :=
  let a := fresh "a" in
  let Ha := fresh "Ha" in
  apply bind_Ok in H; destruct H as [a [Ha H]].

(** ** Lengths, slices and single bytes *)

Lemma blen_nonneg (d : list byte) : 0 <= blen d.
Proof. unfold blen; lia. Qed.

Lemma blen_app (a b : list byte) : blen (a ++ b) = blen a + blen b.
Proof. unfold blen; rewrite length_app; lia. Qed.

Lemma blen_repeat (n : nat) : blen (repeat x00 n) = Z.of_nat n.
Proof. unfold blen; now rewrite repeat_length. Qed.

Lemma slice_index_inside (d : list byte) (i : Z) :
  0 <= i <= blen d -> slice_index d i = Z.to_nat i.
Proof.
  intros H; unfold slice_index.
  destruct (i <? 0) eqn:E; [apply Z.ltb_lt in E; lia|].
  f_equal; lia.
Qed.

Lemma slice_index_le (d : list byte) (i : Z) :
  (slice_index d i <= List.length d)%nat.
Proof. unfold slice_index, blen; destruct (i <? 0); lia. Qed.

Lemma blen_slice_to_from (d : list byte) (i : Z) :
  blen (slice_to d i) + blen (slice_from d i) = blen d.
Proof.
  unfold slice_to, slice_from.
  rewrite <- blen_app, firstn_skipn; reflexivity.
Qed.

Lemma blen_slice_to (d : list byte) (i : Z) :
  0 <= i <= blen d -> blen (slice_to d i) = i.
Proof.
  intros H; unfold slice_to; rewrite slice_index_inside by assumption.
  unfold blen in *; rewrite length_firstn; lia.
Qed.

Lemma blen_slice_from (d : list byte) (i : Z) :
  0 <= i <= blen d -> blen (slice_from d i) = blen d - i.
Proof.
  intros H; unfold slice_from; rewrite slice_index_inside by assumption.
  unfold blen in *; rewrite length_skipn; lia.
Qed.

(** Replacing the bytes from [a] up to [b] by [new]. *)
Lemma blen_splice (d : list byte) (a b : Z) (new : list byte) :
  0 <= a <= b -> b <= blen d ->
  blen (splice d a new b) = blen d - (b - a) + blen new.
Proof.
  intros Ha Hb; unfold splice.
  rewrite !blen_app, blen_slice_to, blen_slice_from by lia; lia.
Qed.

(** Inserting at one position, wherever it falls. *)
Lemma blen_splice_insert (d : list byte) (a : Z) (new : list byte) :
  blen (splice d a new a) = blen d + blen new.
Proof.
  unfold splice; rewrite !blen_app.
  pose proof (blen_slice_to_from d a); lia.
Qed.

Lemma blen_encode_utf16le (s : string) : blen (encode_utf16le s) = 2 * len s.
Proof.
  unfold blen, len; induction s as [|c s IH]; simpl; [reflexivity|lia].
Qed.

Lemma byte_val_range (b : byte) : 0 <= byte_val b < 256.
Proof.
  unfold byte_val; pose proof (Byte.to_N_bounded b); lia.
Qed.

Lemma byte_val_of_Z (z : Z) : 0 <= z < 256 -> byte_val (byte_of_Z z) = z.
Proof.
  intros H; unfold byte_val, byte_of_Z.
  destruct (Byte.of_N (Z.to_N z)) as [b|] eqn:E.
  - apply Byte.to_of_N in E; rewrite E; lia.
  - apply Byte.of_N_None_iff in E; lia.
Qed.

Lemma byte_val_inj (a b : byte) : byte_val a = byte_val b -> a = b.
Proof.
  unfold byte_val; intros H.
  assert (E : Byte.to_N a = Byte.to_N b) by lia.
  pose proof (Byte.of_to_N a) as Ea; pose proof (Byte.of_to_N b) as Eb.
  rewrite E in Ea; congruence.
Qed.

(** ** [struct]: where the bytes go, what is read back *)

Lemma struct_offset_inside (size : Z) (d : list byte) (o : Z) (n : nat) :
  0 <= size -> struct_offset size d o = Ok n ->
  Z.of_nat n + size <= blen d /\
  (0 <= o -> n = Z.to_nat o) /\ (o < 0 -> n = Z.to_nat (o + blen d)).
Proof.
  intros Hs; unfold struct_offset.
  destruct (o <? 0) eqn:E0.
  - apply Z.ltb_lt in E0.
    destruct (0 <? o + size) eqn:E1; [discriminate|].
    destruct (o + blen d <? 0) eqn:E2; [discriminate|].
    destruct (blen d - (o + blen d) <? size) eqn:E3; [discriminate|].
    apply Z.ltb_ge in E1, E2, E3.
    intros H; injection H as <-; repeat split; lia.
  - apply Z.ltb_ge in E0.
    destruct (blen d - o <? size) eqn:E1; [discriminate|].
    apply Z.ltb_ge in E1.
    intros H; injection H as <-; repeat split; lia.
Qed.

Lemma struct_offset_ok (size : Z) (d : list byte) (o : Z) :
  0 <= o -> o + size <= blen d -> struct_offset size d o = Ok (Z.to_nat o).
Proof.
  intros H0 H1; unfold struct_offset.
  destruct (o <? 0) eqn:E0; [apply Z.ltb_lt in E0; lia|].
  destruct (blen d - o <? size) eqn:E1; [apply Z.ltb_lt in E1; lia|reflexivity].
Qed.

Lemma length_put2 (d : list byte) (n : nat) (b0 b1 : byte) :
  (n + 2 <= List.length d)%nat -> List.length (put2 d n b0 b1) = List.length d.
Proof.
  intros H; unfold put2.
  rewrite !length_app, length_firstn, length_skipn; simpl; lia.
Qed.

Lemma nth_error_put2_other (d : list byte) (n : nat) (b0 b1 : byte) (i : nat) :
  (n + 2 <= List.length d)%nat -> (i < n \/ n + 2 <= i)%nat ->
  nth_error (put2 d n b0 b1) i = nth_error d i.
Proof.
  intros H Hi; unfold put2.
  rewrite <- (firstn_skipn n d) at 3.
  destruct Hi as [Hi|Hi].
  - rewrite !nth_error_app1 by (rewrite length_firstn; lia); reflexivity.
  - rewrite (nth_error_app2 (firstn n d)) by (rewrite length_firstn; lia).
    rewrite (nth_error_app2 (firstn n d)) by (rewrite length_firstn; lia).
    rewrite length_firstn, Nat.min_l by lia.
    rewrite nth_error_app2 by (simpl; lia); simpl.
    rewrite !nth_error_skipn; f_equal; lia.
Qed.

Lemma skipn_put2_at (d : list byte) (n : nat) (b0 b1 : byte) :
  (n + 2 <= List.length d)%nat ->
  skipn n (put2 d n b0 b1) = b0 :: b1 :: skipn (n + 2) d.
Proof.
  intros H; unfold put2.
  rewrite skipn_app, length_firstn, Nat.min_l by lia.
  rewrite Nat.sub_diag, skipn_all2 by (rewrite length_firstn; lia).
  reflexivity.
Qed.

Lemma skipn_step (d : list byte) (n : nat) :
  skipn n d = match nth_error d n with
              | Some x => x :: skipn (S n) d
              | None => []
              end.
Proof.
  revert n; induction d as [|x d IH]; intros [|n]; simpl; try reflexivity.
  apply IH.
Qed.

Lemma firstn_skipn_nth_error (k : nat) (d d' : list byte) (n : nat) :
  (forall i, (n <= i < n + k)%nat -> nth_error d' i = nth_error d i) ->
  firstn k (skipn n d') = firstn k (skipn n d).
Proof.
  revert n; induction k as [|k IH]; intros n H; [reflexivity|].
  rewrite (skipn_step d' n), (skipn_step d n), (H n) by lia.
  destruct (nth_error d n); [|reflexivity].
  rewrite !firstn_cons; f_equal; apply IH; intros i Hi; apply H; lia.
Qed.

Lemma pack_into_H_Ok (d : list byte) (o v : Z) (d' : list byte) :
  pack_into_H d o v = Ok d' ->
  exists n, struct_offset 2 d o = Ok n /\ 0 <= v <= 65535 /\
            d' = put2 d n (byte_of_Z (v mod 256)) (byte_of_Z (v / 256)).
Proof.
  unfold pack_into_H; intros H; bind_inv H.
  destruct ((v <? 0) || (65535 <? v)) eqn:E; [discriminate|].
  apply orb_false_iff in E; destruct E as [E1 E2].
  apply Z.ltb_ge in E1, E2.
  injection H as <-; exists a; repeat split; auto.
Qed.

Lemma blen_pack_into_H (d : list byte) (o v : Z) (d' : list byte) :
  pack_into_H d o v = Ok d' -> blen d' = blen d.
Proof.
  intros H; apply pack_into_H_Ok in H; destruct H as (n & Hn & _ & ->).
  apply struct_offset_inside in Hn; [|lia].
  unfold blen in *; rewrite length_put2; lia.
Qed.

(** A write at a position of the buffer changes the two bytes there and no
    other. *)
Lemma pack_into_H_other (d : list byte) (o v : Z) (d' : list byte) (i : nat) :
  0 <= o -> pack_into_H d o v = Ok d' ->
  Z.of_nat i < o \/ o + 2 <= Z.of_nat i ->
  nth_error d' i = nth_error d i.
Proof.
  intros Ho H Hi; apply pack_into_H_Ok in H; destruct H as (n & Hn & _ & ->).
  apply struct_offset_inside in Hn; [|lia].
  destruct Hn as (Hlen & Hpos & _); specialize (Hpos Ho); subst n.
  unfold blen in Hlen; apply nth_error_put2_other; lia.
Qed.

Lemma le_value_two (b0 b1 : byte) (l : list byte) :
  le_value (firstn 2 (b0 :: b1 :: l)) = byte_val b0 + 256 * byte_val b1.
Proof. cbn [firstn le_value]; lia. Qed.

Lemma unpack_pack_same (d : list byte) (o v : Z) (d' : list byte) :
  pack_into_H d o v = Ok d' -> unpack_from_H d' o = Ok v.
Proof.
  intros H; pose proof (blen_pack_into_H _ _ _ _ H) as Hlen.
  apply pack_into_H_Ok in H; destruct H as (n & Hn & Hv & ->).
  unfold unpack_from_H.
  assert (Hn' : struct_offset 2 (put2 d n (byte_of_Z (v mod 256))
                                   (byte_of_Z (v / 256))) o = Ok n).
  { unfold struct_offset in *; rewrite Hlen; exact Hn. }
  rewrite Hn'; cbn [bind].
  apply struct_offset_inside in Hn; [|lia]; destruct Hn as (Hin & _).
  unfold blen in Hin.
  rewrite skipn_put2_at by lia; rewrite le_value_two.
  rewrite !byte_val_of_Z.
  - f_equal; pose proof (Z.div_mod v 256); lia.
  - split; [apply Z.div_pos; lia | apply Z.div_lt_upper_bound; lia].
  - apply Z.mod_pos_bound; lia.
Qed.

Lemma unpack_from_H_same_bytes (d d' : list byte) (o : Z) :
  0 <= o -> blen d' = blen d ->
  (forall i, o <= Z.of_nat i < o + 2 -> nth_error d' i = nth_error d i) ->
  unpack_from_H d' o = unpack_from_H d o.
Proof.
  intros Ho Hlen H; unfold unpack_from_H.
  assert (E : struct_offset 2 d' o = struct_offset 2 d o)
    by (unfold struct_offset; rewrite Hlen; reflexivity).
  rewrite E; destruct (struct_offset 2 d o) as [n|e] eqn:Hn; [|reflexivity].
  cbn [bind]; f_equal; f_equal.
  apply struct_offset_inside in Hn; [|lia]; destruct Hn as (_ & Hpos & _).
  specialize (Hpos Ho); subst n.
  apply firstn_skipn_nth_error; intros i Hi; apply H; lia.
Qed.

Lemma unpack_pack_other (d : list byte) (o v : Z) (d' : list byte) (o' : Z) :
  0 <= o -> 0 <= o' -> pack_into_H d o v = Ok d' ->
  o' + 2 <= o \/ o + 2 <= o' ->
  unpack_from_H d' o' = unpack_from_H d o'.
Proof.
  intros Ho Ho' H Hd.
  apply unpack_from_H_same_bytes; [assumption | eapply blen_pack_into_H; eauto|].
  intros i Hi; apply (pack_into_H_other d o v d' i Ho H); lia.
Qed.

Lemma unpack_from_H_ok (d : list byte) (o : Z) :
  0 <= o -> o + 2 <= blen d -> exists v, unpack_from_H d o = Ok v.
Proof.
  intros H0 H1; unfold unpack_from_H.
  rewrite struct_offset_ok by lia; cbn [bind]; eauto.
Qed.

(** ** The length fields *)

Lemma rewrite_length_field_Ok (kind : field_kind) (delta : Z)
    (self self' : ResVersionBumper) (o : Z) :
  rewrite_length_field kind delta self o = Ok self' ->
  exists v, unpack_from_H (data self) o = Ok v /\
            pack_into_H (data self) o (v + delta) = Ok (data self') /\
            console self' = console self /\
            current_version self' = current_version self /\
            new_version self' = new_version self.
Proof.
  unfold rewrite_length_field; intros H.
  bind_inv H; bind_inv H; injection H as <-.
  exists a; repeat split; assumption.
Qed.

Lemma update_length_fields_table (self : ResVersionBumper)
    (byte_diff aligned_byte_diff fv_entry_offset : Z) :
  _update_length_fields self byte_diff aligned_byte_diff fv_entry_offset
  = adjust_fields (length_fields byte_diff aligned_byte_diff) self.
Proof.
  unfold _update_length_fields, length_fields.
  cbn [for_each adjust_fields lf_kind lf_delta lf_offset].
  repeat match goal with
         | |- context [adjust_length_field ?k ?dl ?s ?o] =>
             destruct (adjust_length_field k dl s o); cbn [bind];
             try reflexivity
         end.
Qed.

Lemma adjust_fields_guarded (fields : list length_field) :
  forall self, adjust_fields fields self
               = rewrite_fields (guarded (blen (data self)) fields) self.
Proof.
  induction fields as [|f fields IH]; intros self; [reflexivity|].
  cbn [adjust_fields guarded filter]; fold (guarded (blen (data self)) fields).
  unfold adjust_length_field.
  destruct (lf_offset f <? blen (data self) - 2).
  - cbn [rewrite_fields].
    destruct (rewrite_length_field (lf_kind f) (lf_delta f) self (lf_offset f))
      as [self1|e] eqn:E; [|reflexivity].
    cbn [bind]; rewrite IH.
    apply rewrite_length_field_Ok in E; destruct E as (v & _ & Hp & _).
    apply blen_pack_into_H in Hp; rewrite Hp; reflexivity.
  - cbn [bind]; apply IH.
Qed.

Lemma apart_weaken (lo lo' : Z) (fields : list length_field) :
  lo' <= lo -> apart lo fields -> apart lo' fields.
Proof. destruct fields; simpl; [tauto|]; intros H [H1 H2]; split; [lia|assumption]. Qed.

Lemma apart_In (lo : Z) (fields : list length_field) (f : length_field) :
  apart lo fields -> In f fields -> lo <= lf_offset f.
Proof.
  revert lo; induction fields as [|g fields IH]; intros lo Ha Hin; [contradiction|].
  destruct Ha as [H1 H2]; destruct Hin as [->|Hin]; [assumption|].
  specialize (IH _ H2 Hin); lia.
Qed.

Lemma apart_guarded (n lo : Z) (fields : list length_field) :
  apart lo fields -> apart lo (guarded n fields).
Proof.
  revert lo; induction fields as [|f fields IH]; intros lo Ha; [exact I|].
  destruct Ha as [H1 H2]; cbn [guarded filter]; fold (guarded n fields).
  destruct (lf_offset f <? n - 2).
  - split; [assumption | apply IH; assumption].
  - apply apart_weaken with (lo := lf_offset f + 2); [lia | apply IH; assumption].
Qed.

Lemma apart_length_fields (byte_diff aligned_byte_diff : Z) :
  apart 0 (length_fields byte_diff aligned_byte_diff).
Proof. simpl; lia. Qed.

(** Running the bare block over fields that lie apart: the buffer keeps its
    length, every byte outside the fields stays, and each field reads its
    old value plus its delta. *)
Lemma rewrite_fields_spec (fields : list length_field) :
  forall lo self self',
    0 <= lo -> apart lo fields -> rewrite_fields fields self = Ok self' ->
    blen (data self') = blen (data self) /\
    (forall i, (forall f, In f fields ->
                  Z.of_nat i < lf_offset f \/ lf_offset f + 2 <= Z.of_nat i) ->
               nth_error (data self') i = nth_error (data self) i) /\
    (forall f, In f fields ->
       exists v, unpack_from_H (data self) (lf_offset f) = Ok v /\
                 unpack_from_H (data self') (lf_offset f) = Ok (v + lf_delta f)) /\
    console self' = console self /\
    current_version self' = current_version self /\
    new_version self' = new_version self.
Proof.
  induction fields as [|f fields IH]; intros lo self self' Hlo Ha H.
  - injection H as <-; repeat split; auto; intros g [].
  - destruct Ha as [Hf Ha]; cbn [rewrite_fields] in H; bind_inv H.
    apply rewrite_length_field_Ok in Ha0.
    destruct Ha0 as (v & Hu & Hp & Hc & Hcv & Hnv).
    assert (Hlo' : 0 <= lf_offset f + 2) by lia.
    destruct (IH _ _ _ Hlo' Ha H) as (Hlen & Hframe & Hread & Hc' & Hcv' & Hnv').
    pose proof (blen_pack_into_H _ _ _ _ Hp) as Hlen1.
    assert (Hof : 0 <= lf_offset f) by lia.
    repeat split; try congruence.
    + intros i Hi.
      rewrite Hframe by (intros g Hg; apply Hi; right; assumption).
      apply (pack_into_H_other _ _ _ _ i Hof Hp), Hi; left; reflexivity.
    + intros g [<-|Hg].
      * exists v; split; [assumption|].
        rewrite <- (unpack_pack_same _ _ _ _ Hp).
        apply unpack_from_H_same_bytes; [assumption | congruence |].
        intros i Hi; apply Hframe; intros g Hg.
        pose proof (apart_In _ _ _ Ha Hg); lia.
      * destruct (Hread g Hg) as (w & Hw & Hw').
        exists w; split; [|assumption].
        rewrite <- Hw; symmetry.
        pose proof (apart_In _ _ _ Ha Hg).
        apply (unpack_pack_other _ _ (v + lf_delta f) _ (lf_offset g) Hof);
          [lia|assumption|lia].
Qed.

(** The bare block returns when every field lies inside the buffer and
    stays a 16-bit value after its delta. *)
Lemma rewrite_fields_returns (fields : list length_field) :
  forall lo self,
    0 <= lo -> apart lo fields ->
    (forall f, In f fields ->
       lf_offset f + 2 <= blen (data self) /\
       exists v, unpack_from_H (data self) (lf_offset f) = Ok v /\
                 0 <= v + lf_delta f <= 65535) ->
    exists self', rewrite_fields fields self = Ok self'.
Proof.
  induction fields as [|f fields IH]; intros lo self Hlo Ha Hall;
    [exists self; reflexivity|].
  destruct Ha as [Hf Ha].
  destruct (Hall f (or_introl eq_refl)) as (Hfit & v & Hv & Hrange).
  assert (Hof : 0 <= lf_offset f) by lia.
  assert (Hp : exists d, pack_into_H (data self) (lf_offset f) (v + lf_delta f)
                         = Ok d).
  { unfold pack_into_H; rewrite struct_offset_ok by lia; cbn [bind].
    destruct (Z.ltb_spec (v + lf_delta f) 0) as [E|_]; [lia|].
    destruct (Z.ltb_spec 65535 (v + lf_delta f)) as [E|_]; [lia|].
    cbn [orb]; eauto. }
  destruct Hp as [d Hd].
  cbn [rewrite_fields]; unfold rewrite_length_field.
  rewrite Hv; cbn [bind]; rewrite Hd; cbn [bind].
  apply (IH (lf_offset f + 2)); [lia | assumption |].
  intros g Hg; cbn [record set_data data].
  destruct (Hall g (or_intror Hg)) as (Hgfit & w & Hw & Hwr).
  pose proof (apart_In _ _ _ Ha Hg) as Hgo.
  rewrite (blen_pack_into_H _ _ _ _ Hd); split; [assumption|].
  exists w; split; [|assumption].
  rewrite <- Hw.
  apply (unpack_pack_other _ _ (v + lf_delta f) _ (lf_offset g) Hof);
    [lia | assumption | lia].
Qed.

(** So does [_update_length_fields], for the fields its guard lets
    through. *)
Lemma update_length_fields_returns (self : ResVersionBumper)
    (byte_diff aligned_byte_diff fv_entry_offset : Z) :
  (forall f, In f (length_fields byte_diff aligned_byte_diff) ->
     lf_offset f < blen (data self) - 2 ->
     exists v, unpack_from_H (data self) (lf_offset f) = Ok v /\
               0 <= v + lf_delta f <= 65535) ->
  exists self',
    _update_length_fields self byte_diff aligned_byte_diff fv_entry_offset
    = Ok self'.
Proof.
  intros Hall; rewrite update_length_fields_table, adjust_fields_guarded.
  apply (rewrite_fields_returns _ 0); [lia | |].
  - apply apart_guarded, apart_length_fields.
  - intros f Hf; apply filter_In in Hf; destruct Hf as [Hf Hlt].
    apply Z.ltb_lt in Hlt; split; [lia | apply Hall; assumption].
Qed.



Lemma recorded_same_reads (d d' : list byte) (fields : list length_field)
    (rs : list ModificationRecord) :
  (forall g, In g fields ->
     unpack_from_H d' (lf_offset g) = unpack_from_H d (lf_offset g)) ->
  Forall2 (recorded d') fields rs -> Forall2 (recorded d) fields rs.
Proof.
  intros Hsame H; induction H as [|g r gs rs' Hg Hrest IH]; constructor.
  - destruct Hg as (w & Hw & ->); exists w.
    rewrite <- (Hsame g (or_introl eq_refl)); split; [assumption | reflexivity].
  - apply IH; intros h Hh; apply Hsame; right; exact Hh.
Qed.

Lemma rewrite_fields_outcome (fields : list length_field) :
  forall lo self,
    0 <= lo -> apart lo fields ->
    (forall f, In f fields -> lf_offset f + 2 <= blen (data self)) ->
    match rewrite_fields fields self with
    | Ok self' =>
        (forall f, In f fields ->
           exists v, unpack_from_H (data self) (lf_offset f) = Ok v /\
                     0 <= v + lf_delta f <= 65535) /\
        exists rs, modifications self' = modifications self ++ rs /\
                   Forall2 (recorded (data self)) fields rs
    | Raise e =>
        e = StructError FormatRange /\
        exists f v, In f fields /\
                    unpack_from_H (data self) (lf_offset f) = Ok v /\
                    ~ 0 <= v + lf_delta f <= 65535
    end.
Proof.
  induction fields as [|f fields IH]; intros lo self Hlo Ha Hfit.
  - cbn [rewrite_fields]; split; [intros f []|].
    exists []; rewrite app_nil_r; split; [reflexivity | constructor].
  - destruct Ha as [Hf Ha].
    assert (Hof : 0 <= lf_offset f) by lia.
    pose proof (Hfit f (or_introl eq_refl)) as Hin.
    destruct (unpack_from_H_ok (data self) (lf_offset f) Hof Hin) as [v Hv].
    cbn [rewrite_fields]; unfold rewrite_length_field.
    rewrite Hv; cbn [bind].
    destruct (pack_into_H (data self) (lf_offset f) (v + lf_delta f))
      as [d1|e] eqn:Hp; cbn [bind].
    + pose proof (blen_pack_into_H _ _ _ _ Hp) as Hlen.
      destruct (pack_into_H_Ok _ _ _ _ Hp) as (_ & _ & Hrange & _).
      set (s1 := record (set_data self d1) _).
      assert (Hsame : forall g, In g fields ->
                unpack_from_H (data s1) (lf_offset g)
                = unpack_from_H (data self) (lf_offset g)).
      { intros g Hg; pose proof (apart_In _ _ _ Ha Hg) as Hlo'.
        apply (unpack_pack_other _ _ _ _ (lf_offset g) Hof ltac:(lia) Hp).
        right; exact Hlo'. }
      assert (Hlo1 : 0 <= lf_offset f + 2) by lia.
      assert (Hfit1 : forall g, In g fields ->
                lf_offset g + 2 <= blen (data s1)).
      { intros g Hg; cbn [s1 record set_data data]; rewrite Hlen.
        apply Hfit; right; exact Hg. }
      specialize (IH (lf_offset f + 2) s1 Hlo1 Ha Hfit1).
      destruct (rewrite_fields fields s1) as [self'|e'].
      * destruct IH as (Hall & rs & Hm & Hrs); split.
        -- intros g [<-|Hg]; [exists v; split; assumption|].
           destruct (Hall g Hg) as (w & Hw & Hwr); exists w.
           rewrite <- (Hsame g Hg); split; assumption.
        -- exists (length_record f v :: rs); split.
           ++ rewrite Hm; cbn [s1 record set_data modifications].
              rewrite <- app_assoc; reflexivity.
           ++ constructor; [exists v; split; [assumption | reflexivity]|].
              apply (recorded_same_reads (data self) (data s1));
                assumption.
      * destruct IH as (-> & g & w & Hg & Hw & Hout); split; [reflexivity|].
        exists g, w; split; [right; exact Hg|].
        rewrite <- (Hsame g Hg); split; assumption.
    + assert (He : e = StructError FormatRange /\
                   ~ 0 <= v + lf_delta f <= 65535).
      { unfold pack_into_H in Hp; rewrite struct_offset_ok in Hp by lia.
        cbn [bind] in Hp.
        destruct ((v + lf_delta f <? 0) || (65535 <? v + lf_delta f)) eqn:E;
          [|discriminate].
        injection Hp as <-; split; [reflexivity|].
        apply orb_true_iff in E; destruct E as [E|E]; apply Z.ltb_lt in E; lia. }
      destruct He as [-> Hout]; split; [reflexivity|].
      exists f, v; split; [left; reflexivity | split; assumption].
Qed.

(** C2 at a failing input.  In [res_moved_entry] the FileVersion key stands
    at 0x016A, so the entry starts at 0x0164, where the patch itself reads
    the entry's length, 56; the value length after it is 12.  The patch to
    build 10 completes and adds four bytes to the outer lengths, that of
    the string table at 0x00C0 among them, but the entry's own length and
    value length read 56 and 12 as before, though the value has a character
    more: the deltas of the entry went to the half-words at 0x015C and
    0x015E, two characters of the FileDescription text (105 to 107, 116 to
    117), and the ledger calls the first of them the FileVersion length. *)
Theorem length_fields_miss_entry :
  let entry := find res_moved_entry file_version_key 0 - 6 in
  entry = 0x0164 /\
  unpack_from_H res_moved_entry entry = Ok 56 /\
  unpack_from_H res_moved_entry (entry + 2) = Ok 12 /\
  unpack_from_H res_moved_entry 0x015C = Ok 105 /\
  unpack_from_H res_moved_entry 0x015E = Ok 116 /\
  match session int_ascii res_moved_entry (Some 10) with
  | Ok (self, ok) =>
      ok = true /\
      blen (data self) = blen res_moved_entry + 4 /\
      find (data self) file_version_key 0 - 6 = entry /\
      at_offset (encode_utf16le "10.2503.10.0") (data self) (entry + 32) /\
      unpack_from_H (data self) entry = Ok 56 /\
      unpack_from_H (data self) (entry + 2) = Ok 12 /\
      unpack_from_H (data self) 0x015C = Ok (105 + 2) /\
      unpack_from_H (data self) 0x015E = Ok (116 + 1) /\
      unpack_from_H res_moved_entry 0x00C0 = Ok 280 /\
      unpack_from_H (data self) 0x00C0 = Ok (280 + 4) /\
      In (mkModificationRecord ".res" 0x015C FileVersion_wLength
            (ShownInt 105) (ShownInt 107)) (modifications self)
  | Raise _ => False
  end.
Proof.
  cbv zeta.
  do 5 (split; [vm_compute; reflexivity|]).
  vm_compute.
  do 3 (split; [reflexivity|]).
  split; [split; [discriminate | reflexivity]|].
  do 6 (split; [reflexivity|]).
  do 6 right; left; reflexivity.
Qed.


(** ** [find] *)

Lemma starts_with_iff (sub l : list byte) :
  starts_with sub l = true <-> exists rest, l = sub ++ rest.
Proof.
  revert l; induction sub as [|s sub IH]; intros l; simpl.
  - split; [intros _; exists l; reflexivity | reflexivity].
  - destruct l as [|x l].
    + split; [discriminate | intros [rest H]; discriminate].
    + rewrite andb_true_iff, IH; split.
      * intros [E [rest ->]]; apply Byte.byte_dec_bl in E; subst x.
        exists rest; reflexivity.
      * intros [rest H]; injection H as -> ->; split.
        -- apply Byte.byte_dec_lb; reflexivity.
        -- exists rest; reflexivity.
Qed.

Lemma starts_with_length (sub l : list byte) :
  starts_with sub l = true -> (List.length sub <= List.length l)%nat.
Proof.
  intros H; apply starts_with_iff in H; destruct H as [rest ->].
  rewrite length_app; lia.
Qed.

(** What [find_in] answers: a match at the answer, none before it. *)
Lemma find_in_spec (sub l : list byte) :
  forall k, 0 <= k ->
    (find_in sub l k = -1 /\
     forall j, (j <= List.length l)%nat -> starts_with sub (skipn j l) = false)
    \/
    (exists j, find_in sub l k = k + Z.of_nat j /\
               (j <= List.length l)%nat /\
               starts_with sub (skipn j l) = true /\
               forall i, (i < j)%nat -> starts_with sub (skipn i l) = false).
Proof.
  induction l as [|x l IH]; intros k Hk.
  - cbn [find_in]; destruct (starts_with sub []) eqn:E.
    + right; exists 0%nat; repeat split; simpl; auto; try lia.
    + left; split; [reflexivity|]; intros j Hj.
      destruct j; [exact E | simpl in Hj; lia].
  - cbn [find_in]; destruct (starts_with sub (x :: l)) eqn:E.
    + right; exists 0%nat; repeat split; simpl; auto; try lia.
    + destruct (IH (k + 1)) as [[H1 H2]|(j & H1 & H2 & H3 & H4)]; [lia| |].
      * left; split; [assumption|]; intros [|j] Hj; [exact E|].
        simpl; apply H2; simpl in Hj; lia.
      * right; exists (S j); repeat split.
        -- rewrite H1; lia.
        -- simpl; lia.
        -- exact H3.
        -- intros [|i] Hi; [exact E | simpl; apply H4; lia].
Qed.

(** A hit of [find] from a start inside the buffer. *)
Lemma find_hit (d sub : list byte) (start : Z) :
  0 <= start -> find d sub start <> -1 ->
  start <= find d sub start /\
  find d sub start + blen sub <= blen d /\
  at_offset sub d (find d sub start).
Proof.
  intros Hs Hne; unfold find in *.
  destruct (start <? 0) eqn:E0; [apply Z.ltb_lt in E0; lia|].
  destruct (blen d <? start) eqn:E1; [congruence|].
  apply Z.ltb_ge in E1.
  destruct (find_in_spec sub (skipn (Z.to_nat start) d) start Hs)
    as [[H1 _]|(j & H1 & H2 & H3 & _)]; [congruence|].
  rewrite H1; rewrite skipn_skipn in H3.
  pose proof (starts_with_length _ _ H3) as HL.
  rewrite length_skipn in HL, H2.
  unfold at_offset, blen in *; repeat split; try lia.
  replace (Z.to_nat (start + Z.of_nat j)) with (j + Z.to_nat start)%nat by lia.
  exact H3.
Qed.

(** [find] from the start misses exactly when the pattern does not occur. *)
Lemma find_none_iff (d sub : list byte) :
  find d sub 0 = -1 <-> ~ occurs sub d.
Proof.
  unfold find; cbn [Z.ltb Z.compare].
  destruct (blen d <? 0) eqn:E; [pose proof (blen_nonneg d); apply Z.ltb_lt in E; lia|].
  change (Z.to_nat 0) with 0%nat; cbn [skipn].
  destruct (find_in_spec sub d 0 (Z.le_refl 0))
    as [[H1 H2]|(j & H1 & H2 & H3 & _)].
  - split; [|intros _; exact H1].
    intros _ (before & after & Hd).
    specialize (H2 (List.length before)).
    rewrite Hd, length_app in H2; specialize (H2 ltac:(lia)).
    rewrite skipn_app, Nat.sub_diag, skipn_all in H2; cbn [skipn app] in H2.
    assert (T : starts_with sub (sub ++ after) = true)
      by (apply starts_with_iff; eauto).
    congruence.
  - split; [lia|].
    intros Hno; exfalso; apply Hno.
    apply starts_with_iff in H3; destruct H3 as [rest H3].
    exists (firstn j d), rest; rewrite <- H3; symmetry; apply firstn_skipn.
Qed.

(** ** The scanning loops *)

Lemma skip_padding_ge (fuel : nat) (d : list byte) :
  forall s r, skip_padding fuel d s = Ok r -> s <= r.
Proof.
  induction fuel as [|fuel IH]; intros s r H; [discriminate|].
  cbn [skip_padding] in H.
  destruct (s <? blen d); [|injection H as <-; lia].
  bind_inv H.
  destruct (byte_val a =? 0); [|injection H as <-; lia].
  apply IH in H; lia.
Qed.

Lemma scan_build_offset_range (fuel : nat) (d : list byte) :
  forall i dot_count r,
    0 <= i -> scan_build_offset fuel d i dot_count = Ok r ->
    r = -1 \/ (i + 2 <= r /\ r <= blen d).
Proof.
  induction fuel as [|fuel IH]; intros i dc r Hi H; [discriminate|].
  cbn [scan_build_offset] in H.
  destruct (Z.ltb_spec i (blen d - 1)) as [Hlt|Hge];
    [|injection H as <-; left; reflexivity].
  bind_inv H.
  destruct (a =? 0); [injection H as <-; left; reflexivity|].
  destruct (a =? ord ".").
  - destruct (dc + 1 =? 2); [injection H as <-; right; lia|].
    apply IH in H; [|lia]; destruct H as [H|H]; [left; assumption|right; lia].
  - apply IH in H; [|lia]; destruct H as [H|H]; [left; assumption|right; lia].
Qed.

Lemma scan_build_end_range (fuel : nat) (d : list byte) :
  forall b r, b <= blen d -> scan_build_end fuel d b = Ok r ->
              b <= r /\ r <= blen d.
Proof.
  induction fuel as [|fuel IH]; intros b r Hb H; [discriminate|].
  cbn [scan_build_end] in H.
  destruct (Z.ltb_spec b (blen d - 1)) as [Hlt|Hge];
    [|injection H as <-; lia].
  bind_inv H.
  destruct ((a =? ord ".") || (a =? 0)); [injection H as <-; lia|].
  apply IH in H; lia.
Qed.

(** ** Writes in place *)

Lemma len_nonneg (s : string) : 0 <= len s.
Proof. unfold len; lia. Qed.

Lemma len_String (c : ascii) (s : string) : len (String c s) = len s + 1.
Proof. unfold len; cbn [String.length]; lia. Qed.

Lemma len_append (a b : string) : len (a ++ b) = len a + len b.
Proof.
  induction a as [|c a IH]; [reflexivity|].
  cbn [append]; rewrite !len_String, IH; lia.
Qed.

Lemma write_chars_spec (s : string) :
  forall d off j d',
    0 <= off + j * 2 -> write_chars d off j s = Ok d' ->
    blen d' = blen d /\
    forall i, Z.of_nat i < off + j * 2 \/ off + j * 2 + 2 * len s <= Z.of_nat i ->
              nth_error d' i = nth_error d i.
Proof.
  induction s as [|c s IH]; intros d off j d' Hpos H.
  - injection H as <-; split; reflexivity.
  - cbn [write_chars] in H; bind_inv H.
    pose proof (blen_pack_into_H _ _ _ _ Ha) as Hlen.
    assert (Hpos' : 0 <= off + (j + 1) * 2) by lia.
    destruct (IH a off (j + 1) d' Hpos' H) as (Hlen' & Hframe).
    rewrite len_String; pose proof (len_nonneg s); split; [congruence|].
    intros i Hi; rewrite Hframe by lia.
    apply (pack_into_H_other _ _ _ _ i Hpos Ha); lia.
Qed.

(** ** The sweep after a resize *)

Lemma find_positions_spaced (fuel : nat) (d sub : list byte) :
  forall pos positions,
    0 <= pos -> find_positions fuel d sub pos = Ok positions ->
    spaced (blen sub) pos (blen d) positions.
Proof.
  induction fuel as [|fuel IH]; intros pos ps Hpos H; [discriminate|].
  cbn [find_positions] in H.
  destruct (Z.eqb_spec (find d sub pos) (-1)) as [E|E];
    [injection H as <-; exact I|].
  bind_inv H; injection H as <-.
  destruct (find_hit d sub pos Hpos E) as (H1 & H2 & _).
  pose proof (blen_nonneg sub).
  cbn [spaced]; repeat split; [assumption | assumption |].
  apply IH; [lia | assumption].
Qed.

Lemma spaced_splices (new : list byte) (width : Z) (d : list byte)
    (positions : list Z) :
  forall lo,
    0 <= width -> 0 <= lo <= blen d -> spaced width lo (blen d) positions ->
    let r := fold_right (fun p acc => splice acc p new (p + width)) d positions in
    blen r = blen d + (blen new - width) * Z.of_nat (List.length positions)
    /\ lo <= blen r.
Proof.
  induction positions as [|p ps IH]; intros lo Hw Hlo Hs; cbn [fold_right].
  - simpl; split; lia.
  - destruct Hs as (H1 & H2 & H3).
    destruct (IH (p + width) Hw ltac:(lia) H3) as (IH1 & IH2).
    cbv zeta in IH1, IH2 |- *.
    rewrite blen_splice by lia.
    pose proof (blen_nonneg new).
    split; [|lia].
    rewrite IH1; cbn [List.length]; lia.
Qed.

Lemma further_rewritten_app (out : list message) (m : message) :
  further_rewritten (out ++ [m]) = further_rewritten out + extra m.
Proof.
  unfold further_rewritten; induction out as [|x out IH]; simpl; [lia|].
  simpl in IH; rewrite IH; lia.
Qed.

(** The sweep adds the difference of the two patterns once for every match
    after the first, and reports as much. *)
Lemma sweep_with_length_change (self self' : ResVersionBumper)
    (old_build new_build : string) (cv nv : VersionInfo) :
  current_version self = Some cv -> new_version self = Some nv ->
  _update_all_version_strings_with_length_change self old_build new_build
    = Ok self' ->
  let old_text := version_text (major cv) (minor cv) old_build (release cv) in
  let new_text := version_text (major nv) (minor nv) new_build (release nv) in
  blen (data self')
  = blen (data self)
    + (2 * len new_text - 2 * len old_text)
      * (further_rewritten (console self') - further_rewritten (console self))
  /\ current_version self' = Some cv /\ new_version self' = Some nv.
Proof.
  intros Hcv Hnv H old_text new_text.
  unfold _update_all_version_strings_with_length_change in H.
  rewrite Hcv, Hnv in H; bind_inv H; fold old_text new_text in Ha, H.
  rename a into positions.
  apply find_positions_spaced in Ha; [|lia].
  rewrite <- fold_left_rev_right, rev_involutive in H.
  pose proof (blen_nonneg (encode_utf16le old_text)) as Hwidth.
  set (width := blen (encode_utf16le old_text)) in *.
  set (new := encode_utf16le new_text) in *.
  assert (Hlen : blen (fold_right (fun p acc => splice acc p new (p + width))
                         (data self) (tl positions))
                 = blen (data self)
                   + (blen new - width) * Z.of_nat (List.length (tl positions))).
  { destruct positions as [|p0 ps]; [simpl; lia|].
    destruct Ha as (H1 & H2 & H3); cbn [tl].
    apply (spaced_splices new width (data self) ps (p0 + width));
      [assumption | lia | assumption]. }
  assert (Hw : blen new - width = 2 * len new_text - 2 * len old_text)
    by (unfold new, width; rewrite !blen_encode_utf16le; reflexivity).
  rewrite Hw in Hlen.
  assert (Hk : Z.of_nat (List.length (tl positions))
               = if 1 <? Z.of_nat (List.length positions)
                 then Z.of_nat (List.length positions) - 1 else 0).
  { destruct positions as [|p0 [|p1 ps]]; [reflexivity | reflexivity |].
    destruct (Z.ltb_spec 1 (Z.of_nat (List.length (p0 :: p1 :: ps))));
      cbn [tl List.length] in *; lia. }
  destruct (1 <? Z.of_nat (List.length positions)); injection H as <-.
  - cbn [print set_data data console current_version new_version].
    rewrite further_rewritten_app; cbn [extra].
    repeat split; [rewrite Hlen, Hk; f_equal; f_equal; lia | assumption..].
  - cbn [set_data data console current_version new_version].
    repeat split; [rewrite Hlen, Hk; f_equal; lia | assumption..].
Qed.

(** ** The resizing patch: how long the buffer gets *)

Lemma round_up_4_bounds (x : Z) : x <= round_up_4 x < x + 4.
Proof.
  unfold round_up_4.
  pose proof (Z.div_mod (x + 3) 4 ltac:(lia)).
  pose proof (Z.mod_pos_bound (x + 3) 4 ltac:(lia)).
  lia.
Qed.

Lemma diff_length_accounting (self self' : ResVersionBumper)
    (old_build_str new_build_str : string) (len_diff : Z) (cv nv : VersionInfo) :
  0 <= file_version_string_offset self ->
  current_version self = Some cv -> new_version self = Some nv ->
  _update_string_version_diff_length self old_build_str new_build_str len_diff
    = Ok (self', true) ->
  let old_text := version_text (major cv) (minor cv) old_build_str (release cv) in
  let new_text := version_text (major nv) (minor nv) new_build_str (release nv) in
  exists bso beo,
    build_span self = Ok (bso, beo) /\
    0 <= bso <= beo /\ beo <= blen (data self) /\
    blen (data self')
    = blen (data self) - (beo - bso) + 2 * len new_build_str
      + (round_up_4 (len_diff * 2) - len_diff * 2)
      + (2 * len new_text - 2 * len old_text)
        * (further_rewritten (console self') - further_rewritten (console self)).
Proof.
  intros Hstart Hcv Hnv H old_text new_text.
  unfold _update_string_version_diff_length in H.
  destruct (find (data self) file_version_key 0 =? -1); [discriminate|].
  bind_inv H; rename a into fv_wLength.
  bind_inv H; rename a into fv_wValueLength.
  bind_inv H; rename a into bso; rename Ha1 into Hbso.
  destruct (Z.eqb_spec bso (-1)) as [E|E]; [discriminate|].
  bind_inv H; rename a into beo; rename Ha1 into Hbeo.
  bind_inv H; rename a into fielded; rename Ha1 into Hfields.
  bind_inv H; rename a into swept; rename Ha1 into Hsweep.
  injection H as <-.
  pose proof (scan_build_offset_range _ _ _ _ _ Hstart Hbso) as [R|R]; [contradiction|].
  pose proof (scan_build_end_range _ _ _ _ (proj2 R) Hbeo) as R'.
  exists bso, beo; split; [|split; [lia|split; [lia|]]].
  { unfold build_span; rewrite Hbso; cbn [bind]; rewrite Hbeo; reflexivity. }
  fold (round_up_4 (len_diff * 2)) in Hfields.
  pose proof (round_up_4_bounds (len_diff * 2)) as Hpad.
  set (pad := round_up_4 (len_diff * 2) - len_diff * 2) in *.
  match type of Hfields with
  | _update_length_fields ?s _ _ _ = _ => set (padded := s) in *
  end.
  assert (Hpadded : blen (data padded)
                    = blen (data self) - (beo - bso) + 2 * len new_build_str + pad
                    /\ current_version padded = Some cv
                    /\ new_version padded = Some nv
                    /\ console padded = console self).
  { unfold padded; destruct (Z.ltb_spec 0 pad) as [Hp|Hp];
      cbn [set_data record data current_version new_version console].
    - rewrite blen_splice_insert, blen_repeat, blen_splice by lia.
      rewrite blen_encode_utf16le; repeat split; auto; lia.
    - rewrite blen_splice by lia.
      rewrite blen_encode_utf16le; repeat split; auto; lia. }
  destruct Hpadded as (Hlen & Hcv' & Hnv' & Hcon).
  rewrite update_length_fields_table, adjust_fields_guarded in Hfields.
  pose proof (apart_guarded (blen (data padded)) 0 _
                (apart_length_fields (len_diff * 2) (round_up_4 (len_diff * 2))))
    as Hap.
  destruct (rewrite_fields_spec _ 0 _ _ (Z.le_refl 0) Hap Hfields)
    as (Hlen2 & _ & _ & Hcon2 & Hcv2 & Hnv2).
  rewrite Hcv' in Hcv2; rewrite Hnv' in Hnv2.
  destruct (sweep_with_length_change _ _ _ _ _ _ Hcv2 Hnv2 Hsweep)
    as (Hlen3 & _ & _).
  fold old_text new_text in Hlen3.
  rewrite Hlen3, Hlen2, Hlen, Hcon2, Hcon; reflexivity.
Qed.

(** The resizing patch hands [_update_length_fields] the deltas
    [len_diff * 2] and its round-up, and the sweep runs on what that
    returns. *)
Lemma diff_length_length_fields (self self' : ResVersionBumper)
    (old_build_str new_build_str : string) (len_diff : Z) :
  _update_string_version_diff_length self old_build_str new_build_str len_diff
    = Ok (self', true) ->
  exists padded fielded,
    _update_length_fields padded (len_diff * 2) (round_up_4 (len_diff * 2))
      (find (data self) file_version_key 0 - 6) = Ok fielded /\
    _update_all_version_strings_with_length_change fielded
      old_build_str new_build_str = Ok self'.
Proof.
  intros H; unfold _update_string_version_diff_length in H.
  destruct (find (data self) file_version_key 0 =? -1); [discriminate|].
  do 3 bind_inv H.
  destruct (a1 =? -1); [discriminate|].
  do 3 bind_inv H; injection H as <-.
  eexists; eexists; split; [exact Ha3 | exact Ha4].
Qed.

(** ** Analysis and the binary half-word *)

Section Sessions.

Variable py_int : list Z -> option Z.

Lemma find_binary_version_true (self self' : ResVersionBumper) :
  find_binary_version self = Ok (self', true) ->
  data self' = data self /\
  ffi_offset self' = find (data self) VS_FFI_SIGNATURE 0 /\
  0 <= ffi_offset self' /\
  file_version_ls_offset self' = ffi_offset self' + 12 /\
  ffi_offset self' + 16 <= blen (data self) /\
  further_rewritten (console self') = further_rewritten (console self) /\
  current_version self' = current_version self /\
  new_version self' = new_version self.
Proof.
  unfold find_binary_version; intros H.
  destruct (Z.eqb_spec (find (data self) VS_FFI_SIGNATURE 0) (-1)) as [E|E];
    [discriminate|].
  destruct (find_hit _ _ 0 (Z.le_refl 0) E) as (Hpos & _).
  bind_inv H; bind_inv H; injection H as <-.
  cbn [print set_binary_offsets data ffi_offset file_version_ls_offset console
         current_version new_version] in *.
  unfold unpack_from_I in Ha0; bind_inv Ha0.
  apply struct_offset_inside in Ha1; [|lia].
  rewrite further_rewritten_app; cbn [extra].
  repeat split; try reflexivity; lia.
Qed.

Lemma find_string_version_true (self self' : ResVersionBumper) :
  find_string_version py_int self = Ok (self', true) ->
  data self' = data self /\
  ffi_offset self' = ffi_offset self /\
  file_version_ls_offset self' = file_version_ls_offset self /\
  0 <= file_version_string_offset self' /\
  console self' = console self /\
  (exists v, current_version self' = Some v) /\
  new_version self' = new_version self.
Proof.
  unfold find_string_version; intros H.
  destruct (Z.eqb_spec (find (data self) file_version_key 0) (-1)) as [E|E];
    [discriminate|].
  destruct (find_hit _ _ 0 (Z.le_refl 0) E) as (Hpos & _).
  bind_inv H; apply skip_padding_ge in Ha.
  bind_inv H; bind_inv H; injection H as <-.
  cbn [set_current_version set_string_offset data ffi_offset
         file_version_ls_offset file_version_string_offset console
         current_version new_version].
  pose proof (blen_nonneg file_version_key).
  repeat split; try reflexivity; [lia | eauto].
Qed.

(** What a successful analysis of [content] has established. *)
Lemma analyze_true (content : list byte) (self : ResVersionBumper) :
  analyze py_int (on_disk content) init = Ok (self, true) ->
  data self = content /\
  ffi_offset self = find content VS_FFI_SIGNATURE 0 /\
  0 <= ffi_offset self /\
  file_version_ls_offset self = ffi_offset self + 12 /\
  ffi_offset self + 16 <= blen content /\
  0 <= file_version_string_offset self /\
  further_rewritten (console self) = 0 /\
  (exists v, current_version self = Some v).
Proof.
  unfold analyze, load, on_disk; cbn [res_file negb].
  intros H; bind_inv H; destruct a as [s1 [|]]; cbn [negb] in H;
    [|discriminate].
  bind_inv H; destruct a as [s2 [|]]; cbn [negb] in H; [|discriminate].
  injection H as <-.
  apply find_binary_version_true in Ha.
  apply find_string_version_true in Ha0.
  cbn [set_data init data console current_version new_version] in Ha.
  destruct Ha as (A1 & A2 & A3 & A4 & A5 & A6 & _).
  destruct Ha0 as (B1 & B2 & B3 & B4 & B5 & B6 & _).
  rewrite B1, B2, B3, B5, A1.
  repeat split; assumption.
Qed.

Lemma calculate_new_version_Ok (self self' : ResVersionBumper)
    (new_build : option Z) (nv : VersionInfo) :
  calculate_new_version self new_build = Ok (self', nv) ->
  exists cv, current_version self = Some cv /\
             self' = set_new_version self nv /\
             major nv = major cv /\ minor nv = minor cv /\
             release nv = release cv /\
             build nv = match new_build with
                        | None => build cv + 1
                        | Some b => b
                        end.
Proof.
  unfold calculate_new_version; intros H.
  destruct (current_version self) as [cv|]; [|discriminate].
  injection H as <- <-; exists cv; repeat split.
Qed.

(** The binary update writes the half-word two bytes into FileVersionLS and
    touches nothing else. *)
Lemma update_binary_version_Ok (self self' : ResVersionBumper) :
  0 <= file_version_ls_offset self ->
  update_binary_version self = Ok self' ->
  blen (data self') = blen (data self) /\
  (forall i, Z.of_nat i < file_version_ls_offset self + 2
             \/ file_version_ls_offset self + 4 <= Z.of_nat i ->
             nth_error (data self') i = nth_error (data self) i) /\
  file_version_ls_offset self' = file_version_ls_offset self /\
  file_version_string_offset self' = file_version_string_offset self /\
  console self' = console self /\
  current_version self' = current_version self /\
  new_version self' = new_version self.
Proof.
  unfold update_binary_version; intros Hls H.
  destruct (new_version self) as [nv|] eqn:Hnv; [|discriminate].
  do 4 bind_inv H; rename a2 into d; rename Ha2 into Hpack.
  do 2 bind_inv H; injection H as <-.
  cbn [record set_data data file_version_ls_offset file_version_string_offset
         console current_version new_version].
  repeat split; try reflexivity; try assumption.
  - eapply blen_pack_into_H; eassumption.
  - intros i Hi.
    assert (Ho : 0 <= file_version_ls_offset self + 2) by lia.
    apply (pack_into_H_other _ _ _ _ i Ho Hpack); lia.
Qed.

(** The state handed to [update_string_version]. *)
Lemma prepared_Some (content : list byte) (new_build : option Z)
    (before : ResVersionBumper) :
  prepared py_int content new_build = Some before ->
  exists cv nv,
    current_version before = Some cv /\ new_version before = Some nv /\
    major nv = major cv /\ minor nv = minor cv /\ release nv = release cv /\
    build nv = match new_build with
               | None => build cv + 1
               | Some b => b
               end /\
    blen (data before) = blen content /\
    0 <= file_version_ls_offset before /\
    file_version_ls_offset before + 4 <= blen content /\
    file_version_ls_offset before = find content VS_FFI_SIGNATURE 0 + 12 /\
    (forall i, Z.of_nat i < file_version_ls_offset before + 2
               \/ file_version_ls_offset before + 4 <= Z.of_nat i ->
               nth_error (data before) i = nth_error content i) /\
    0 <= file_version_string_offset before /\
    further_rewritten (console before) = 0.
Proof.
  unfold prepared; intros H.
  destruct (analyze py_int (on_disk content) init) as [[s0 [|]]|] eqn:Ha;
    try discriminate.
  destruct (calculate_new_version s0 new_build) as [[s1 nv]|] eqn:Hc;
    try discriminate.
  destruct (update_binary_version s1) as [s2|] eqn:Hb; try discriminate.
  injection H as <-.
  apply analyze_true in Ha.
  destruct Ha as (A1 & A2 & A3 & A4 & A5 & A6 & A7 & _).
  apply calculate_new_version_Ok in Hc.
  destruct Hc as (cv & C1 & -> & C3 & C4 & C5 & C6).
  apply update_binary_version_Ok in Hb;
    [|cbn [set_new_version file_version_ls_offset]; lia].
  cbn [set_new_version data file_version_ls_offset file_version_string_offset
         console current_version new_version] in Hb.
  destruct Hb as (B1 & B2 & B3 & B4 & B5 & B6 & B7).
  exists cv, nv.
  rewrite B3, B4, B5, B6, B7, B1, A1.
  repeat split; try assumption; try lia.
  intros i Hi; rewrite B2 by (rewrite A4; rewrite A4 in Hi; exact Hi).
  rewrite A1; reflexivity.
Qed.

(** A session that ran to a successful text update went through
    [prepared]. *)
Lemma session_true (content : list byte) (new_build : option Z)
    (after : ResVersionBumper) :
  session py_int content new_build = Ok (after, true) ->
  exists before,
    prepared py_int content new_build = Some before /\
    update_string_version before = Ok (after, true).
Proof.
  unfold session, prepared; intros H.
  destruct (analyze py_int (on_disk content) init) as [[s0 [|]]|e];
    cbn [bind negb] in H; try discriminate.
  destruct (calculate_new_version s0 new_build) as [[s1 nv]|e];
    cbn [bind] in H; try discriminate.
  destruct (update_binary_version s1) as [s2|e]; cbn [bind] in H;
    try discriminate.
  exists s2; split; [reflexivity | exact H].
Qed.

End Sessions.

(** ** The claims on the resizing patch *)

Lemma len_version_text (major minor : Z) (build : string) (release : Z) :
  len (version_text major minor build release)
  = len (str major) + len (str minor) + len build + len (str release) + 3.
Proof.
  unfold version_text; rewrite !len_append.
  change (len ".") with 1; lia.
Qed.

(** C1, amended: in a session whose resizing patch completes on a buffer
    whose build digit run has [oldDigits] code units, the output buffer's
    length is the input's plus [alignedDelta], plus [byteDelta] for every
    further occurrence of the old version string that the closing sweep
    rewrote, where [byteDelta = 2 * (newDigits - oldDigits)] and
    [alignedDelta] is [byteDelta] rounded up to a multiple of four. *)
Theorem resize_length (py_int : list Z -> option Z) (content : list byte)
    (new_build : option Z) (before after : ResVersionBumper)
    (cv nv : VersionInfo) (bso beo : Z) :
  prepared py_int content new_build = Some before ->
  update_string_version before = Ok (after, true) ->
  current_version before = Some cv -> new_version before = Some nv ->
  let oldDigits := len (str (build cv)) in
  let newDigits := len (str (build nv)) in
  newDigits <> oldDigits ->
  build_span before = Ok (bso, beo) -> beo - bso = 2 * oldDigits ->
  let byteDelta := 2 * (newDigits - oldDigits) in
  let alignedDelta := round_up_4 byteDelta in
  blen (data after)
  = blen content + alignedDelta + byteDelta * further_rewritten (console after).
Proof.
  intros Hprep Hupd Hcv Hnv oldDigits newDigits Hne Hspan Hrun byteDelta alignedDelta.
  (* what the session has established before the text update *)
  destruct (prepared_Some _ _ _ _ Hprep)
    as (cv' & nv' & Hcv' & Hnv' & HM & Hm & Hr & _ & Hlen & _ & _ & _ & _ & Hs & Hf).
  rewrite Hcv in Hcv'; rewrite Hnv in Hnv'.
  injection Hcv' as <-; injection Hnv' as <-.
  (* the digit counts differ: the resizing patch runs *)
  unfold update_string_version in Hupd; rewrite Hcv, Hnv in Hupd.
  fold oldDigits newDigits in Hupd.
  destruct (Z.eqb_spec (newDigits - oldDigits) 0) as [E|E]; [lia|].
  (* splice, padding, length fields, sweep *)
  destruct (diff_length_accounting _ _ _ _ _ _ _ Hs Hcv Hnv Hupd)
    as (bso' & beo' & Hspan' & _ & _ & Hacc).
  rewrite Hspan in Hspan'; injection Hspan' as <- <-.
  rewrite Hacc, Hlen, Hf, !len_version_text, HM, Hm, Hr.
  fold oldDigits newDigits; unfold alignedDelta, byteDelta.
  replace ((newDigits - oldDigits) * 2) with (2 * (newDigits - oldDigits)) by lia.
  lia.
Qed.

Lemma resize_length_witness :
  build_span (fst grow_two) = Ok (396, 398) /\
  further_rewritten (console (snd grow_two)) = 0 /\
  blen (data (snd grow_two)) = blen (res_two 9) + 4.
Proof.
  split; [vm_compute; reflexivity|].
  split; [vm_compute; reflexivity|].
  change 4 with (round_up_4 (2 * (len (str 10) - len (str 9)))
                 + 2 * (len (str 10) - len (str 9))
                   * further_rewritten (console (snd grow_two))).
  rewrite Z.add_assoc.
  apply (resize_length int_ascii (res_two 9) (Some 10) (fst grow_two)
           (snd grow_two) (v_10_2503 9) (v_10_2503 10) 396 398).
  - vm_compute; reflexivity.
  - vm_compute; reflexivity.
  - vm_compute; reflexivity.
  - vm_compute; reflexivity.
  - vm_compute; discriminate.
  - vm_compute; reflexivity.
  - vm_compute; reflexivity.
Defined.

(** Three copies of 10.2503.9.0 and a patch to build 10: the output is six
    bytes longer than the input, not [alignedDelta = 4]. *)
Lemma resize_length_counterexample :
  round_up_4 (2 * (len (str 10) - len (str 9))) = 4 /\
  option_map blen (patched_buffer (session int_ascii (res_three 9) (Some 10)))
  = Some (blen (res_three 9) + 6).
Proof. split; vm_compute; reflexivity. Qed.

(** A version text that spells the build 09: [int] reads 9, one digit, but
    the digit run in the buffer has two code units; the patch to build 10
    adds the padding only, 2 bytes. *)
Lemma resize_length_leading_zero :
  option_map build (current_version (analysed res_leading_zero)) = Some 9 /\
  build_span (analysed res_leading_zero) = Ok (396, 400) /\
  option_map blen (patched_buffer (session int_ascii res_leading_zero (Some 10)))
  = Some (blen res_leading_zero + 2).
Proof. repeat split; vm_compute; reflexivity. Qed.

(** ** The sweep of a same-width patch *)

Lemma starts_with_nth (sub l : list byte) :
  starts_with sub l = true
  <-> forall k, (k < List.length sub)%nat -> nth_error l k = nth_error sub k.
Proof.
  revert l; induction sub as [|s sub IH]; intros l.
  - split; [intros _ k Hk; simpl in Hk; lia | reflexivity].
  - destruct l as [|x l]; cbn [starts_with].
    + split; [discriminate|].
      intros H; specialize (H 0%nat ltac:(simpl; lia)); discriminate.
    + rewrite andb_true_iff, IH; split.
      * intros [E H] [|k] Hk; cbn [nth_error].
        -- apply Byte.byte_dec_bl in E; congruence.
        -- apply H; simpl in Hk; lia.
      * intros H; split.
        -- specialize (H 0%nat ltac:(simpl; lia)); cbn [nth_error] in H.
           injection H as ->; apply Byte.byte_dec_lb; reflexivity.
        -- intros k Hk; apply (H (S k)); simpl; lia.
Qed.

Lemma at_offset_nth (sub d : list byte) (p : Z) :
  at_offset sub d p
  <-> 0 <= p /\ forall k, (k < List.length sub)%nat ->
                   nth_error d (Z.to_nat p + k) = nth_error sub k.
Proof.
  unfold at_offset; rewrite starts_with_nth.
  split; intros [H0 H]; split; try assumption; intros k Hk;
    specialize (H k Hk); rewrite nth_error_skipn in *; exact H.
Qed.

(** A match only depends on the bytes under it. *)
Lemma at_offset_same_bytes (sub d d' : list byte) (p : Z) :
  at_offset sub d p ->
  (forall i, p <= Z.of_nat i < p + blen sub -> nth_error d' i = nth_error d i) ->
  at_offset sub d' p.
Proof.
  rewrite !at_offset_nth; intros [H0 H] Hsame; split; [assumption|].
  intros k Hk; rewrite Hsame by (unfold blen; lia); apply H; assumption.
Qed.

Lemma setitem_spec (d : list byte) (j : Z) (b : byte) (d' : list byte) :
  0 <= j -> setitem d j b = Ok d' ->
  j < blen d /\ blen d' = blen d /\
  nth_error d' (Z.to_nat j) = Some b /\
  forall i, i <> Z.to_nat j -> nth_error d' i = nth_error d i.
Proof.
  intros Hj H; unfold setitem, index_of in H.
  destruct (j <? 0) eqn:E0; [apply Z.ltb_lt in E0; lia|].
  destruct ((j <? 0) || (blen d <=? j)) eqn:E1; [discriminate|].
  apply orb_false_iff in E1; destruct E1 as [_ E1]; apply Z.leb_gt in E1.
  cbn [bind] in H; injection H as <-.
  assert (Hn : (Z.to_nat j < List.length d)%nat) by (unfold blen in E1; lia).
  assert (Hf : List.length (firstn (Z.to_nat j) d) = Z.to_nat j)
    by (rewrite length_firstn; lia).
  repeat split.
  - assumption.
  - unfold blen; rewrite length_app, Hf, length_cons, length_skipn; lia.
  - rewrite nth_error_app2 by lia; rewrite Hf, Nat.sub_diag; reflexivity.
  - intros i Hi.
    rewrite <- (firstn_skipn (Z.to_nat j) d) at 3.
    destruct (Nat.lt_ge_cases i (Z.to_nat j)) as [Hlt|Hge].
    + rewrite !nth_error_app1 by lia; reflexivity.
    + rewrite !nth_error_app2 by lia; rewrite Hf, nth_error_skipn.
      destruct (i - Z.to_nat j)%nat as [|m] eqn:Em; [lia|].
      cbn [nth_error]; rewrite nth_error_skipn; f_equal; lia.
Qed.

Lemma overwrite_spec (pattern : list byte) :
  forall d pos i d',
    0 <= pos + i -> overwrite d pos i pattern = Ok d' ->
    blen d' = blen d /\
    (forall k, Z.of_nat k < pos + i \/ pos + i + blen pattern <= Z.of_nat k ->
               nth_error d' k = nth_error d k) /\
    (forall k, (k < List.length pattern)%nat ->
               nth_error d' (Z.to_nat (pos + i) + k) = nth_error pattern k).
Proof.
  induction pattern as [|b pattern IH]; intros d pos i d' Hpos H.
  - injection H as <-; repeat split; intros k Hk; simpl in Hk; lia.
  - cbn [overwrite] in H; bind_inv H.
    destruct (setitem_spec _ _ _ _ Hpos Ha) as (Hin & Hlen & Hset & Hother).
    assert (Hpos' : 0 <= pos + (i + 1)) by lia.
    destruct (IH _ _ _ _ Hpos' H) as (Hlen' & Hframe & Hwritten).
    assert (E : blen (b :: pattern) = blen pattern + 1)
      by (unfold blen; cbn [List.length]; lia).
    pose proof (blen_nonneg pattern).
    repeat split.
    + congruence.
    + intros k Hk; rewrite Hframe by lia; apply Hother; lia.
    + intros [|k] Hk; cbn [nth_error].
      * rewrite Nat.add_0_r, Hframe by lia; exact Hset.
      * replace (Z.to_nat (pos + i) + S k)%nat
          with (Z.to_nat (pos + (i + 1)) + k)%nat by lia.
        apply Hwritten; simpl in Hk; lia.
Qed.

(** The in-place sweep from [pos]: the length stays, bytes before [pos]
    stay, and a byte that changes lies under a place that read the old
    pattern and now reads the new. *)
Lemma replace_each_spec (old new : list byte) (fuel : nat) :
  blen new = blen old ->
  forall d pos count d' count',
    0 <= pos ->
    replace_each fuel d old new pos count = Ok (d', count') ->
    blen d' = blen d /\
    (forall i, Z.of_nat i < pos -> nth_error d' i = nth_error d i) /\
    (forall i, nth_error d' i = nth_error d i
               \/ exists p, pos <= p /\ p <= Z.of_nat i < p + blen old /\
                            at_offset old d p /\ at_offset new d' p).
Proof.
  intros Hsame; induction fuel as [|fuel IH]; intros d pos count d' count' Hpos H;
    [discriminate|].
  cbn [replace_each] in H.
  destruct (Z.eqb_spec (find d old pos) (-1)) as [E|E].
  { injection H as <- <-; repeat split; auto. }
  destruct (find_hit d old pos Hpos E) as (Hge & Hfit & Hat).
  set (p := find d old pos) in *.
  bind_inv H; rename a into d1.
  assert (Hp0 : 0 <= p + 0) by lia.
  destruct (overwrite_spec _ _ _ _ _ Hp0 Ha) as (Hlen1 & Hframe1 & Hnew1).
  pose proof (blen_nonneg old) as Hold.
  assert (Hnext : 0 <= p + blen old) by lia.
  destruct (IH _ _ _ _ _ Hnext H) as (Hlen2 & Hbefore2 & Hchg2).
  repeat split.
  - congruence.
  - intros i Hi; rewrite Hbefore2 by lia; apply Hframe1; lia.
  - intros i.
    destruct (Hchg2 i) as [Heq|(q & Hq & Hqi & Hqold & Hqnew)].
    + destruct (Z.lt_ge_cases (Z.of_nat i) p) as [Hlo|Hhi].
      { left; rewrite Heq; apply Hframe1; lia. }
      destruct (Z.lt_ge_cases (Z.of_nat i) (p + blen old)) as [Hin|Hout].
      * right; exists p; split; [lia|]; split; [lia|]; split; [exact Hat|].
        apply at_offset_nth; split; [lia|].
        intros k Hk; rewrite Hbefore2 by (unfold blen in *; lia).
        rewrite Z.add_0_r in Hnew1; apply Hnew1; exact Hk.
      * left; rewrite Heq; apply Hframe1; lia.
    + right; exists q; split; [lia|]; split; [lia|]; split; [|exact Hqnew].
      apply (at_offset_same_bytes old d1 d q Hqold).
      intros k Hk; symmetry; apply Hframe1; lia.
Qed.

(** ** The same-width patch *)

Lemma update_all_version_strings_Ok (self self' : ResVersionBumper)
    (old_build new_build : string) :
  len new_build = len old_build ->
  _update_all_version_strings self old_build new_build = Ok self' ->
  let old_pattern := encode_utf16le ("." ++ old_build ++ ".") in
  let new_pattern := encode_utf16le ("." ++ new_build ++ ".") in
  blen (data self') = blen (data self) /\
  forall i, nth_error (data self') i = nth_error (data self) i
            \/ exists p, p <= Z.of_nat i < p + blen old_pattern /\
                         at_offset old_pattern (data self) p /\
                         at_offset new_pattern (data self') p.
Proof.
  intros Hlen H old_pattern new_pattern.
  unfold _update_all_version_strings in H; bind_inv H.
  destruct a as [d count]; fold old_pattern new_pattern in Ha.
  assert (Hpat : blen new_pattern = blen old_pattern).
  { unfold new_pattern, old_pattern.
    rewrite !blen_encode_utf16le, !len_append, Hlen; reflexivity. }
  destruct (replace_each_spec _ _ _ Hpat _ _ _ _ _ (Z.le_refl 0) Ha)
    as (H1 & _ & H3).
  assert (Hd : data self' = d).
  { destruct (1 <? count); injection H as <-; reflexivity. }
  rewrite Hd; split; [assumption|].
  intros i; destruct (H3 i) as [Heq|(p & _ & Hp)]; [left; assumption|].
  right; exists p; exact Hp.
Qed.

Lemma same_length_frame (self self' : ResVersionBumper)
    (old_build_str new_build_str : string) :
  0 <= file_version_string_offset self ->
  len new_build_str = len old_build_str ->
  _update_string_version_same_length self old_build_str new_build_str
    = Ok (self', true) ->
  let old_pattern := encode_utf16le ("." ++ old_build_str ++ ".") in
  let new_pattern := encode_utf16le ("." ++ new_build_str ++ ".") in
  blen (data self') = blen (data self) /\
  exists run mid,
    scan_build_offset
      (rounds (data self) (file_version_string_offset self)) (data self)
      (file_version_string_offset self) 0 = Ok run /\
    write_chars (data self) run 0 new_build_str = Ok mid /\
    forall i, nth_error (data self') i = nth_error (data self) i
              \/ run <= Z.of_nat i < run + 2 * len new_build_str
              \/ exists p, p <= Z.of_nat i < p + blen old_pattern /\
                           at_offset old_pattern mid p /\
                           at_offset new_pattern (data self') p.
Proof.
  intros Hstart Hlen H old_pattern new_pattern.
  unfold _update_string_version_same_length in H.
  bind_inv H; rename a into run; rename Ha into Hrun.
  destruct (Z.eqb_spec run (-1)) as [E|E]; [discriminate|].
  bind_inv H; rename a into mid; rename Ha into Hmid.
  bind_inv H; rename a into swept; injection H as <-.
  destruct (scan_build_offset_range _ _ _ _ _ Hstart Hrun) as [R|R];
    [contradiction|].
  assert (Hrun0 : 0 <= run + 0 * 2) by lia.
  destruct (write_chars_spec _ _ _ _ _ Hrun0 Hmid) as (Hlen1 & Hframe1).
  destruct (update_all_version_strings_Ok _ _ _ _ Hlen Ha) as (Hlen2 & Hchg).
  cbn [record set_data data] in Hlen2, Hchg.
  split; [congruence|].
  exists run, mid; split; [assumption|]; split; [assumption|].
  intros i; destruct (Hchg i) as [Heq|Hp]; [|right; right; exact Hp].
  destruct (Z.lt_ge_cases (Z.of_nat i) run) as [Hlo|Hhi].
  { left; rewrite Heq; apply Hframe1; lia. }
  destruct (Z.lt_ge_cases (Z.of_nat i) (run + 2 * len new_build_str))
    as [Hin|Hout].
  - right; left; lia.
  - left; rewrite Heq; apply Hframe1; lia.
Qed.

(** C5, amended: a same-digit-width patch in a session leaves the buffer
    its length, and every byte is as in the input unless it lies in the
    binary build half-word, in the build digit run of the version text, or
    under an occurrence of the delimited pattern ["." old "."] that the
    global substitution rewrote to ["." new "."]. *)
Theorem same_width_frame (py_int : list Z -> option Z) (content : list byte)
    (new_build : option Z) (before after : ResVersionBumper)
    (cv nv : VersionInfo) :
  prepared py_int content new_build = Some before ->
  update_string_version before = Ok (after, true) ->
  current_version before = Some cv -> new_version before = Some nv ->
  let old := str (build cv) in
  let new := str (build nv) in
  len new = len old ->
  let half_word := find content VS_FFI_SIGNATURE 0 + 14 in
  let old_pattern := encode_utf16le ("." ++ old ++ ".") in
  let new_pattern := encode_utf16le ("." ++ new ++ ".") in
  blen (data after) = blen content /\
  exists run mid,
    scan_build_offset
      (rounds (data before) (file_version_string_offset before)) (data before)
      (file_version_string_offset before) 0 = Ok run /\
    write_chars (data before) run 0 new = Ok mid /\
    forall i, nth_error (data after) i = nth_error content i
              \/ half_word <= Z.of_nat i < half_word + 2
              \/ run <= Z.of_nat i < run + 2 * len new
              \/ exists p, p <= Z.of_nat i < p + blen old_pattern /\
                           at_offset old_pattern mid p /\
                           at_offset new_pattern (data after) p.
Proof.
  intros Hprep Hupd Hcv Hnv old new Hlen half_word old_pattern new_pattern.
  destruct (prepared_Some _ _ _ _ Hprep)
    as (cv' & nv' & _ & _ & _ & _ & _ & _ & Hblen & Hls0 & _ & Hls & Hframe & Hs & _).
  unfold update_string_version in Hupd; rewrite Hcv, Hnv in Hupd.
  fold old new in Hupd.
  destruct (Z.eqb_spec (len new - len old) 0) as [E|E]; [|lia].
  destruct (same_length_frame _ _ _ _ Hs Hlen Hupd)
    as (Hlen' & run & mid & Hrun & Hmid & Hchg).
  split; [congruence|].
  exists run, mid; split; [assumption|]; split; [assumption|].
  intros i; destruct (Hchg i) as [Heq|[Hin|Hp]];
    [|right; right; left; exact Hin | right; right; right; exact Hp].
  unfold half_word; rewrite <- Z.add_assoc; change (12 + 2) with 14 in *.
  destruct (Z.lt_ge_cases (Z.of_nat i) (file_version_ls_offset before + 2))
    as [Hlo|Hhi].
  { left; rewrite Heq; apply Hframe; lia. }
  destruct (Z.lt_ge_cases (Z.of_nat i) (file_version_ls_offset before + 4))
    as [Hin|Hout].
  - right; left; lia.
  - left; rewrite Heq; apply Hframe; lia.
Qed.

Lemma same_width_frame_witness :
  len (str 7) = len (str 6) /\
  blen (data (snd same_two)) = blen (res_two 6).
Proof.
  split; [reflexivity|].
  apply (same_width_frame int_ascii (res_two 6) (Some 7) (fst same_two)
           (snd same_two) (v_10_2503 6) (v_10_2503 7)).
  - vm_compute; reflexivity.
  - vm_compute; reflexivity.
  - vm_compute; reflexivity.
  - vm_compute; reflexivity.
  - vm_compute; reflexivity.
Defined.

(** 10.2503.6.0 in FileVersion and in ProductVersion, patched to build 7:
    byte 456, the build digit of ProductVersion, lies outside the binary
    half-word (118, 119) and outside the digit run of the version text
    (396, 397), and goes from "6" to "7". *)
Lemma same_width_frame_counterexample :
  find (res_two 6) VS_FFI_SIGNATURE 0 + 14 = 118 /\
  build_span (fst same_two) = Ok (396, 398) /\
  nth_error (res_two 6) 456 = Some x36 /\
  option_map (fun d => nth_error d 456)
    (patched_buffer (session int_ascii (res_two 6) (Some 7)))
  = Some (Some x37).
Proof. repeat split; vm_compute; reflexivity. Qed.

(** ** Growing and shrinking back *)

(** The length of the buffer after a resizing patch in a session, for the
    round trips below. *)
Lemma resize_accounting (py_int : list Z -> option Z) (content : list byte)
    (new_build : option Z) (before after : ResVersionBumper)
    (cv nv : VersionInfo) (bso beo : Z) :
  prepared py_int content new_build = Some before ->
  update_string_version before = Ok (after, true) ->
  current_version before = Some cv -> new_version before = Some nv ->
  len (str (build nv)) <> len (str (build cv)) ->
  build_span before = Ok (bso, beo) ->
  beo - bso = 2 * len (str (build cv)) ->
  blen (data after)
  = blen content + round_up_4 (2 * (len (str (build nv)) - len (str (build cv))))
    + 2 * (len (str (build nv)) - len (str (build cv)))
      * further_rewritten (console after).
Proof.
  intros Hprep Hupd Hcv Hnv Hne Hspan Hrun.
  destruct (prepared_Some _ _ _ _ Hprep)
    as (cv' & nv' & Hcv' & Hnv' & HM & Hm & Hr & _ & Hlen & _ & _ & _ & _ & Hs & Hf).
  rewrite Hcv in Hcv'; rewrite Hnv in Hnv'.
  injection Hcv' as <-; injection Hnv' as <-.
  unfold update_string_version in Hupd; rewrite Hcv, Hnv in Hupd.
  destruct (Z.eqb_spec (len (str (build nv)) - len (str (build cv))) 0) as [E|E];
    [lia|].
  destruct (diff_length_accounting _ _ _ _ _ _ _ Hs Hcv Hnv Hupd)
    as (bso' & beo' & Hspan' & _ & _ & Hacc).
  rewrite Hspan in Hspan'; injection Hspan' as <- <-.
  rewrite Hacc, Hlen, Hf, !len_version_text, HM, Hm, Hr.
  replace ((len (str (build nv)) - len (str (build cv))) * 2)
    with (2 * (len (str (build nv)) - len (str (build cv)))) by lia.
  lia.
Qed.

(** C3, amended: take a buffer whose version text has the one-digit build
    9, patch it to 10, and patch the result, whose text then has the
    two-digit build 10, back to 9.  When both patches complete, the final
    buffer is the original's length plus 4 (the grow adds
    [alignedDelta = 4], the shrink adds [alignedDelta = 0]), plus 2 for each
    further occurrence the first sweep rewrote and minus 2 for each the
    second rewrote; when the two sweeps rewrote equally many, none in
    particular, the final buffer is four bytes longer than the original and
    so differs from it. *)
Theorem grow_then_shrink (py_int : list Z -> option Z) (content : list byte)
    (before grown before' back : ResVersionBumper) (cv cv' : VersionInfo)
    (bso beo bso' beo' : Z) :
  prepared py_int content (Some 10) = Some before ->
  update_string_version before = Ok (grown, true) ->
  current_version before = Some cv -> build cv = 9 ->
  build_span before = Ok (bso, beo) -> beo - bso = 2 ->
  prepared py_int (data grown) (Some 9) = Some before' ->
  update_string_version before' = Ok (back, true) ->
  current_version before' = Some cv' -> build cv' = 10 ->
  build_span before' = Ok (bso', beo') -> beo' - bso' = 4 ->
  blen (data back)
  = blen content + 4 + 2 * further_rewritten (console grown)
    - 2 * further_rewritten (console back)
  /\ (further_rewritten (console grown) = further_rewritten (console back) ->
      data back <> content).
Proof.
  intros Hp1 Hu1 Hcv1 Hb1 Hs1 Hr1 Hp2 Hu2 Hcv2 Hb2 Hs2 Hr2.
  destruct (prepared_Some _ _ _ _ Hp1)
    as (c1 & n1 & Hc1 & Hn1 & _ & _ & _ & Hnb1 & _).
  destruct (prepared_Some _ _ _ _ Hp2)
    as (c2 & n2 & Hc2 & Hn2 & _ & _ & _ & Hnb2 & _).
  rewrite Hcv1 in Hc1; injection Hc1 as <-.
  rewrite Hcv2 in Hc2; injection Hc2 as <-.
  pose proof (resize_accounting py_int content (Some 10) before grown cv n1
                bso beo Hp1 Hu1 Hcv1 Hn1) as E1.
  pose proof (resize_accounting py_int (data grown) (Some 9) before' back cv' n2
                bso' beo' Hp2 Hu2 Hcv2 Hn2) as E2.
  rewrite Hnb1, Hb1 in E1; rewrite Hnb2, Hb2 in E2.
  change (len (str 10)) with 2 in E1, E2.
  change (len (str 9)) with 1 in E1, E2.
  change (round_up_4 (2 * (2 - 1))) with 4 in E1.
  change (round_up_4 (2 * (1 - 2))) with 0 in E2.
  specialize (E1 ltac:(discriminate) Hs1 Hr1).
  specialize (E2 ltac:(discriminate) Hs2 Hr2).
  split; [lia|].
  intros Heq Hsame; rewrite Hsame in E2; lia.
Qed.

Lemma grow_then_shrink_witness :
  blen (data (snd shrink_two)) = blen (res_two 9) + 4 /\
  data (snd shrink_two) <> res_two 9.
Proof.
  destruct (grow_then_shrink int_ascii (res_two 9) (fst grow_two) (snd grow_two)
              (fst shrink_two) (snd shrink_two) (v_10_2503 9) (v_10_2503 10)
              396 398 396 400) as [Hlen Hne];
    try (vm_compute; reflexivity).
  split.
  - rewrite Hlen.
    change (further_rewritten (console (snd grow_two))) with 0.
    change (further_rewritten (console (snd shrink_two))) with 0.
    lia.
  - apply Hne; reflexivity.
Defined.

(** 10.2503.9.0 patched to build 10 and the result patched back to build 9:
    both sessions complete, and the final buffer is four bytes longer than
    the original. *)
Lemma grow_then_shrink_counterexample :
  option_map blen (round_trip int_ascii (res_two 9) 10 9)
  = Some (blen (res_two 9) + 4) /\
  round_trip int_ascii (res_two 9) 10 9 <> Some (res_two 9).
Proof.
  assert (H : option_map blen (round_trip int_ascii (res_two 9) 10 9)
              = Some (blen (res_two 9) + 4)) by (vm_compute; reflexivity).
  split; [exact H|].
  intros E; apply (f_equal (option_map blen)) in E.
  rewrite H in E; cbn [option_map] in E.
  injection E as E; lia.
Qed.

(** ** Occurrences after a resize *)

Lemma nth_error_splice_before (d : list byte) (p : Z) (new : list byte)
    (stop : Z) (i : nat) :
  0 <= p <= blen d -> Z.of_nat i < p ->
  nth_error (splice d p new stop) i = nth_error d i.
Proof.
  intros Hp Hi; unfold splice, slice_to.
  rewrite slice_index_inside by assumption.
  rewrite nth_error_app1 by (rewrite length_firstn; unfold blen in Hp; lia).
  rewrite nth_error_firstn.
  destruct (Nat.ltb_spec i (Z.to_nat p)); [reflexivity | lia].
Qed.

Lemma spaced_splices_before (new : list byte) (width : Z) (d : list byte)
    (positions : list Z) :
  forall lo,
    0 <= width -> 0 <= lo <= blen d -> spaced width lo (blen d) positions ->
    forall i, Z.of_nat i < lo ->
      nth_error (fold_right (fun p acc => splice acc p new (p + width))
                   d positions) i
      = nth_error d i.
Proof.
  induction positions as [|p ps IH]; intros lo Hw Hlo Hs i Hi;
    cbn [fold_right]; [reflexivity|].
  destruct Hs as (H1 & H2 & H3).
  assert (Hlo' : 0 <= p + width <= blen d) by lia.
  destruct (spaced_splices new width d ps (p + width) Hw Hlo' H3) as (_ & Hfit).
  cbv zeta in Hfit.
  rewrite nth_error_splice_before by lia.
  apply (IH (p + width)); [assumption | lia | assumption | lia].
Qed.

(** The first match that the sweep finds is still there when it is done. *)
Lemma sweep_keeps_first_match (self self' : ResVersionBumper)
    (old_build new_build : string) (cv nv : VersionInfo) (first : Z)
    (others : list Z) :
  current_version self = Some cv -> new_version self = Some nv ->
  let old_pattern :=
    encode_utf16le (version_text (major cv) (minor cv) old_build (release cv)) in
  find_positions (rounds (data self) 0) (data self) old_pattern 0
    = Ok (first :: others) ->
  _update_all_version_strings_with_length_change self old_build new_build
    = Ok self' ->
  at_offset old_pattern (data self) first /\
  at_offset old_pattern (data self') first.
Proof.
  intros Hcv Hnv old_pattern Hpos H.
  unfold _update_all_version_strings_with_length_change in H.
  rewrite Hcv, Hnv in H; fold old_pattern in H; rewrite Hpos in H.
  cbn [bind tl] in H.
  rewrite <- fold_left_rev_right, rev_involutive in H.
  assert (Hat : at_offset old_pattern (data self) first).
  { unfold rounds in Hpos; cbn [find_positions] in Hpos.
    destruct (Z.eqb_spec (find (data self) old_pattern 0) (-1)) as [E|E];
      [discriminate|].
    bind_inv Hpos; injection Hpos as <- _.
    apply (find_hit _ _ 0 (Z.le_refl 0) E). }
  split; [exact Hat|].
  pose proof (find_positions_spaced _ _ _ _ _ (Z.le_refl 0) Hpos)
    as (H1 & H2 & H3).
  pose proof (blen_nonneg old_pattern) as Hw.
  assert (Hd : data self'
               = fold_right
                   (fun p acc =>
                      splice acc p
                        (encode_utf16le
                           (version_text (major nv) (minor nv) new_build
                              (release nv)))
                        (p + blen old_pattern))
                   (data self) others).
  { destruct (1 <? _); injection H as <-; reflexivity. }
  rewrite Hd.
  apply (at_offset_same_bytes old_pattern (data self)); [exact Hat|].
  intros i Hi.
  apply (spaced_splices_before _ (blen old_pattern) (data self) others
           (first + blen old_pattern)); [assumption | lia | assumption | lia].
Qed.


(** C4 at a failing input: 10.2503.9.0 stands in FileVersion (offset 380)
    and in ProductVersion (offset 440); after the patch to build 10 the new
    string stands once, at 380, and the old one is still there, at 444. *)
Theorem sweep_leaves_second_occurrence :
  let old_pattern := encode_utf16le "10.2503.9.0" in
  let new_pattern := encode_utf16le "10.2503.10.0" in
  find (res_two 9) old_pattern 0 = 380 /\
  find (res_two 9) old_pattern 381 = 440 /\
  option_map
    (fun out => (find out new_pattern 0, find out new_pattern 381,
                 find out old_pattern 0))
    (patched_buffer (session int_ascii (res_two 9) (Some 10)))
  = Some (380, -1, 444).
Proof. repeat split; vm_compute; reflexivity. Qed.

(** ** Failures and the disk *)

Section Failures.

Variable py_int : list Z -> option Z.

(** Whenever [bump] does not return [True], the disk is as it was. *)
Lemma bump_failure_leaves_disk (fs : disk) (self : ResVersionBumper)
    (new_build : option Z) (dry_run : bool) :
  fst (bump py_int fs self new_build dry_run) <> Ok true ->
  snd (bump py_int fs self new_build dry_run) = fs.
Proof.
  unfold bump.
  destruct (analyze py_int fs self) as [[s [|]]|e]; try reflexivity.
  match goal with
  | |- context [match ?m with Ok _ => _ | Raise _ => _ end] => destruct m
  end; [|reflexivity].
  destruct dry_run; [reflexivity|].
  cbn [fst]; intros H; contradiction H; reflexivity.
Qed.

(** A preview writes nothing. *)
Lemma bump_dry_run_leaves_disk (fs : disk) (self : ResVersionBumper)
    (new_build : option Z) :
  snd (bump py_int fs self new_build true) = fs.
Proof.
  unfold bump.
  destruct (analyze py_int fs self) as [[s [|]]|e]; try reflexivity.
  match goal with
  | |- context [match ?m with Ok _ => _ | Raise _ => _ end] => destruct m
  end; reflexivity.
Qed.

End Failures.

(** C6 at a failing input: on [res_overlap] the analysis succeeds, the
    binary half-word is written over the key, the resizing patch then
    reports the marker missing and returns [False], and [bump] saves all
    the same: the file on disk differs from the original in the bytes of the
    key while its version text still reads 1.2.9.0. *)
Theorem bump_saves_after_marker_error :
  let run := bump int_ascii (on_disk res_overlap) init (Some 10) false in
  find res_overlap file_version_key 0 = 12 /\
  match session int_ascii res_overlap (Some 10) with
  | Ok (self, ok) =>
      ok = false /\ In ErrMarkerNotFound (console self) /\
      find (data self) file_version_key 0 = -1 /\
      file_after run = Some (data self)
  | Raise _ => False
  end /\
  fst run = Ok true /\
  res_file_bak (snd run) = Some res_overlap /\
  file_after run <> Some res_overlap /\
  option_map (fun d => find d (encode_utf16le "1.2.9.0") 0) (file_after run)
  = Some 36 /\
  option_map (fun d => unpack_from_H d 14) (file_after run) = Some (Ok 10).
Proof.
  cbv zeta.
  split; [vm_compute; reflexivity|].
  split; [vm_compute; repeat split; auto|].
  split; [vm_compute; reflexivity|].
  split; [vm_compute; reflexivity|].
  split.
  { intros H; apply (f_equal (option_map (fun d => nth_error d 14))) in H.
    vm_compute in H; discriminate H. }
  split; vm_compute; reflexivity.
Qed.

(** ** Errors of the analysis *)

Lemma unpack_from_I_ok (d : list byte) (o : Z) :
  0 <= o -> o + 4 <= blen d -> exists v, unpack_from_I d o = Ok v.
Proof.
  intros H0 H1; unfold unpack_from_I.
  rewrite struct_offset_ok by lia; cbn [bind]; eauto.
Qed.

Section AnalysisErrors.

Variable py_int : list Z -> option Z.

Lemma analyze_without_signature (content : list byte) :
  ~ occurs VS_FFI_SIGNATURE content ->
  analyze py_int (on_disk content) init
  = Ok (print (set_data init content) ErrSignatureNotFound, false).
Proof.
  intros H; apply find_none_iff in H.
  unfold analyze, load, on_disk; cbn [res_file negb].
  unfold find_binary_version; cbn [set_data data init].
  rewrite H; reflexivity.
Qed.

Lemma analyze_without_marker (content : list byte) :
  occurs VS_FFI_SIGNATURE content ->
  ~ occurs file_version_key content ->
  find content VS_FFI_SIGNATURE 0 + 16 <= blen content ->
  exists self v,
    analyze py_int (on_disk content) init = Ok (self, false) /\
    console self = [InfoBinaryVersion v; ErrMarkerNotFound] /\
    data self = content.
Proof.
  intros Hsig Hkey Hfit; apply find_none_iff in Hkey.
  assert (Hpos : find content VS_FFI_SIGNATURE 0 <> -1)
    by (intros E; apply find_none_iff in E; contradiction).
  destruct (find_hit _ _ 0 (Z.le_refl 0) Hpos) as (H0 & _).
  set (pos := find content VS_FFI_SIGNATURE 0) in *.
  destruct (unpack_from_I_ok content (pos + 4 + 4)) as [ms Hms]; [lia|lia|].
  destruct (unpack_from_I_ok content (pos + 4 + 4 + 4)) as [ls Hls]; [lia|lia|].
  unfold analyze, load, on_disk; cbn [res_file negb].
  unfold find_binary_version; cbv zeta.
  change (data (set_data init content)) with content.
  fold pos; destruct (Z.eqb_spec pos (-1)) as [E|_]; [contradiction|].
  change (data (set_binary_offsets _ _ _ _)) with content.
  rewrite Hms, Hls; cbn [bind negb].
  unfold find_string_version; cbv zeta.
  change (data (print _ _)) with content.
  rewrite Hkey; cbn [Z.eqb bind negb].
  eexists; eexists; split; [reflexivity|]; split; reflexivity.
Qed.

(** C7, amended: a buffer without the signature makes the analysis return
    [False] after the SignatureNotFound line and nothing else; a buffer that
    holds the signature, with the sixteen bytes from its first occurrence
    inside the buffer, but not the key makes it return [False] after the
    MarkerNotFound line, which is a different line; either way the buffer in
    memory is the file's content and [bump] leaves the disk as it was. *)
Theorem analysis_errors (content : list byte) :
  (~ occurs VS_FFI_SIGNATURE content ->
   exists self,
     analyze py_int (on_disk content) init = Ok (self, false) /\
     console self = [ErrSignatureNotFound] /\
     data self = content /\
     forall new_build dry_run,
       bump py_int (on_disk content) init new_build dry_run
       = (Ok false, on_disk content)) /\
  (occurs VS_FFI_SIGNATURE content ->
   ~ occurs file_version_key content ->
   find content VS_FFI_SIGNATURE 0 + 16 <= blen content ->
   exists self v,
     analyze py_int (on_disk content) init = Ok (self, false) /\
     console self = [InfoBinaryVersion v; ErrMarkerNotFound] /\
     ~ In ErrSignatureNotFound (console self) /\
     data self = content /\
     forall new_build dry_run,
       bump py_int (on_disk content) init new_build dry_run
       = (Ok false, on_disk content)) /\
  ErrSignatureNotFound <> ErrMarkerNotFound.
Proof.
  split; [|split; [|discriminate]].
  - intros H; eexists; split; [apply analyze_without_signature; exact H|].
    split; [reflexivity|]; split; [reflexivity|].
    intros nb dry; unfold bump.
    rewrite analyze_without_signature by exact H; reflexivity.
  - intros Hsig Hkey Hfit.
    destruct (analyze_without_marker content Hsig Hkey Hfit)
      as (self & v & Ha & Hc & Hd).
    exists self, v; split; [exact Ha|]; split; [exact Hc|].
    split; [rewrite Hc; intros [E|[E|[]]]; discriminate|].
    split; [exact Hd|].
    intros nb dry; unfold bump; rewrite Ha; reflexivity.
Qed.

End AnalysisErrors.

Lemma analysis_errors_witness :
  ~ occurs VS_FFI_SIGNATURE (encode_utf16le "FileVersion") /\
  occurs VS_FFI_SIGNATURE (fixed_file_info (v_10_2503 9)) /\
  ~ occurs file_version_key (fixed_file_info (v_10_2503 9)) /\
  bump int_ascii (on_disk (encode_utf16le "FileVersion")) init None false
  = (Ok false, on_disk (encode_utf16le "FileVersion")) /\
  bump int_ascii (on_disk (fixed_file_info (v_10_2503 9))) init None false
  = (Ok false, on_disk (fixed_file_info (v_10_2503 9))).
Proof.
  assert (H1 : ~ occurs VS_FFI_SIGNATURE (encode_utf16le "FileVersion"))
    by (apply find_none_iff; vm_compute; reflexivity).
  assert (H2 : occurs VS_FFI_SIGNATURE (fixed_file_info (v_10_2503 9)))
    by (exists [], (skipn 4 (fixed_file_info (v_10_2503 9))); reflexivity).
  assert (H3 : ~ occurs file_version_key (fixed_file_info (v_10_2503 9)))
    by (apply find_none_iff; vm_compute; reflexivity).
  assert (H4 : find (fixed_file_info (v_10_2503 9)) VS_FFI_SIGNATURE 0 + 16
               <= blen (fixed_file_info (v_10_2503 9)))
    by (vm_compute; discriminate).
  destruct (analysis_errors int_ascii (encode_utf16le "FileVersion"))
    as ((s1 & _ & _ & _ & B1) & _).
  { exact H1. }
  destruct (analysis_errors int_ascii (fixed_file_info (v_10_2503 9)))
    as (_ & A2 & _).
  destruct (A2 H2 H3 H4) as (s2 & v & _ & _ & _ & _ & B2).
  split; [exact H1|]; split; [exact H2|]; split; [exact H3|].
  split; [apply B1 | apply B2].
Defined.

(** The buffer that is the signature alone holds the signature and not the
    key, and its analysis raises [struct.error] where it reads the version
    words; no MarkerNotFound line is printed. *)
Lemma analysis_errors_counterexample :
  occurs VS_FFI_SIGNATURE VS_FFI_SIGNATURE /\
  ~ occurs file_version_key VS_FFI_SIGNATURE /\
  analyze int_ascii (on_disk VS_FFI_SIGNATURE) init
  = Raise (StructError BufferBounds).
Proof.
  split; [exists [], []; reflexivity|].
  split; [apply find_none_iff; vm_compute; reflexivity|].
  vm_compute; reflexivity.
Qed.

(** ** The binary field and the new version *)

Lemma getitem_ok (l : list byte) (i : Z) :
  0 <= i < blen l -> exists b, getitem l i = Ok b.
Proof.
  intros H; unfold getitem, index_of.
  assert (E0 : (i <? 0) = false) by (apply Z.ltb_ge; lia).
  assert (E1 : (blen l <=? i) = false) by (apply Z.leb_gt; lia).
  rewrite E0; cbv zeta; rewrite E0, E1; cbn [orb bind].
  destruct (nth_error l (Z.to_nat i)) as [b|] eqn:En;
    [exists b; reflexivity|].
  apply nth_error_None in En; unfold blen in H; lia.
Qed.

Lemma blen_slice (d : list byte) (lo hi : Z) :
  0 <= lo <= hi -> hi <= blen d -> blen (slice d lo hi) = hi - lo.
Proof.
  intros H1 H2; unfold slice.
  rewrite !slice_index_inside by lia.
  unfold blen in *; rewrite length_firstn, length_skipn; lia.
Qed.

(** With the half-word inside the buffer, a build above 65535 stops the
    binary update at [struct.pack_into], on the range of the format. *)
Lemma update_binary_version_out_of_range (self : ResVersionBumper)
    (nv : VersionInfo) :
  new_version self = Some nv -> 65535 < build nv ->
  0 <= file_version_ls_offset self ->
  file_version_ls_offset self + 4 <= blen (data self) ->
  update_binary_version self = Raise (StructError FormatRange).
Proof.
  intros Hnv Hb H0 H1; unfold update_binary_version; rewrite Hnv; cbv zeta.
  set (bo := file_version_ls_offset self + 2).
  assert (Hs : blen (slice (data self) bo (bo + 2)) = 2)
    by (rewrite blen_slice; unfold bo; lia).
  destruct (getitem_ok (slice (data self) bo (bo + 2)) 1) as [b1 E1]; [lia|].
  destruct (getitem_ok (slice (data self) bo (bo + 2)) 0) as [b0 E0]; [lia|].
  destruct (unpack_from_H_ok (data self) bo) as [v Ev]; [unfold bo; lia..|].
  rewrite E1, E0, Ev; cbn [bind].
  unfold pack_into_H; rewrite struct_offset_ok by (unfold bo; lia).
  cbn [bind].
  destruct (Z.ltb_spec 65535 (build nv)) as [_|E]; [|lia].
  rewrite orb_true_r; reflexivity.
Qed.

(** C8: in a session whose analysis succeeded, every target build above
    65535 makes the binary update raise [struct.error] for the range of the
    16-bit format, before any byte is written; for a build that the
    interpreter still prints, [bump] ends on that exception with the disk as
    it was. *)
Theorem build_out_of_range (py_int : list Z -> option Z) (content : list byte)
    (self : ResVersionBumper) (b : Z) :
  analyze py_int (on_disk content) init = Ok (self, true) ->
  65535 < b ->
  (exists planned nv,
     calculate_new_version self (Some b) = Ok (planned, nv) /\
     build nv = b /\
     update_binary_version planned = Raise (StructError FormatRange)) /\
  session py_int content (Some b) = Raise (StructError FormatRange) /\
  (printable b ->
   forall dry_run,
     bump py_int (on_disk content) init (Some b) dry_run
     = (Raise (StructError FormatRange), on_disk content)).
Proof.
  intros Ha Hb.
  destruct (analyze_true py_int content self Ha)
    as (A1 & A2 & A3 & A4 & A5 & A6 & A7 & (cv & Hcv)).
  set (nv := mkVersionInfo (major cv) (minor cv) b (release cv)).
  assert (Hc : calculate_new_version self (Some b)
               = Ok (set_new_version self nv, nv))
    by (unfold calculate_new_version; rewrite Hcv; reflexivity).
  assert (Hu : update_binary_version (set_new_version self nv)
               = Raise (StructError FormatRange)).
  { apply (update_binary_version_out_of_range _ nv);
      cbn [set_new_version new_version file_version_ls_offset data build nv];
      [reflexivity | assumption | lia | rewrite A1; lia]. }
  split; [exists (set_new_version self nv), nv; repeat split; assumption|].
  split.
  - unfold session; rewrite Ha; cbn [bind negb]; rewrite Hc; cbn [bind].
    rewrite Hu; reflexivity.
  - intros _ dry; unfold bump; rewrite Ha, Hc; cbn [bind]; rewrite Hu.
    reflexivity.
Qed.

Lemma build_out_of_range_witness :
  bump int_ascii (on_disk (res_two 9)) init (Some 65536) false
  = (Raise (StructError FormatRange), on_disk (res_two 9)).
Proof.
  destruct (build_out_of_range int_ascii (res_two 9) (analysed (res_two 9)) 65536)
    as (_ & _ & H); [vm_compute; reflexivity | reflexivity |].
  apply H; unfold printable; vm_compute; reflexivity.
Defined.

(** C9: the new version that [calculate_new_version] derives, and the one
    that [ProjectVersionBumper.bump] derives, has the major, minor and
    release of the current version; its build is the target, or the current
    build plus one when none is given; the current version itself is kept. *)
Theorem new_version_keeps_components (self self' : ResVersionBumper)
    (new_build : option Z) (cv nv : VersionInfo) :
  current_version self = Some cv ->
  calculate_new_version self new_build = Ok (self', nv) ->
  major nv = major cv /\ minor nv = minor cv /\ release nv = release cv /\
  build nv = match new_build with
             | None => build cv + 1
             | Some b => b
             end /\
  new_version self' = Some nv /\
  current_version self' = Some cv /\
  data self' = data self /\
  project_new_version cv new_build = nv.
Proof.
  intros Hcv H; apply calculate_new_version_Ok in H.
  destruct H as (cv' & Hcv' & -> & HM & Hm & Hr & Hb).
  rewrite Hcv in Hcv'; injection Hcv' as <-.
  cbn [set_new_version new_version current_version data].
  repeat split; try assumption.
  unfold project_new_version; destruct nv as [M m b r]; cbn in *.
  subst; destruct new_build; reflexivity.
Qed.

Lemma new_version_keeps_components_witness :
  project_new_version (v_10_2503 6) None = v_10_2503 7.
Proof.
  destruct (new_version_keeps_components
              (set_current_version init (v_10_2503 6))
              (set_new_version (set_current_version init (v_10_2503 6))
                 (v_10_2503 7))
              None (v_10_2503 6) (v_10_2503 7))
    as (_ & _ & _ & _ & _ & _ & _ & H); [reflexivity | reflexivity | exact H].
Defined.

(** ** The loops have rounds enough *)

Lemma terminates_Ok {A : Type} (a : A) : terminates (Ok a).
Proof. discriminate. Qed.

Lemma terminates_Raise {A B : Type} (e : exn) :
  terminates (@Raise A e) -> terminates (@Raise B e).
Proof. unfold terminates; intros H E; apply H; injection E as ->; reflexivity. Qed.

Lemma terminates_bind {A B : Type} (m : res A) (k : A -> res B) :
  terminates m -> (forall a, m = Ok a -> terminates (k a)) ->
  terminates (bind m k).
Proof.
  unfold terminates; destruct m as [a|e]; cbn [bind]; intros Hm Hk.
  - apply Hk; reflexivity.
  - exact (terminates_Raise e Hm).
Qed.

Lemma terminates_struct_offset (size : Z) (d : list byte) (o : Z) :
  terminates (struct_offset size d o).
Proof.
  unfold terminates, struct_offset.
  repeat match goal with
         | |- context [if ?c then _ else _] => destruct c
         end; discriminate.
Qed.

Lemma terminates_unpack_from_H (d : list byte) (o : Z) :
  terminates (unpack_from_H d o).
Proof.
  apply terminates_bind; [apply terminates_struct_offset|].
  intros; apply terminates_Ok.
Qed.

Lemma terminates_unpack_from_I (d : list byte) (o : Z) :
  terminates (unpack_from_I d o).
Proof.
  apply terminates_bind; [apply terminates_struct_offset|].
  intros; apply terminates_Ok.
Qed.

Lemma terminates_pack_into_H (d : list byte) (o v : Z) :
  terminates (pack_into_H d o v).
Proof.
  apply terminates_bind; [apply terminates_struct_offset|].
  intros; destruct ((v <? 0) || (65535 <? v)); discriminate.
Qed.

Lemma terminates_getitem (d : list byte) (i : Z) : terminates (getitem d i).
Proof.
  unfold getitem, index_of; cbv zeta.
  destruct (_ || _); cbn [bind]; [discriminate|].
  destruct (nth_error _ _); discriminate.
Qed.

Lemma terminates_setitem (d : list byte) (i : Z) (b : byte) :
  terminates (setitem d i b).
Proof.
  unfold setitem, index_of; cbv zeta.
  destruct (_ || _); cbn [bind]; discriminate.
Qed.

Lemma terminates_write_chars (s : string) :
  forall d off j, terminates (write_chars d off j s).
Proof.
  induction s as [|c s IH]; intros d off j; cbn [write_chars];
    [apply terminates_Ok|].
  apply terminates_bind; [apply terminates_pack_into_H | intros; apply IH].
Qed.

Lemma terminates_overwrite (pattern : list byte) :
  forall d pos i, terminates (overwrite d pos i pattern).
Proof.
  induction pattern as [|b pattern IH]; intros d pos i; cbn [overwrite];
    [apply terminates_Ok|].
  apply terminates_bind; [apply terminates_setitem | intros; apply IH].
Qed.

Lemma terminates_skip_padding (d : list byte) (fuel : nat) :
  forall s, (Z.to_nat (blen d - s) < fuel)%nat ->
            terminates (skip_padding fuel d s).
Proof.
  induction fuel as [|fuel IH]; intros s Hf; [lia|].
  cbn [skip_padding].
  destruct (Z.ltb_spec s (blen d)) as [Hlt|_]; [|apply terminates_Ok].
  apply terminates_bind; [apply terminates_getitem|].
  intros b _; destruct (byte_val b =? 0); [|apply terminates_Ok].
  apply IH; lia.
Qed.

Lemma terminates_read_version_chars (d : list byte) (fuel : nat) :
  forall i, (Z.to_nat (blen d - i) < fuel)%nat ->
            terminates (read_version_chars fuel d i).
Proof.
  induction fuel as [|fuel IH]; intros i Hf; [lia|].
  cbn [read_version_chars].
  destruct (Z.ltb_spec i (blen d - 1)) as [Hlt|_]; [|apply terminates_Ok].
  apply terminates_bind; [apply terminates_unpack_from_H|].
  intros c _; destruct (c =? 0); [apply terminates_Ok|].
  apply terminates_bind; [apply IH; lia | intros; apply terminates_Ok].
Qed.

Lemma terminates_scan_build_offset (d : list byte) (fuel : nat) :
  forall i dot_count, (Z.to_nat (blen d - i) < fuel)%nat ->
                      terminates (scan_build_offset fuel d i dot_count).
Proof.
  induction fuel as [|fuel IH]; intros i dc Hf; [lia|].
  cbn [scan_build_offset].
  destruct (Z.ltb_spec i (blen d - 1)) as [Hlt|_]; [|apply terminates_Ok].
  apply terminates_bind; [apply terminates_unpack_from_H|].
  intros c _; destruct (c =? 0); [apply terminates_Ok|].
  destruct (c =? ord ".").
  - destruct (dc + 1 =? 2); [apply terminates_Ok | apply IH; lia].
  - apply IH; lia.
Qed.

Lemma terminates_scan_build_end (d : list byte) (fuel : nat) :
  forall b, (Z.to_nat (blen d - b) < fuel)%nat ->
            terminates (scan_build_end fuel d b).
Proof.
  induction fuel as [|fuel IH]; intros b Hf; [lia|].
  cbn [scan_build_end].
  destruct (Z.ltb_spec b (blen d - 1)) as [Hlt|_]; [|apply terminates_Ok].
  apply terminates_bind; [apply terminates_unpack_from_H|].
  intros c _; destruct ((c =? ord ".") || (c =? 0)); [apply terminates_Ok|].
  apply IH; lia.
Qed.

Lemma terminates_find_positions (d sub : list byte) (fuel : nat) :
  0 < blen sub ->
  forall pos, 0 <= pos -> (Z.to_nat (blen d - pos) < fuel)%nat ->
              terminates (find_positions fuel d sub pos).
Proof.
  intros Hsub; induction fuel as [|fuel IH]; intros pos Hpos Hf; [lia|].
  cbn [find_positions].
  destruct (Z.eqb_spec (find d sub pos) (-1)) as [E|E]; [apply terminates_Ok|].
  destruct (find_hit d sub pos Hpos E) as (H1 & H2 & _).
  apply terminates_bind; [apply IH; lia | intros; apply terminates_Ok].
Qed.

Lemma terminates_replace_each (old new : list byte) (fuel : nat) :
  0 < blen old ->
  forall d pos count, 0 <= pos -> (Z.to_nat (blen d - pos) < fuel)%nat ->
    terminates (replace_each fuel d old new pos count).
Proof.
  intros Hold; induction fuel as [|fuel IH]; intros d pos count Hpos Hf; [lia|].
  cbn [replace_each].
  destruct (Z.eqb_spec (find d old pos) (-1)) as [E|E]; [apply terminates_Ok|].
  destruct (find_hit d old pos Hpos E) as (H1 & H2 & _).
  apply terminates_bind; [apply terminates_overwrite|].
  intros d1 Hd1.
  assert (Hp0 : 0 <= find d old pos + 0) by lia.
  destruct (overwrite_spec _ _ _ _ _ Hp0 Hd1) as (Hlen & _).
  apply IH; [lia | rewrite Hlen; lia].
Qed.

Lemma rounds_enough (d : list byte) (i : Z) :
  (Z.to_nat (blen d - i) < rounds d i)%nat.
Proof. unfold rounds; lia. Qed.

Lemma blen_pattern_pos (s : string) : 0 < blen (encode_utf16le ("." ++ s)).
Proof.
  rewrite blen_encode_utf16le, len_append; change (len ".") with 1.
  pose proof (len_nonneg s); lia.
Qed.

Lemma blen_version_text_pos (major minor : Z) (build : string) (release : Z) :
  0 < blen (encode_utf16le (version_text major minor build release)).
Proof.
  rewrite blen_encode_utf16le, len_version_text.
  pose proof (len_nonneg (str major)); pose proof (len_nonneg (str minor)).
  pose proof (len_nonneg build); pose proof (len_nonneg (str release)); lia.
Qed.

Lemma terminates_rewrite_fields (fields : list length_field) :
  forall self, terminates (rewrite_fields fields self).
Proof.
  induction fields as [|f fields IH]; intros self; cbn [rewrite_fields];
    [apply terminates_Ok|].
  apply terminates_bind; [|intros; apply IH].
  unfold rewrite_length_field.
  apply terminates_bind; [apply terminates_unpack_from_H|]; intros v _.
  apply terminates_bind; [apply terminates_pack_into_H|]; intros d _.
  apply terminates_Ok.
Qed.

Lemma terminates_update_binary_version (self : ResVersionBumper) :
  terminates (update_binary_version self).
Proof.
  unfold update_binary_version; destruct (new_version self); [|discriminate].
  cbv zeta.
  repeat (apply terminates_bind;
          [first [apply terminates_getitem | apply terminates_unpack_from_H
                 | apply terminates_pack_into_H] | intros ? _]).
  apply terminates_Ok.
Qed.

Lemma terminates_sweep_with_length_change (self : ResVersionBumper)
    (old_build new_build : string) :
  terminates
    (_update_all_version_strings_with_length_change self old_build new_build).
Proof.
  unfold _update_all_version_strings_with_length_change.
  destruct (current_version self) as [cv|]; [|discriminate].
  destruct (new_version self) as [nv|]; [|discriminate].
  cbv zeta; apply terminates_bind.
  - apply terminates_find_positions;
      [apply blen_version_text_pos | lia | apply rounds_enough].
  - intros positions _; apply terminates_Ok.
Qed.

Lemma terminates_update_string_version (self : ResVersionBumper) :
  terminates (update_string_version self).
Proof.
  unfold update_string_version.
  destruct (current_version self) as [cv|] eqn:Hcv; [|discriminate].
  destruct (new_version self) as [nv|] eqn:Hnv; [|discriminate].
  cbv zeta; destruct (_ =? 0).
  - unfold _update_string_version_same_length; cbv zeta.
    apply terminates_bind;
      [apply terminates_scan_build_offset, rounds_enough|]; intros run _.
    destruct (run =? -1); [apply terminates_Ok|].
    apply terminates_bind; [apply terminates_write_chars|]; intros mid _.
    apply terminates_bind; [|intros; apply terminates_Ok].
    unfold _update_all_version_strings; cbv zeta.
    apply terminates_bind.
    + apply terminates_replace_each;
        [apply blen_pattern_pos | lia | apply rounds_enough].
    + intros [d count] _; apply terminates_Ok.
  - unfold _update_string_version_diff_length; cbv zeta.
    destruct (find _ _ _ =? -1); [apply terminates_Ok|].
    apply terminates_bind; [apply terminates_unpack_from_H|]; intros wl _.
    apply terminates_bind; [apply terminates_unpack_from_H|]; intros wvl _.
    apply terminates_bind;
      [apply terminates_scan_build_offset, rounds_enough|]; intros bso _.
    destruct (bso =? -1); [apply terminates_Ok|].
    apply terminates_bind;
      [apply terminates_scan_build_end, rounds_enough|]; intros beo _.
    apply terminates_bind.
    + rewrite update_length_fields_table, adjust_fields_guarded.
      apply terminates_rewrite_fields.
    + intros fielded _.
      apply terminates_bind;
        [apply terminates_sweep_with_length_change|].
      intros; apply terminates_Ok.
Qed.

Section Termination.

Variable py_int : list Z -> option Z.

Lemma terminates_analyze (fs : disk) (self : ResVersionBumper) :
  terminates (analyze py_int fs self).
Proof.
  unfold analyze, load.
  destruct (res_file fs); cbn [negb]; [|apply terminates_Ok].
  apply terminates_bind.
  - unfold find_binary_version; cbv zeta.
    destruct (_ =? -1); [apply terminates_Ok|].
    apply terminates_bind; [apply terminates_unpack_from_I|]; intros ms _.
    apply terminates_bind; [apply terminates_unpack_from_I|]; intros ls _.
    apply terminates_Ok.
  - intros [s1 [|]] _; cbn [negb]; [|apply terminates_Ok].
    apply terminates_bind.
    + unfold find_string_version; cbv zeta.
      destruct (_ =? -1); [apply terminates_Ok|].
      apply terminates_bind;
        [apply terminates_skip_padding, rounds_enough|]; intros start _.
      apply terminates_bind;
        [apply terminates_read_version_chars, rounds_enough|]; intros chars _.
      apply terminates_bind; [|intros; apply terminates_Ok].
      unfold from_string.
      destruct (split_dot chars) as [|p0 [|p1 [|p2 [|p3 [|p4 ps]]]]];
        try discriminate.
      unfold int.
      destruct (py_int p0); [|discriminate]; cbn [bind].
      destruct (py_int p1); [|discriminate]; cbn [bind].
      destruct (py_int p2); [|discriminate]; cbn [bind].
      destruct (py_int p3); discriminate.
    + intros [s2 [|]] _; apply terminates_Ok.
Qed.

(** No run of [bump] ends for want of rounds in a loop of the model. *)
Lemma terminates_bump (fs : disk) (self : ResVersionBumper)
    (new_build : option Z) (dry_run : bool) :
  terminates (fst (bump py_int fs self new_build dry_run)).
Proof.
  unfold bump.
  pose proof (terminates_analyze fs self) as Ha.
  destruct (analyze py_int fs self) as [[s [|]]|e]; cbn [fst];
    [|discriminate|exact (terminates_Raise e Ha)].
  match goal with
  | |- context [match ?m with Ok _ => _ | Raise _ => _ end] =>
      assert (Hm : terminates m);
      [|destruct m as [s'|e];
        [destruct dry_run; discriminate | exact (terminates_Raise e Hm)]]
  end.
  apply terminates_bind.
  - unfold calculate_new_version; destruct (current_version s); discriminate.
  - intros [s1 v] _; apply terminates_bind;
      [apply terminates_update_binary_version|]; intros s2 _.
    apply terminates_bind; [apply terminates_update_string_version|].
    intros [s3 ok] _; apply terminates_Ok.
Qed.

End Termination.


(** * Further properties of the code *)

(** ** The first match of [find] *)

(** Before the position that [find] answers there is no match. *)
Lemma find_none_before (d sub : list byte) (q : Z) :
  find d sub 0 <> -1 -> 0 <= q < find d sub 0 -> ~ at_offset sub d q.
Proof.
  intros Hne Hq [_ Hat]; unfold find in *.
  cbn [Z.ltb Z.compare] in *.
  destruct (blen d <? 0) eqn:E; [congruence|].
  change (Z.to_nat 0) with 0%nat in *; cbn [skipn] in *.
  destruct (find_in_spec sub d 0 (Z.le_refl 0))
    as [[H1 _]|(j & H1 & _ & _ & H4)]; [congruence|].
  rewrite H1 in Hq.
  rewrite (H4 (Z.to_nat q)) in Hat by lia; discriminate.
Qed.

(** A match with none before it is what [find] answers. *)
Lemma find_first (d sub : list byte) (p : Z) :
  at_offset sub d p -> p <= blen d ->
  (forall q, 0 <= q < p -> ~ at_offset sub d q) ->
  find d sub 0 = p.
Proof.
  intros [Hp Hat] Hfit Hnone; unfold find.
  cbn [Z.ltb Z.compare].
  destruct (blen d <? 0) eqn:E;
    [pose proof (blen_nonneg d); apply Z.ltb_lt in E; lia|].
  change (Z.to_nat 0) with 0%nat; cbn [skipn].
  destruct (find_in_spec sub d 0 (Z.le_refl 0))
    as [[_ H2]|(j & H1 & _ & H3 & H4)].
  - rewrite H2 in Hat by (unfold blen in Hfit; lia); discriminate.
  - rewrite H1.
    destruct (Z.lt_trichotomy (Z.of_nat j) p) as [Hlt|[Heq|Hgt]]; [|lia|].
    + exfalso; apply (Hnone (Z.of_nat j)); [lia|].
      split; [lia|]; rewrite Nat2Z.id; exact H3.
    + rewrite (H4 (Z.to_nat p)) in Hat by lia; discriminate.
Qed.

(** [find] only looks at the bytes up to the end of its first match. *)
Lemma find_same_prefix (d d' sub : list byte) :
  find d sub 0 <> -1 -> blen d' = blen d ->
  (forall i, Z.of_nat i < find d sub 0 + blen sub ->
             nth_error d' i = nth_error d i) ->
  find d' sub 0 = find d sub 0.
Proof.
  intros Hne Hlen Hsame.
  destruct (find_hit d sub 0 (Z.le_refl 0) Hne) as (H0 & Hfit & Hat).
  pose proof (blen_nonneg sub) as Hsub.
  apply find_first.
  - apply (at_offset_same_bytes sub d d' _ Hat); intros i Hi; apply Hsame; lia.
  - lia.
  - intros q Hq Hq'.
    apply (find_none_before d sub q Hne Hq).
    apply (at_offset_same_bytes sub d' d q Hq').
    intros i Hi; symmetry; apply Hsame; lia.
Qed.

(** ** Words and half-words *)

Lemma skipn_two (d : list byte) (n : nat) :
  (n + 2 <= List.length d)%nat ->
  exists b0 b1, skipn n d = b0 :: b1 :: skipn (n + 2) d.
Proof.
  intros H.
  rewrite (skipn_step d n).
  destruct (nth_error d n) as [b0|] eqn:E0;
    [|apply nth_error_None in E0; lia].
  rewrite (skipn_step d (S n)).
  destruct (nth_error d (S n)) as [b1|] eqn:E1;
    [|apply nth_error_None in E1; lia].
  exists b0, b1; do 2 f_equal; f_equal; lia.
Qed.

Lemma unpack_from_H_range (d : list byte) (o v : Z) :
  unpack_from_H d o = Ok v -> fits_half_word v.
Proof.
  unfold unpack_from_H, fits_half_word; intros H; bind_inv H; injection H as <-.
  apply struct_offset_inside in Ha; [|lia]; destruct Ha as (Hfit & _).
  destruct (skipn_two d a) as (b0 & b1 & E); [unfold blen in Hfit; lia|].
  rewrite E; cbn [le_value].
  pose proof (byte_val_range b0); pose proof (byte_val_range b1); lia.
Qed.

(** A 32-bit word is its low half-word plus 65536 times its high one. *)
Lemma unpack_from_I_halves (d : list byte) (o : Z) :
  0 <= o -> o + 4 <= blen d ->
  exists lo hi,
    unpack_from_H d o = Ok lo /\ unpack_from_H d (o + 2) = Ok hi /\
    unpack_from_I d o = Ok (lo + 65536 * hi).
Proof.
  intros H0 H1; unfold unpack_from_H, unpack_from_I.
  rewrite !struct_offset_ok by lia; cbn [bind].
  destruct (skipn_two d (Z.to_nat o)) as (b0 & b1 & E01);
    [unfold blen in H1; lia|].
  destruct (skipn_two d (Z.to_nat o + 2)) as (b2 & b3 & E23);
    [unfold blen in H1; lia|].
  replace (Z.to_nat (o + 2)) with (Z.to_nat o + 2)%nat by lia.
  rewrite E01, E23.
  exists (byte_val b0 + 256 * byte_val b1), (byte_val b2 + 256 * byte_val b3).
  repeat split; try (f_equal; cbn [firstn le_value]; lia).
Qed.

Lemma land_low_half (lo hi : Z) :
  fits_half_word lo -> fits_half_word hi -> Z.land (lo + 65536 * hi) 0xFFFF = lo.
Proof.
  unfold fits_half_word; intros Hlo Hhi.
  change 0xFFFF with (Z.ones 16); rewrite Z.land_ones by lia.
  change (2 ^ 16) with 65536.
  replace (lo + 65536 * hi) with (lo + hi * 65536) by lia.
  rewrite Z.mod_add by lia.
  apply Z.mod_small; lia.
Qed.

Lemma land_high_half (lo hi : Z) :
  fits_half_word lo -> fits_half_word hi ->
  Z.land (Z.shiftr (lo + 65536 * hi) 16) 0xFFFF = hi.
Proof.
  unfold fits_half_word; intros Hlo Hhi.
  rewrite Z.shiftr_div_pow2 by lia; change (2 ^ 16) with 65536.
  replace (lo + 65536 * hi) with (lo + hi * 65536) by lia.
  rewrite Z.div_add by lia.
  rewrite (Z.div_small lo) by lia; rewrite Z.add_0_l.
  change 0xFFFF with (Z.ones 16); rewrite Z.land_ones by lia.
  apply Z.mod_small; change (2 ^ 16) with 65536; lia.
Qed.

Lemma unpack_from_I_same_bytes (d d' : list byte) (o : Z) :
  0 <= o -> blen d' = blen d ->
  (forall i, o <= Z.of_nat i < o + 4 -> nth_error d' i = nth_error d i) ->
  unpack_from_I d' o = unpack_from_I d o.
Proof.
  intros Ho Hlen H; unfold unpack_from_I.
  assert (E : struct_offset 4 d' o = struct_offset 4 d o)
    by (unfold struct_offset; rewrite Hlen; reflexivity).
  rewrite E; destruct (struct_offset 4 d o) as [n|e] eqn:Hn; [|reflexivity].
  cbn [bind]; f_equal; f_equal.
  apply struct_offset_inside in Hn; [|lia]; destruct Hn as (_ & Hpos & _).
  specialize (Hpos Ho); subst n.
  apply firstn_skipn_nth_error; intros i Hi; apply H; lia.
Qed.

(** ** The binary half-word: what is written, what is read back *)

Lemma slice_two (d : list byte) (o : Z) :
  0 <= o -> o + 2 <= blen d ->
  exists b0 b1,
    slice d o (o + 2) = [b0; b1] /\
    unpack_from_H d o = Ok (byte_val b0 + 256 * byte_val b1).
Proof.
  intros H0 H1.
  destruct (skipn_two d (Z.to_nat o)) as (b0 & b1 & E);
    [unfold blen in H1; lia|].
  exists b0, b1; split.
  - unfold slice; rewrite !slice_index_inside by lia.
    replace (Z.to_nat (o + 2) - Z.to_nat o)%nat with 2%nat by lia.
    rewrite E; reflexivity.
  - unfold unpack_from_H; rewrite struct_offset_ok by lia; cbn [bind].
    rewrite E; f_equal; cbn [firstn le_value]; lia.
Qed.

(** [update_binary_version], step by step. *)
Lemma update_binary_version_writes (self self' : ResVersionBumper) :
  0 <= file_version_ls_offset self ->
  update_binary_version self = Ok self' ->
  let build_offset := file_version_ls_offset self + 2 in
  exists nv old old1 old0 new1 new0,
    new_version self = Some nv /\
    unpack_from_H (data self) build_offset = Ok old /\
    pack_into_H (data self) build_offset (build nv) = Ok (data self') /\
    modifications self'
    = modifications self
        ++ [mkModificationRecord ".res" build_offset FileVersionLS_Build
              (ShownHalfWord old1 old0 old)
              (ShownHalfWord new1 new0 (build nv))] /\
    byte_val old0 + 256 * byte_val old1 = old /\
    byte_val new0 + 256 * byte_val new1 = build nv.
Proof.
  intros Hls H build_offset; unfold update_binary_version in H.
  destruct (new_version self) as [nv|] eqn:Hnv; [|discriminate].
  cbv zeta in H; fold build_offset in H.
  bind_inv H; rename a into old1; rename Ha into Ho1.
  bind_inv H; rename a into old0; rename Ha into Ho0.
  bind_inv H; rename a into old; rename Ha into Hold.
  bind_inv H; rename a into d; rename Ha into Hpack.
  bind_inv H; rename a into new1; rename Ha into Hn1.
  bind_inv H; rename a into new0; rename Ha into Hn0.
  injection H as <-.
  cbn [set_data data] in Hn1, Hn0.
  assert (Hfit : build_offset + 2 <= blen (data self)).
  { unfold unpack_from_H in Hold; bind_inv Hold.
    apply struct_offset_inside in Ha; [|lia].
    destruct Ha as (Hin & Hpos & _); rewrite Hpos in Hin by (unfold build_offset; lia).
    unfold build_offset in *; lia. }
  assert (Hbo : 0 <= build_offset) by (unfold build_offset; lia).
  destruct (slice_two (data self) build_offset Hbo Hfit) as (x0 & x1 & Es & Eu).
  pose proof (blen_pack_into_H _ _ _ _ Hpack) as Hlen.
  destruct (slice_two d build_offset Hbo ltac:(lia)) as (y0 & y1 & Es' & Eu').
  rewrite (unpack_pack_same _ _ _ _ Hpack) in Eu'.
  rewrite Es in Ho1, Ho0; rewrite Es' in Hn1, Hn0.
  vm_compute in Ho1, Ho0, Hn1, Hn0.
  injection Ho1 as <-; injection Ho0 as <-.
  injection Hn1 as <-; injection Hn0 as <-.
  rewrite Hold in Eu; injection Eu as Eu; injection Eu' as Eu'.
  exists nv, old, x1, x0, y1, y0.
  cbn [record set_data data modifications].
  repeat split; auto.
Qed.

Section BinaryRoundTrip.

Variable py_int : list Z -> option Z.

(** What [find_binary_version] prints is the decoding of the two words
    after the first signature. *)
Lemma find_binary_version_decodes (self self' : ResVersionBumper) :
  find_binary_version self = Ok (self', true) ->
  let pos := find (data self) VS_FFI_SIGNATURE 0 in
  exists ms ls,
    unpack_from_I (data self) (pos + 8) = Ok ms /\
    unpack_from_I (data self) (pos + 12) = Ok ls /\
    console self' = console self ++ [InfoBinaryVersion (binary_version ms ls)].
Proof.
  intros H pos; unfold find_binary_version in H; cbv zeta in H; fold pos in H.
  destruct (pos =? -1); [discriminate|].
  change (data (set_binary_offsets _ _ _ _)) with (data self) in H.
  replace (pos + 4 + 4 + 4) with (pos + 12) in H by lia.
  replace (pos + 4 + 4) with (pos + 8) in H by lia.
  bind_inv H; bind_inv H; injection H as <-.
  exists a, a0; repeat split; assumption.
Qed.

Lemma analyze_console (content : list byte) (self : ResVersionBumper) :
  analyze py_int (on_disk content) init = Ok (self, true) ->
  let pos := find content VS_FFI_SIGNATURE 0 in
  exists ms ls,
    unpack_from_I content (pos + 8) = Ok ms /\
    unpack_from_I content (pos + 12) = Ok ls /\
    console self = [InfoBinaryVersion (binary_version ms ls)] /\
    modifications self = [].
Proof.
  intros H pos; unfold analyze, load, on_disk in H; cbn [res_file negb] in H.
  bind_inv H; destruct a as [s1 [|]]; cbn [negb] in H; [|discriminate].
  bind_inv H; destruct a as [s2 [|]]; cbn [negb] in H; [|discriminate].
  injection H as <-.
  pose proof (find_binary_version_decodes _ _ Ha) as (ms & ls & Hms & Hls & Hc).
  cbn [set_data init data console] in Hms, Hls, Hc.
  exists ms, ls; split; [exact Hms|]; split; [exact Hls|].
  assert (Hm1 : modifications s1 = []).
  { unfold find_binary_version in Ha.
    destruct (_ =? -1); [discriminate|].
    cbv zeta in Ha; do 2 bind_inv Ha; injection Ha as <-; reflexivity. }
  unfold find_string_version in Ha0.
  destruct (_ =? -1); [discriminate|].
  cbv zeta in Ha0; do 3 bind_inv Ha0; injection Ha0 as <-.
  cbn [set_current_version set_string_offset console modifications].
  split; assumption.
Qed.

(** X1.  The layout that [find_binary_version] decodes: the version it
    prints has as minor, major, release and build the four little-endian
    half-words that follow the first signature at 8, 10, 12 and 14 bytes,
    so the build it reads is the half-word two bytes into FileVersionLS, the
    one that [update_binary_version] writes; ProductVersionLS is taken to
    lie 8 bytes further. *)
Theorem find_binary_version_layout (self self' : ResVersionBumper) :
  find_binary_version self = Ok (self', true) ->
  let d := data self in
  let pos := find d VS_FFI_SIGNATURE 0 in
  exists v,
    console self' = console self ++ [InfoBinaryVersion v] /\
    at_offset VS_FFI_SIGNATURE d pos /\
    unpack_from_H d (pos + 8) = Ok (minor v) /\
    unpack_from_H d (pos + 10) = Ok (major v) /\
    unpack_from_H d (pos + 12) = Ok (release v) /\
    unpack_from_H d (pos + 14) = Ok (build v) /\
    file_version_ls_offset self' + 2 = pos + 14 /\
    product_version_ls_offset self' = file_version_ls_offset self' + 8.
Proof.
  intros H d pos.
  destruct (find_binary_version_decodes _ _ H) as (ms & ls & Hms & Hls & Hc).
  destruct (find_binary_version_true _ _ H) as (_ & A2 & A3 & A4 & A5 & _).
  fold d pos in Hms, Hls, A2, A5; rewrite A2 in A3, A4, A5.
  assert (Hat : at_offset VS_FFI_SIGNATURE d pos).
  { unfold find_binary_version in H; fold d pos in H.
    destruct (Z.eqb_spec pos (-1)) as [E|E]; [discriminate|].
    apply (find_hit d VS_FFI_SIGNATURE 0 (Z.le_refl 0) E). }
  assert (Hoff : product_version_ls_offset self'
                 = file_version_ls_offset self' + 8).
  { unfold find_binary_version in H; fold d pos in H.
    destruct (pos =? -1); [discriminate|].
    cbv zeta in H; do 2 bind_inv H; injection H as <-.
    cbn [print set_binary_offsets product_version_ls_offset
           file_version_ls_offset]; lia. }
  destruct (unpack_from_I_halves d (pos + 8)) as (l0 & h0 & L0 & H0 & C0);
    [lia | lia |].
  destruct (unpack_from_I_halves d (pos + 12)) as (l1 & h1 & L1 & H1 & C1);
    [lia | lia |].
  replace (pos + 8 + 2) with (pos + 10) in H0 by lia.
  replace (pos + 12 + 2) with (pos + 14) in H1 by lia.
  assert (Ems : ms = l0 + 65536 * h0) by congruence.
  assert (Els : ls = l1 + 65536 * h1) by congruence.
  pose proof (unpack_from_H_range _ _ _ L0) as R0.
  pose proof (unpack_from_H_range _ _ _ H0) as R1.
  pose proof (unpack_from_H_range _ _ _ L1) as R2.
  pose proof (unpack_from_H_range _ _ _ H1) as R3.
  assert (Ev : binary_version ms ls = mkVersionInfo h0 l0 h1 l1).
  { subst ms ls; unfold binary_version.
    rewrite !land_low_half, !land_high_half by assumption; reflexivity. }
  rewrite Ev in Hc.
  exists (mkVersionInfo h0 l0 h1 l1); cbn [major minor build release].
  split; [exact Hc|]; split; [exact Hat|].
  split; [exact L0|]; split; [exact H0|].
  split; [exact L1|]; split; [exact H1|].
  split; [lia | exact Hoff].
Qed.

(** X2.  Binary round trip: in a session that has written the binary build
    half-word, running [find_binary_version] again on the patched buffer
    finds the signature where it was and decodes the new build, with the
    major, minor and release that the analysis had decoded before. *)
Theorem binary_build_reads_back (content : list byte) (new_build : option Z)
    (before : ResVersionBumper) :
  prepared py_int content new_build = Some before ->
  exists v0 nv again v1,
    console before = [InfoBinaryVersion v0] /\
    new_version before = Some nv /\
    find_binary_version before = Ok (again, true) /\
    console again = [InfoBinaryVersion v0; InfoBinaryVersion v1] /\
    ffi_offset again = ffi_offset before /\
    data again = data before /\
    major v1 = major v0 /\ minor v1 = minor v0 /\ release v1 = release v0 /\
    build v1 = build nv.
Proof.
  intros H; unfold prepared in H.
  destruct (analyze py_int (on_disk content) init) as [[s0 [|]]|] eqn:Ha;
    try discriminate.
  destruct (calculate_new_version s0 new_build) as [[s1 nv]|] eqn:Hc;
    try discriminate.
  destruct (update_binary_version s1) as [s2|] eqn:Hb; try discriminate.
  injection H as <-.
  destruct (analyze_true py_int content s0 Ha)
    as (A1 & A2 & A3 & A4 & A5 & _ & _ & _).
  destruct (analyze_console content s0 Ha) as (ms & ls & Hms & Hls & Hcon & _).
  apply calculate_new_version_Ok in Hc; destruct Hc as (cv & _ & -> & _).
  set (pos := find content VS_FFI_SIGNATURE 0) in *.
  assert (Hls0 : 0 <= file_version_ls_offset (set_new_version s0 nv))
    by (cbn [set_new_version file_version_ls_offset]; lia).
  destruct (update_binary_version_writes _ _ Hls0 Hb)
    as (nv' & old & o1 & o0 & n1 & n0 & Hnv & Hold & Hpack & _).
  destruct (update_binary_version_Ok _ _ Hls0 Hb)
    as (Hlen & _ & Bls & _ & Bcon & _ & Bnv).
  cbn [set_new_version data file_version_ls_offset console new_version] in *.
  injection Hnv as <-.
  rewrite A1, A4, A2 in Hpack, Hold.
  replace (pos + 12 + 2) with (pos + 14) in Hpack, Hold by lia.
  rewrite A1 in Hlen.
  assert (Hp14 : 0 <= pos + 14) by lia.
  (* the signature is found where it was *)
  assert (Hfind : find (data s2) VS_FFI_SIGNATURE 0 = pos).
  { apply find_same_prefix; [fold pos; lia | assumption |].
    intros i Hi; fold pos in Hi; change (blen VS_FFI_SIGNATURE) with 4 in Hi.
    apply (pack_into_H_other _ _ _ _ i Hp14 Hpack); lia. }
  (* the first word is untouched, the second has a new high half *)
  assert (Hms' : unpack_from_I (data s2) (pos + 8) = Ok ms).
  { rewrite <- Hms; apply unpack_from_I_same_bytes; [lia | assumption |].
    intros i Hi; apply (pack_into_H_other _ _ _ _ i Hp14 Hpack); lia. }
  destruct (unpack_from_I_halves content (pos + 12)) as (lo & hi & L0 & L1 & L2);
    [lia | lia |].
  destruct (unpack_from_I_halves (data s2) (pos + 12))
    as (lo' & hi' & L0' & L1' & L2'); [lia | lia |].
  replace (pos + 12 + 2) with (pos + 14) in L1, L1' by lia.
  rewrite (unpack_pack_same _ _ _ _ Hpack) in L1'.
  rewrite (unpack_pack_other _ _ _ _ (pos + 12) Hp14 ltac:(lia) Hpack) in L0'
    by lia.
  rewrite L0 in L0'.
  assert (Elo : lo' = lo) by congruence.
  assert (Ehi : hi' = build nv) by congruence.
  assert (Els : ls = lo + 65536 * hi) by congruence.
  subst lo' hi' ls.
  pose proof (unpack_from_H_range _ _ _ L0) as Rlo.
  pose proof (unpack_from_H_range _ _ _ L1) as Rhi.
  assert (Rb : fits_half_word (build nv)).
  { apply pack_into_H_Ok in Hpack; destruct Hpack as (_ & _ & R & _); exact R. }
  exists (binary_version ms (lo + 65536 * hi)), nv.
  exists (print (set_binary_offsets s2 pos (pos + 4 + 4 + 4)
                   (pos + 4 + 4 + 4 + 4 + 4))
            (InfoBinaryVersion (binary_version ms (lo + 65536 * build nv)))).
  exists (binary_version ms (lo + 65536 * build nv)).
  split; [congruence|]; split; [assumption|]; split.
  { unfold find_binary_version; rewrite Hfind.
    destruct (Z.eqb_spec pos (-1)) as [E|_]; [lia|].
    cbv zeta; change (data (set_binary_offsets _ _ _ _)) with (data s2).
    replace (pos + 4 + 4 + 4) with (pos + 12) by lia.
    replace (pos + 4 + 4) with (pos + 8) by lia.
    rewrite Hms', L2'; reflexivity. }
  cbn [print set_binary_offsets console ffi_offset data].
  split; [rewrite Bcon, Hcon; reflexivity|].
  split; [|split; [reflexivity|]].
  { (* ffi_offset is not touched by the update *)
    unfold update_binary_version in Hb.
    cbn [set_new_version new_version] in Hb; cbv zeta in Hb.
    do 6 bind_inv Hb; injection Hb as <-.
    cbn [record set_data set_new_version ffi_offset]; congruence. }
  unfold binary_version; cbn [major minor build release].
  rewrite !land_low_half, !land_high_half by assumption.
  repeat split.
Qed.

End BinaryRoundTrip.

Lemma find_binary_version_layout_witness :
  unpack_from_H (res_two 9) (find (res_two 9) VS_FFI_SIGNATURE 0 + 14) = Ok 9 /\
  unpack_from_H (res_two 9) (find (res_two 9) VS_FFI_SIGNATURE 0 + 10) = Ok 10.
Proof.
  destruct (find_binary_version_layout (set_data init (res_two 9))
              (print (set_binary_offsets (set_data init (res_two 9)) 104 116 124)
                 (InfoBinaryVersion (v_10_2503 9))))
    as (v & Hc & _ & _ & HM & _ & Hb & _); [vm_compute; reflexivity|].
  cbn [print console set_binary_offsets set_data init app] in Hc.
  injection Hc as <-.
  split; [exact Hb | exact HM].
Defined.

Lemma binary_build_reads_back_witness :
  exists v0 nv again v1,
    console (fst grow_two) = [InfoBinaryVersion v0] /\
    new_version (fst grow_two) = Some nv /\
    find_binary_version (fst grow_two) = Ok (again, true) /\
    console again = [InfoBinaryVersion v0; InfoBinaryVersion v1] /\
    ffi_offset again = ffi_offset (fst grow_two) /\
    data again = data (fst grow_two) /\
    major v1 = major v0 /\ minor v1 = minor v0 /\ release v1 = release v0 /\
    build v1 = build nv.
Proof.
  apply (binary_build_reads_back int_ascii (res_two 9) (Some 10)).
  vm_compute; reflexivity.
Defined.

(** X3.  The binary update writes the new build, which must fit 16 bits,
    as the half-word two bytes into FileVersionLS and changes no other
    byte: the buffer keeps its length, the release half-word, FileVersionMS
    and ProductVersionLS read as before, and the ledger gains exactly one
    record, for that half-word, with its old and new value. *)
Theorem binary_update_frame (self self' : ResVersionBumper) :
  0 <= file_version_ls_offset self ->
  product_version_ls_offset self = file_version_ls_offset self + 4 + 4 ->
  update_binary_version self = Ok self' ->
  let ls := file_version_ls_offset self in
  exists nv old,
    new_version self = Some nv /\ fits_half_word (build nv) /\
    unpack_from_H (data self) (ls + 2) = Ok old /\
    unpack_from_H (data self') (ls + 2) = Ok (build nv) /\
    blen (data self') = blen (data self) /\
    (forall i, Z.of_nat i < ls + 2 \/ ls + 4 <= Z.of_nat i ->
               nth_error (data self') i = nth_error (data self) i) /\
    unpack_from_H (data self') ls = unpack_from_H (data self) ls /\
    (4 <= ls ->
     unpack_from_I (data self') (ls - 4) = unpack_from_I (data self) (ls - 4)) /\
    unpack_from_I (data self') (product_version_ls_offset self)
    = unpack_from_I (data self) (product_version_ls_offset self) /\
    exists r,
      modifications self' = modifications self ++ [r] /\
      location r = ls + 2 /\ type_desc r = FileVersionLS_Build /\
      (exists hi lo, old_value r = ShownHalfWord hi lo old) /\
      (exists hi lo, new_value r = ShownHalfWord hi lo (build nv)).
Proof.
  intros Hls Hpv H ls.
  destruct (update_binary_version_writes _ _ Hls H)
    as (nv & old & o1 & o0 & n1 & n0 & Hnv & Hold & Hpack & Hmods & _ & _).
  destruct (update_binary_version_Ok _ _ Hls H) as (Hlen & Hframe & _).
  fold ls in Hold, Hpack, Hmods, Hframe.
  assert (Hbo : 0 <= ls + 2) by (unfold ls; lia).
  exists nv, old.
  split; [assumption|].
  split; [apply pack_into_H_Ok in Hpack; destruct Hpack as (_ & _ & R & _); exact R|].
  split; [assumption|].
  split; [exact (unpack_pack_same _ _ _ _ Hpack)|].
  split; [assumption|].
  split; [assumption|].
  split; [apply (unpack_pack_other _ _ _ _ ls Hbo Hls Hpack); lia|].
  split.
  { intros H4; apply unpack_from_I_same_bytes; [lia | assumption |].
    intros i Hi; apply Hframe; lia. }
  split.
  { rewrite Hpv; fold ls.
    apply unpack_from_I_same_bytes; [unfold ls; lia | assumption |].
    intros i Hi; apply Hframe; lia. }
  eexists; split; [exact Hmods|].
  cbn [location type_desc old_value new_value]; eauto 8.
Qed.

Lemma binary_update_frame_witness :
  unpack_from_H (data (analysed (res_two 9))) 118 = Ok 9 /\
  unpack_from_H (data (fst grow_two)) 118 = Ok 10 /\
  unpack_from_I (data (fst grow_two)) 124
  = unpack_from_I (data (analysed (res_two 9))) 124.
Proof.
  destruct (binary_update_frame
              (set_new_version (analysed (res_two 9)) (v_10_2503 10))
              (fst grow_two))
    as (nv & old & Hnv & _ & Hold & Hnew & _ & _ & _ & _ & Hpv & _);
    try (vm_compute; reflexivity).
  - vm_compute; discriminate.
  - assert (E : nv = v_10_2503 10)
      by (cbn [set_new_version new_version] in Hnv; congruence).
    subst nv; split; [vm_compute; reflexivity|].
    split; [exact Hnew | exact Hpv].
Defined.

(** ** The version text: rendering, encoding and reading back *)

Lemma codes_append (a b : string) : codes (a ++ b) = codes a ++ codes b.
Proof.
  induction a as [|c a IH]; [reflexivity|].
  cbn [append codes app]; now rewrite IH.
Qed.

Lemma string_of_uint_digits (d : Decimal.uint) (c : Z) :
  In c (codes (NilEmpty.string_of_uint d)) -> 48 <= c <= 57.
Proof.
  induction d; cbn [NilEmpty.string_of_uint codes In];
    try (intros [<-|H]; [vm_compute; split; discriminate | auto]).
  intros [].
Qed.

(** [str(n)] is made of digits, after a minus sign when [n] is negative. *)
Lemma str_chars (n c : Z) : In c (codes (str n)) -> 48 <= c <= 57 \/ c = 45.
Proof.
  assert (U : forall d, In c (codes (NilZero.string_of_uint d)) -> 48 <= c <= 57).
  { intros d; unfold NilZero.string_of_uint; destruct d;
      try apply string_of_uint_digits.
    cbn [codes In]; intros [<-|[]]; vm_compute; split; discriminate. }
  unfold str; destruct (Z.to_int n) as [d|d]; cbn [NilZero.string_of_int].
  - intros H; left; apply U with d; exact H.
  - cbn [codes In]; intros [<-|H]; [right; reflexivity | left; apply U with d; exact H].
Qed.

Lemma str_no_dot (n : Z) : ~ In 46 (codes (str n)).
Proof. intros H; apply str_chars in H; lia. Qed.

Lemma str_cons (n : Z) : exists c s, str n = String c s.
Proof.
  assert (U : forall d, exists c s, NilZero.string_of_uint d = String c s).
  { intros d; destruct d; cbn; eauto. }
  unfold str; destruct (Z.to_int n) as [d|d]; cbn [NilZero.string_of_int]; eauto.
Qed.

Lemma split_dot_plain (p : list Z) : ~ In 46 p -> split_dot p = [p].
Proof.
  induction p as [|c p IH]; intros H; [reflexivity|].
  cbn [split_dot]; destruct (Z.eqb_spec c 46) as [E|E].
  - contradiction H; left; exact E.
  - rewrite IH; [reflexivity | intros H'; apply H; right; exact H'].
Qed.

Lemma split_dot_app (p rest : list Z) :
  ~ In 46 p -> split_dot (p ++ 46 :: rest) = p :: split_dot rest.
Proof.
  induction p as [|c p IH]; intros H; [reflexivity|].
  cbn [app split_dot]; destruct (Z.eqb_spec c 46) as [E|E].
  - contradiction H; left; exact E.
  - rewrite IH; [reflexivity | intros H'; apply H; right; exact H'].
Qed.

Lemma codes_version_text (M m : Z) (b : string) (r : Z) :
  codes (version_text M m b r)
  = codes (str M) ++ 46 :: codes (str m) ++ 46 :: codes b ++ 46 :: codes (str r).
Proof.
  unfold version_text; rewrite !codes_append; reflexivity.
Qed.

Lemma split_dot_version_text (v : VersionInfo) :
  split_dot (codes (VersionInfo_str v))
  = [codes (str (major v)); codes (str (minor v)); codes (str (build v));
     codes (str (release v))].
Proof.
  unfold VersionInfo_str; rewrite codes_version_text.
  rewrite !split_dot_app by apply str_no_dot.
  rewrite split_dot_plain by apply str_no_dot.
  reflexivity.
Qed.

Section TextCodec.

Variable py_int : list Z -> option Z.

(** X4.  Parsing a rendered version gives the version back:
    [from_string (str v) = v] whenever the builtin [int] reads each of the
    four rendered components as the number it renders. *)
Theorem from_string_str (v : VersionInfo) :
  py_int (codes (str (major v))) = Some (major v) ->
  py_int (codes (str (minor v))) = Some (minor v) ->
  py_int (codes (str (build v))) = Some (build v) ->
  py_int (codes (str (release v))) = Some (release v) ->
  from_string py_int (codes (VersionInfo_str v)) = Ok v.
Proof.
  intros HM Hm Hb Hr; unfold from_string.
  rewrite split_dot_version_text.
  unfold int; rewrite HM, Hm, Hb, Hr; cbn [bind].
  destruct v; reflexivity.
Qed.

End TextCodec.

Lemma from_string_str_witness :
  from_string int_ascii (codes (VersionInfo_str (v_10_2503 6)))
  = Ok (v_10_2503 6).
Proof.
  apply (from_string_str int_ascii (v_10_2503 6)); vm_compute; reflexivity.
Defined.

Lemma length_split_dot (s : list Z) :
  List.length (split_dot s) = S (count_occ Z.eq_dec s 46).
Proof.
  induction s as [|c s IH]; [reflexivity|].
  cbn [split_dot count_occ].
  destruct (Z.eqb_spec c 46) as [E|E]; destruct (Z.eq_dec c 46) as [E'|E'];
    try contradiction; cbn [List.length]; [now rewrite IH|].
  destruct (split_dot s) as [|p ps]; [discriminate | exact IH].
Qed.

(** Joining the parts of [split_dot] with dots gives the text back, and no
    part holds a dot. *)
Lemma split_dot_parts (s : list Z) :
  forall p ps, split_dot s = p :: ps ->
    ~ In 46 p /\
    match ps with
    | [] => s = p
    | _ :: _ => exists rest, s = p ++ 46 :: rest /\ split_dot rest = ps
    end.
Proof.
  induction s as [|c s IH]; intros p ps H.
  - injection H as <- <-; split; [intros [] | reflexivity].
  - cbn [split_dot] in H; destruct (Z.eqb_spec c 46) as [E|E].
    + injection H as <- <-; split; [intros []|].
      pose proof (length_split_dot s) as L.
      destruct (split_dot s) as [|q qs] eqn:Hs; [discriminate|].
      exists s; subst c; split; [reflexivity | exact Hs].
    + destruct (split_dot s) as [|q qs] eqn:Hs.
      * pose proof (length_split_dot s) as L; rewrite Hs in L; discriminate.
      * injection H as <- <-.
        destruct (IH q qs eq_refl) as (Hq & Hrest).
        split; [intros [F|F]; [congruence | contradiction]|].
        destruct qs as [|q' qs'].
        -- now subst s.
        -- destruct Hrest as (rest & -> & Hr); exists rest; split;
             [reflexivity | exact Hr].
Qed.

Lemma split_dot_four (s p0 p1 p2 p3 : list Z) :
  split_dot s = [p0; p1; p2; p3] ->
  s = p0 ++ 46 :: p1 ++ 46 :: p2 ++ 46 :: p3 /\
  ~ In 46 p0 /\ ~ In 46 p1 /\ ~ In 46 p2 /\ ~ In 46 p3.
Proof.
  intros Hs.
  destruct (split_dot_parts _ _ _ Hs) as (N0 & r0 & -> & Hs0).
  destruct (split_dot_parts _ _ _ Hs0) as (N1 & r1 & -> & Hs1).
  destruct (split_dot_parts _ _ _ Hs1) as (N2 & r2 & -> & Hs2).
  destruct (split_dot_parts _ _ _ Hs2) as (N3 & ->).
  repeat split; assumption.
Qed.

Section TextParsing.

Variable py_int : list Z -> option Z.

(** X5.  A text that does not hold exactly three dots is refused with
    [ValueError], whatever stands between the dots: [int] is not consulted. *)
Theorem from_string_dot_count (s : list Z) :
  count_occ Z.eq_dec s 46 <> 3%nat ->
  from_string py_int s = Raise ValueError.
Proof.
  intros H; unfold from_string.
  pose proof (length_split_dot s) as L.
  destruct (split_dot s) as [|p0 [|p1 [|p2 [|p3 [|p4 ps]]]]]; try reflexivity.
  cbn [List.length] in L; congruence.
Qed.

(** X6.  When [from_string] returns a version, the text is four dot-free
    parts joined by three dots, and the components are what [int] reads
    from the parts, in order. *)
Theorem from_string_parts (s : list Z) (v : VersionInfo) :
  from_string py_int s = Ok v ->
  exists p0 p1 p2 p3,
    s = p0 ++ 46 :: p1 ++ 46 :: p2 ++ 46 :: p3 /\
    ~ In 46 p0 /\ ~ In 46 p1 /\ ~ In 46 p2 /\ ~ In 46 p3 /\
    py_int p0 = Some (major v) /\ py_int p1 = Some (minor v) /\
    py_int p2 = Some (build v) /\ py_int p3 = Some (release v).
Proof.
  unfold from_string; intros H.
  destruct (split_dot s) as [|p0 [|p1 [|p2 [|p3 [|p4 ps]]]]] eqn:Hs;
    try discriminate.
  unfold int in H.
  destruct (py_int p0) as [M|] eqn:E0; [|discriminate].
  destruct (py_int p1) as [m|] eqn:E1; [|discriminate].
  destruct (py_int p2) as [b|] eqn:E2; [|discriminate].
  destruct (py_int p3) as [r|] eqn:E3; [|discriminate].
  cbn [bind] in H; injection H as <-; cbn [major minor build release].
  destruct (split_dot_four _ _ _ _ _ Hs) as (-> & N0 & N1 & N2 & N3).
  exists p0, p1, p2, p3; repeat split; assumption.
Qed.

End TextParsing.

Lemma from_string_dot_count_witness :
  from_string int_ascii (codes "10.2503.6") = Raise ValueError.
Proof.
  apply (from_string_dot_count int_ascii (codes "10.2503.6")).
  vm_compute; discriminate.
Defined.

Lemma from_string_parts_witness :
  exists p0 p1 p2 p3,
    codes "10.2503.6.0" = p0 ++ 46 :: p1 ++ 46 :: p2 ++ 46 :: p3 /\
    ~ In 46 p0 /\ ~ In 46 p1 /\ ~ In 46 p2 /\ ~ In 46 p3 /\
    int_ascii p0 = Some 10 /\ int_ascii p1 = Some 2503 /\
    int_ascii p2 = Some 6 /\ int_ascii p3 = Some 0.
Proof.
  apply (from_string_parts int_ascii (codes "10.2503.6.0") (v_10_2503 6)).
  vm_compute; reflexivity.
Defined.

Lemma byte_val_ascii (c : ascii) : byte_val (byte_of_ascii c) = ord c.
Proof.
  unfold byte_val, ord; f_equal.
  apply Byte.to_of_N; symmetry; apply byte_of_ascii_via_N.
Qed.

Lemma blen_cons (b : byte) (l : list byte) : blen (b :: l) = blen l + 1.
Proof. unfold blen; cbn [List.length]; lia. Qed.

Lemma skipn_blen_app (a l : list byte) : skipn (Z.to_nat (blen a)) (a ++ l) = l.
Proof.
  unfold blen; rewrite Nat2Z.id, skipn_app, skipn_all, Nat.sub_diag.
  reflexivity.
Qed.

Lemma unpack_from_H_at (a : list byte) (b0 b1 : byte) (rest : list byte) :
  unpack_from_H (a ++ b0 :: b1 :: rest) (blen a)
  = Ok (byte_val b0 + 256 * byte_val b1).
Proof.
  unfold unpack_from_H; pose proof (blen_nonneg a).
  rewrite struct_offset_ok;
    [|assumption
     | rewrite blen_app, !blen_cons; pose proof (blen_nonneg rest); lia].
  cbn [bind]; rewrite skipn_blen_app, le_value_two; reflexivity.
Qed.

Lemma getitem_at (a : list byte) (b : byte) (rest : list byte) :
  getitem (a ++ b :: rest) (blen a) = Ok b.
Proof.
  unfold getitem, index_of; pose proof (blen_nonneg a).
  assert (E0 : (blen a <? 0) = false) by (apply Z.ltb_ge; lia).
  assert (E1 : (blen (a ++ b :: rest) <=? blen a) = false).
  { apply Z.leb_gt; rewrite blen_app, blen_cons.
    pose proof (blen_nonneg rest); lia. }
  rewrite E0; cbv zeta; rewrite E0, E1; cbn [orb bind].
  unfold blen; rewrite Nat2Z.id, nth_error_app2, Nat.sub_diag by lia.
  reflexivity.
Qed.

Lemma read_version_chars_text (s : string) :
  forall fuel a tail,
    ~ In 0 (codes s) -> terminated tail ->
    (List.length (encode_utf16le s ++ tail) < fuel)%nat ->
    read_version_chars fuel (a ++ encode_utf16le s ++ tail) (blen a)
    = Ok (codes s).
Proof.
  induction s as [|c s IH]; intros fuel a tail Hs Ht Hfuel;
    (destruct fuel as [|fuel]; [lia|]); cbn [read_version_chars].
  - cbn [encode_utf16le app codes].
    destruct (Z.ltb_spec (blen a) (blen (a ++ tail) - 1)) as [L|L];
      [|reflexivity].
    rewrite blen_app in L.
    destruct tail as [|b0 [|b1 tail]];
      try (unfold blen in L; cbn [List.length] in L; lia).
    destruct Ht as [-> ->]; rewrite unpack_from_H_at; reflexivity.
  - cbn [encode_utf16le app codes] in *.
    assert (Hc : ord c <> 0) by (intros E; apply Hs; left; exact E).
    destruct (Z.ltb_spec (blen a)
                (blen (a ++ byte_of_ascii c :: x00 :: encode_utf16le s ++ tail) - 1))
      as [L|L];
      [|rewrite blen_app, !blen_cons in L;
        pose proof (blen_nonneg (encode_utf16le s ++ tail)); lia].
    rewrite unpack_from_H_at, byte_val_ascii.
    change (byte_val x00) with 0; rewrite Z.mul_0_r, Z.add_0_r; cbn [bind].
    destruct (Z.eqb_spec (ord c) 0) as [E|_]; [contradiction|].
    replace (a ++ byte_of_ascii c :: x00 :: encode_utf16le s ++ tail)
      with ((a ++ [byte_of_ascii c; x00]) ++ encode_utf16le s ++ tail)
      by (rewrite <- app_assoc; reflexivity).
    replace (blen a + 2) with (blen (a ++ [byte_of_ascii c; x00]))
      by (rewrite blen_app; reflexivity).
    rewrite IH; [reflexivity | | assumption | cbn [List.length] in Hfuel; lia].
    intros F; apply Hs; right; exact F.
Qed.

Lemma rounds_text (a l : list byte) :
  (List.length l < rounds (a ++ l) (blen a))%nat.
Proof.
  unfold rounds; rewrite blen_app.
  replace (blen a + blen l - blen a) with (blen l) by lia.
  unfold blen; rewrite Nat2Z.id; lia.
Qed.

(** X7.  Reading back what was encoded, for a text of code points below
    256, none of them zero (such a text is encoded as each code point's
    byte followed by a zero byte): where its encoding stands in the buffer,
    followed by the zero code unit or by the end of the buffer, the reading
    loop of [find_string_version] returns the code points of the text. *)
Theorem read_version_chars_encode (a tail : list byte) (s : string) :
  ~ In 0 (codes s) -> terminated tail ->
  let d := a ++ encode_utf16le s ++ tail in
  read_version_chars (rounds d (blen a)) d (blen a) = Ok (codes s).
Proof.
  intros Hs Ht d; unfold d.
  apply read_version_chars_text; [exact Hs | exact Ht | apply rounds_text].
Qed.

Lemma read_version_chars_encode_witness :
  read_version_chars (rounds (res_two 9) 380) (res_two 9) 380
  = Ok (codes "10.2503.9.0").
Proof.
  assert (E : exists a tail,
             res_two 9 = a ++ encode_utf16le "10.2503.9.0" ++ tail /\
             blen a = 380 /\ terminated tail).
  { exists (firstn 380 (res_two 9)), (skipn 402 (res_two 9)).
    vm_compute; repeat split. }
  destruct E as (a & tail & E & Ha & Ht).
  rewrite E, <- Ha.
  apply (read_version_chars_encode a tail "10.2503.9.0"); [|exact Ht].
  vm_compute; intuition discriminate.
Defined.

Lemma skip_padding_zeros (k : nat) :
  forall fuel a rest,
    (k < fuel)%nat ->
    match rest with
    | [] => True
    | b :: _ => byte_val b <> 0
    end ->
    skip_padding fuel (a ++ repeat x00 k ++ rest) (blen a)
    = Ok (blen a + Z.of_nat k).
Proof.
  induction k as [|k IH]; intros fuel a rest Hfuel Hrest;
    (destruct fuel as [|fuel]; [lia|]); cbn [skip_padding repeat app].
  - rewrite Z.add_0_r.
    destruct (Z.ltb_spec (blen a) (blen (a ++ rest))) as [L|L]; [|reflexivity].
    destruct rest as [|b rest]; [rewrite app_nil_r in L; lia|].
    rewrite getitem_at; cbn [bind].
    destruct (Z.eqb_spec (byte_val b) 0); [contradiction | reflexivity].
  - destruct (Z.ltb_spec (blen a) (blen (a ++ x00 :: repeat x00 k ++ rest)))
      as [L|L];
      [|rewrite blen_app, blen_cons in L;
        pose proof (blen_nonneg (repeat x00 k ++ rest)); lia].
    rewrite getitem_at; cbn [bind]; change (byte_val x00 =? 0) with true.
    cbv iota.
    replace (a ++ x00 :: repeat x00 k ++ rest)
      with ((a ++ [x00]) ++ repeat x00 k ++ rest)
      by (rewrite <- app_assoc; reflexivity).
    replace (blen a + 1) with (blen (a ++ [x00]))
      by (rewrite blen_app; reflexivity).
    rewrite IH by (assumption || lia).
    rewrite blen_app; change (blen [x00]) with 1; f_equal; lia.
Qed.

Lemma version_text_no_zero (v : VersionInfo) :
  ~ In 0 (codes (VersionInfo_str v)).
Proof.
  unfold VersionInfo_str; rewrite codes_version_text.
  rewrite !in_app_iff; cbn [In]; rewrite !in_app_iff; cbn [In].
  rewrite !in_app_iff; cbn [In].
  intros H; repeat destruct H as [H|H];
    try discriminate; apply str_chars in H; lia.
Qed.

Lemma version_text_first_byte (v : VersionInfo) (tail : list byte) :
  match encode_utf16le (VersionInfo_str v) ++ tail with
  | [] => True
  | b :: _ => byte_val b <> 0
  end.
Proof.
  pose proof (version_text_no_zero v) as H.
  unfold VersionInfo_str, version_text in *.
  destruct (str_cons (major v)) as (c & s & E); rewrite E in *.
  cbn [append encode_utf16le app codes In] in *.
  rewrite byte_val_ascii; intros F; apply H; left; exact F.
Qed.

Section TextRoundTrip.

Variable py_int : list Z -> option Z.

(** X8.  The text analysis reads a rendered version back: on a buffer where
    the first occurrence of the key is followed by its two terminator
    bytes, any number of zero bytes and the encoding of [str v], which the
    zero code unit or the end of the buffer follows, [find_string_version]
    returns [True], puts the value offset on the first byte of the text and
    takes [v] as the current version, whenever [int] reads the four rendered
    components. *)
Theorem find_string_version_reads_rendered (self : ResVersionBumper)
    (v : VersionInfo) (a tail : list byte) (k : nat) :
  data self
  = a ++ file_version_key ++ x00 :: x00 :: repeat x00 k
      ++ encode_utf16le (VersionInfo_str v) ++ tail ->
  terminated tail ->
  find (data self) file_version_key 0 = blen a ->
  py_int (codes (str (major v))) = Some (major v) ->
  py_int (codes (str (minor v))) = Some (minor v) ->
  py_int (codes (str (build v))) = Some (build v) ->
  py_int (codes (str (release v))) = Some (release v) ->
  find_string_version py_int self
  = Ok (set_current_version
          (set_string_offset self (blen a + 24 + Z.of_nat k)) v, true).
Proof.
  intros Hd Ht Hfind HM Hm Hb Hr.
  pose proof (blen_nonneg a) as Ha.
  set (text := encode_utf16le (VersionInfo_str v)) in *.
  set (head := a ++ file_version_key ++ [x00; x00]).
  assert (Hhead : blen head = blen a + 24)
    by (unfold head; rewrite !blen_app; reflexivity).
  assert (Hd1 : data self = head ++ repeat x00 k ++ text ++ tail).
  { rewrite Hd; unfold head; rewrite <- !app_assoc; reflexivity. }
  assert (Hd2 : data self = (head ++ repeat x00 k) ++ text ++ tail).
  { rewrite Hd1, <- app_assoc; reflexivity. }
  assert (Hoff : blen (head ++ repeat x00 k) = blen a + 24 + Z.of_nat k).
  { rewrite blen_app, blen_repeat, Hhead; reflexivity. }
  assert (Hskip : skip_padding (rounds (data self) (blen a + 24)) (data self)
                    (blen a + 24) = Ok (blen a + 24 + Z.of_nat k)).
  { rewrite <- Hhead, Hd1; apply skip_padding_zeros.
    - unfold rounds; rewrite !blen_app, blen_repeat.
      pose proof (blen_nonneg text); pose proof (blen_nonneg tail); lia.
    - apply version_text_first_byte. }
  assert (Hread : read_version_chars
                    (rounds (data self) (blen a + 24 + Z.of_nat k)) (data self)
                    (blen a + 24 + Z.of_nat k)
                  = Ok (codes (VersionInfo_str v))).
  { rewrite <- Hoff, Hd2.
    apply read_version_chars_text;
      [apply version_text_no_zero | exact Ht | apply rounds_text]. }
  unfold find_string_version; rewrite Hfind; cbv zeta.
  destruct (Z.eqb_spec (blen a) (-1)) as [E|_]; [lia|].
  change (blen file_version_key) with 22.
  replace (blen a + 22 + 2) with (blen a + 24) by lia.
  rewrite Hskip; cbn [bind set_string_offset data].
  rewrite Hread; cbn [bind].
  unfold from_string; rewrite split_dot_version_text.
  unfold int; rewrite HM, Hm, Hb, Hr; cbn [bind].
  destruct v; reflexivity.
Qed.

End TextRoundTrip.

Lemma find_string_version_reads_rendered_witness :
  find_string_version int_ascii (set_data init (res_two 9))
  = Ok (set_current_version
          (set_string_offset (set_data init (res_two 9)) 380) (v_10_2503 9),
        true).
Proof.
  assert (E : exists a tail,
             res_two 9
             = a ++ file_version_key ++ x00 :: x00 :: repeat x00 2
                 ++ encode_utf16le (VersionInfo_str (v_10_2503 9)) ++ tail /\
             blen a = 354 /\ terminated tail).
  { exists (firstn 354 (res_two 9)), (skipn 402 (res_two 9)).
    vm_compute; repeat split. }
  destruct E as (a & tail & E & Ha & Ht).
  change 380 with (354 + 24 + Z.of_nat 2); rewrite <- Ha.
  apply (find_string_version_reads_rendered int_ascii (set_data init (res_two 9))
           (v_10_2503 9) a tail 2);
    try (vm_compute; reflexivity); [exact E | exact Ht |].
  rewrite Ha; vm_compute; reflexivity.
Defined.

(** ** What the text analysis has located *)

Lemma byte_val_zero (b : byte) : byte_val b = 0 -> b = x00.
Proof.
  unfold byte_val; intros H.
  assert (E : Byte.to_N b = 0%N) by lia.
  pose proof (Byte.of_to_N b) as R; rewrite E in R.
  cbv in R; congruence.
Qed.

Lemma getitem_inside (d : list byte) (i : Z) (b : byte) :
  0 <= i -> getitem d i = Ok b ->
  i < blen d /\ nth_error d (Z.to_nat i) = Some b.
Proof.
  intros Hi H; unfold getitem, index_of in H.
  destruct (i <? 0) eqn:E0; [apply Z.ltb_lt in E0; lia|].
  destruct ((i <? 0) || (blen d <=? i)) eqn:E1; [discriminate|].
  apply orb_false_iff in E1; destruct E1 as [_ E1]; apply Z.leb_gt in E1.
  cbn [bind] in H.
  destruct (nth_error d (Z.to_nat i)) as [b'|]; [|discriminate].
  injection H as ->; split; [assumption | reflexivity].
Qed.

(** The padding loop stops on the first byte that is not zero, or at the
    end of the buffer. *)
Lemma skip_padding_spec (fuel : nat) (d : list byte) :
  forall s r,
    0 <= s -> skip_padding fuel d s = Ok r ->
    s <= r /\
    (forall i, s <= Z.of_nat i < r -> nth_error d i = Some x00) /\
    (r < blen d ->
     exists b, nth_error d (Z.to_nat r) = Some b /\ b <> x00).
Proof.
  induction fuel as [|fuel IH]; intros s r Hs H; [discriminate|].
  cbn [skip_padding] in H.
  destruct (Z.ltb_spec s (blen d)) as [L|L];
    [|injection H as <-; split; [lia|]; split; [intros i Hi|intros Hr]; lia].
  bind_inv H; rename a into b.
  destruct (getitem_inside _ _ _ Hs Ha) as (_ & Hb).
  destruct (Z.eqb_spec (byte_val b) 0) as [E|E].
  - apply byte_val_zero in E; subst b.
    assert (Hs1 : 0 <= s + 1) by lia.
    destruct (IH (s + 1) r Hs1 H) as (Hle & Hz & Hn).
    split; [lia|]; split; [|exact Hn].
    intros i Hi; destruct (Z.eq_dec (Z.of_nat i) s) as [Heq|Hne].
    + subst s; rewrite Nat2Z.id in Hb; exact Hb.
    + apply Hz; lia.
  - injection H as <-; split; [lia|]; split; [intros i Hi; lia|].
    intros _; exists b; split; [exact Hb|].
    intros ->; apply E; reflexivity.
Qed.

(** The reading loop returns the code units from [i] on, none of them zero,
    and stops on a zero code unit or where fewer than two bytes are left. *)
Lemma read_version_chars_spec (fuel : nat) (d : list byte) :
  forall i chars,
    0 <= i -> read_version_chars fuel d i = Ok chars ->
    (forall j c, nth_error chars j = Some c ->
       unpack_from_H d (i + 2 * Z.of_nat j) = Ok c /\ c <> 0) /\
    (chars <> [] -> i + 2 * Z.of_nat (List.length chars) <= blen d) /\
    (i + 2 * Z.of_nat (List.length chars) < blen d - 1 ->
     unpack_from_H d (i + 2 * Z.of_nat (List.length chars)) = Ok 0).
Proof.
  induction fuel as [|fuel IH]; intros i chars Hi H; [discriminate|].
  cbn [read_version_chars] in H.
  destruct (Z.ltb_spec i (blen d - 1)) as [L|L].
  - bind_inv H; rename a into c; rename Ha into Hc.
    destruct (Z.eqb_spec c 0) as [E|E].
    + injection H as <-; cbn [List.length]; rewrite Z.mul_0_r, Z.add_0_r.
      split; [intros [|j] c' F; discriminate|].
      split; [congruence | intros _; subst c; exact Hc].
    + bind_inv H; rename a into rest; injection H as <-.
      assert (Hi2 : 0 <= i + 2) by lia.
      destruct (IH (i + 2) rest Hi2 Ha) as (Hall & Hfit & Hend).
      cbn [List.length].
      replace (i + 2 * Z.of_nat (S (List.length rest)))
        with (i + 2 + 2 * Z.of_nat (List.length rest)) by lia.
      split; [|split; [|exact Hend]].
      * intros [|j] c' F; cbn [nth_error] in F.
        -- injection F as <-; rewrite Z.mul_0_r, Z.add_0_r; split; assumption.
        -- replace (i + 2 * Z.of_nat (S j)) with (i + 2 + 2 * Z.of_nat j) by lia.
           apply Hall; exact F.
      * intros _; destruct rest as [|c' rest'];
          [cbn [List.length]; lia | apply Hfit; discriminate].
  - injection H as <-; cbn [List.length]; rewrite Z.mul_0_r, Z.add_0_r.
    split; [intros [|j] c F; discriminate|].
    split; [congruence | intros F; lia].
Qed.

Section TextAnalysis.

Variable py_int : list Z -> option Z.

(** X9.  What a successful text analysis has located: the key stands at its
    first occurrence [pos]; the value offset lies at or after [pos + 24],
    with zero bytes only in between, on a byte that is not zero; the code
    units read from there on are not zero, hold exactly three dots, lie
    inside the buffer, and parse to the current version. *)
Theorem find_string_version_located (self self' : ResVersionBumper) :
  find_string_version py_int self = Ok (self', true) ->
  let d := data self in
  let pos := find d file_version_key 0 in
  let off := file_version_string_offset self' in
  at_offset file_version_key d pos /\
  pos + 24 <= off /\
  (forall i, pos + 24 <= Z.of_nat i < off -> nth_error d i = Some x00) /\
  (exists b, nth_error d (Z.to_nat off) = Some b /\ b <> x00) /\
  exists chars v,
    read_version_chars (rounds d off) d off = Ok chars /\
    (forall j c, nth_error chars j = Some c ->
       unpack_from_H d (off + 2 * Z.of_nat j) = Ok c /\ c <> 0) /\
    off + 2 * Z.of_nat (List.length chars) <= blen d /\
    count_occ Z.eq_dec chars 46 = 3%nat /\
    from_string py_int chars = Ok v /\
    current_version self' = Some v.
Proof.
  intros H d pos off; unfold find_string_version in H; fold d pos in H.
  cbv zeta in H.
  destruct (Z.eqb_spec pos (-1)) as [E|E]; [discriminate|].
  destruct (find_hit d file_version_key 0 (Z.le_refl 0) E) as (Hpos & _ & Hat).
  fold pos in Hpos, Hat.
  change (blen file_version_key) with 22 in H.
  bind_inv H; rename a into start; rename Ha into Hskip.
  cbn [set_string_offset data] in H; fold d in H.
  bind_inv H; rename a into chars; rename Ha into Hread.
  bind_inv H; rename a into v; rename Ha into Hv.
  injection H as <-.
  assert (Eoff : off = start) by reflexivity.
  rewrite Eoff; clear Eoff off.
  assert (H24 : 0 <= pos + 22 + 2) by lia.
  destruct (skip_padding_spec _ _ _ _ H24 Hskip) as (Hle & Hzero & Hstop).
  assert (Hstart : 0 <= start) by lia.
  destruct (read_version_chars_spec _ _ _ _ Hstart Hread) as (Hall & Hfit & _).
  assert (Hdots : count_occ Z.eq_dec chars 46 = 3%nat).
  { unfold from_string in Hv; pose proof (length_split_dot chars) as L.
    destruct (split_dot chars) as [|p0 [|p1 [|p2 [|p3 [|p4 ps]]]]];
      try discriminate.
    cbn [List.length] in L; lia. }
  assert (Hne : chars <> []) by (intros ->; discriminate).
  specialize (Hfit Hne).
  assert (Hlen : (0 < List.length chars)%nat)
    by (destruct chars; [congruence | cbn [List.length]; lia]).
  split; [exact Hat|].
  split; [lia|].
  split; [intros i Hi; apply Hzero; lia|].
  split; [apply Hstop; lia|].
  exists chars, v.
  split; [exact Hread|]; split; [exact Hall|]; split; [exact Hfit|].
  split; [exact Hdots|]; split; [exact Hv | reflexivity].
Qed.

End TextAnalysis.

Lemma find_string_version_located_witness :
  at_offset file_version_key (res_two 9) 354 /\
  exists b, nth_error (res_two 9) 380 = Some b /\ b <> x00.
Proof.
  destruct (find_string_version_located int_ascii (set_data init (res_two 9))
              (set_current_version
                 (set_string_offset (set_data init (res_two 9)) 380)
                 (v_10_2503 9)))
    as (Hat & _ & _ & Hb & _); [vm_compute; reflexivity|].
  split; [exact Hat | exact Hb].
Defined.

(** ** The length fields: range errors and the ledger *)

(** X10.  [_update_length_fields] and the 16-bit range.  The fields it
    reaches are those of the six whose offset is below [len - 2].  It either
    returns, and then each reached field, old value plus delta, lies within
    0..65535 and the ledger has gained one line per reached field, in the
    order visited, with the old and the new value; or it raises
    [struct.error] for the range of the format, never for the bounds of the
    buffer, and then some reached field plus its delta lies outside 0..65535. *)
Theorem update_length_fields_outcome (self : ResVersionBumper)
    (byte_diff aligned_byte_diff fv_entry_offset : Z) :
  let d := data self in
  let reached := guarded (blen d) (length_fields byte_diff aligned_byte_diff) in
  match _update_length_fields self byte_diff aligned_byte_diff fv_entry_offset with
  | Ok self' =>
      (forall f, In f reached ->
         exists v, unpack_from_H d (lf_offset f) = Ok v /\
                   0 <= v + lf_delta f <= 65535) /\
      exists rs, modifications self' = modifications self ++ rs /\
                 Forall2 (recorded d) reached rs
  | Raise e =>
      e = StructError FormatRange /\
      exists f v, In f reached /\
                  unpack_from_H d (lf_offset f) = Ok v /\
                  ~ 0 <= v + lf_delta f <= 65535
  end.
Proof.
  intros d reached.
  rewrite update_length_fields_table, adjust_fields_guarded.
  apply (rewrite_fields_outcome _ 0); [lia | |].
  - apply apart_guarded, apart_length_fields.
  - intros f Hf; apply filter_In in Hf; destruct Hf as [_ Hlt].
    apply Z.ltb_lt in Hlt; lia.
Qed.

(** ** What a run leaves on disk *)

Section Disk.

Variable py_int : list Z -> option Z.



End Disk.

(** ** The same-width text update writes the new digits *)

Lemma ord_range (c : ascii) : 0 <= ord c < 256.
Proof. unfold ord; pose proof (N_ascii_bounded c); lia. Qed.

Lemma byte_of_Z_ord (c : ascii) : byte_of_Z (ord c) = byte_of_ascii c.
Proof.
  unfold byte_of_Z, ord; rewrite N2Z.id, <- byte_of_ascii_via_N; reflexivity.
Qed.

Lemma pack_into_H_writes (d : list byte) (o v : Z) (d' : list byte) :
  0 <= o -> pack_into_H d o v = Ok d' ->
  nth_error d' (Z.to_nat o) = Some (byte_of_Z (v mod 256)) /\
  nth_error d' (Z.to_nat o + 1) = Some (byte_of_Z (v / 256)).
Proof.
  intros Ho H; apply pack_into_H_Ok in H; destruct H as (n & Hn & _ & ->).
  apply struct_offset_inside in Hn; [|lia].
  destruct Hn as (Hlen & Hpos & _); specialize (Hpos Ho); subst n.
  unfold blen in Hlen; unfold put2.
  assert (Hf : List.length (firstn (Z.to_nat o) d) = Z.to_nat o)
    by (rewrite length_firstn; lia).
  split; rewrite nth_error_app2 by lia; rewrite Hf.
  - rewrite Nat.sub_diag; reflexivity.
  - replace (Z.to_nat o + 1 - Z.to_nat o)%nat with 1%nat by lia; reflexivity.
Qed.

(** After the loop that writes a text, its encoding stands where it was
    written. *)
Lemma write_chars_writes (s : string) :
  forall d off j d',
    0 <= off + j * 2 -> write_chars d off j s = Ok d' ->
    forall k, (k < List.length (encode_utf16le s))%nat ->
      nth_error d' (Z.to_nat (off + j * 2) + k) = nth_error (encode_utf16le s) k.
Proof.
  induction s as [|c s IH]; intros d off j d' Hpos H k Hk;
    [cbn [encode_utf16le List.length] in Hk; lia|].
  cbn [write_chars] in H; bind_inv H; rename a into d1.
  assert (Hpos' : 0 <= off + (j + 1) * 2) by lia.
  destruct (write_chars_spec _ _ _ _ _ Hpos' H) as (_ & Hframe).
  destruct (pack_into_H_writes _ _ _ _ Hpos Ha) as (W0 & W1).
  pose proof (ord_range c) as Hc.
  rewrite Z.mod_small, byte_of_Z_ord in W0 by lia.
  rewrite Z.div_small in W1 by lia; change (byte_of_Z 0) with x00 in W1.
  cbn [encode_utf16le List.length] in Hk |- *.
  destruct k as [|[|k]]; cbn [nth_error].
  - rewrite Nat.add_0_r, Hframe by lia; exact W0.
  - rewrite Hframe by lia; exact W1.
  - replace (Z.to_nat (off + j * 2) + S (S k))%nat
      with (Z.to_nat (off + (j + 1) * 2) + k)%nat by lia.
    apply (IH _ _ _ _ Hpos' H); lia.
Qed.

Lemma encode_utf16le_append (a b : string) :
  encode_utf16le (a ++ b) = encode_utf16le a ++ encode_utf16le b.
Proof.
  induction a as [|c a IH]; [reflexivity|].
  cbn [append encode_utf16le app]; now rewrite IH.
Qed.

(** A byte of an encoded text is a zero or the byte of one of its
    characters. *)
Lemma encode_utf16le_byte (s : string) :
  forall k b, nth_error (encode_utf16le s) k = Some b ->
              b = x00 \/ In (byte_val b) (codes s).
Proof.
  induction s as [|c s IH]; intros k b H;
    [destruct k; discriminate|].
  cbn [encode_utf16le codes In] in *.
  destruct k as [|[|k]]; cbn [nth_error] in H.
  - injection H as <-; right; left; symmetry; apply byte_val_ascii.
  - injection H as <-; left; reflexivity.
  - destruct (IH k b H) as [E|E]; [left; exact E | right; right; exact E].
Qed.

Lemma encode_str_no_dot (n : Z) (k : nat) :
  nth_error (encode_utf16le (str n)) k <> Some x2e.
Proof.
  intros H; apply encode_utf16le_byte in H; destruct H as [H|H];
    [discriminate|].
  apply str_chars in H; vm_compute in H; intuition discriminate.
Qed.

Lemma encode_str_first (n : Z) :
  exists b, nth_error (encode_utf16le (str n)) 0 = Some b /\ b <> x00.
Proof.
  destruct (str_cons n) as (c & s & E).
  pose proof (str_chars n (ord c)) as H; rewrite E in H |- *.
  cbn [encode_utf16le nth_error codes In] in *.
  exists (byte_of_ascii c); split; [reflexivity|].
  intros F; apply (f_equal byte_val) in F; rewrite byte_val_ascii in F.
  change (byte_val x00) with 0 in F.
  specialize (H (or_introl eq_refl)); lia.
Qed.

Lemma at_offset_byte (sub d : list byte) (p z : Z) :
  at_offset sub d p -> p <= z < p + blen sub ->
  nth_error d (Z.to_nat z) = nth_error sub (Z.to_nat (z - p)).
Proof.
  intros H Hz; apply at_offset_nth in H; destruct H as [Hp H].
  replace (Z.to_nat z) with (Z.to_nat p + Z.to_nat (z - p))%nat by lia.
  apply H; unfold blen in Hz; lia.
Qed.

(** The delimited pattern of the sweep: a dot, the digits, a dot. *)
Lemma delimited_pattern (s : string) :
  encode_utf16le ("." ++ s ++ ".")
  = x2e :: x00 :: encode_utf16le s ++ [x2e; x00].
Proof.
  change ("." ++ s ++ ".")%string with (String "." (s ++ ".")).
  cbn [encode_utf16le]; rewrite encode_utf16le_append; reflexivity.
Qed.

Lemma delimited_pattern_bytes (s : string) (z : Z) :
  let pattern := encode_utf16le ("." ++ s ++ ".") in
  let n := blen (encode_utf16le s) in
  (z = 0 -> nth_error pattern (Z.to_nat z) = Some x2e) /\
  (z = 1 -> nth_error pattern (Z.to_nat z) = Some x00) /\
  (2 <= z < n + 2 ->
   nth_error pattern (Z.to_nat z) = nth_error (encode_utf16le s) (Z.to_nat (z - 2))) /\
  (z = n + 2 -> nth_error pattern (Z.to_nat z) = Some x2e) /\
  (z = n + 3 -> nth_error pattern (Z.to_nat z) = Some x00).
Proof.
  intros pattern n; unfold pattern; rewrite delimited_pattern.
  pose proof (blen_nonneg (encode_utf16le s)) as Hn; fold n in Hn.
  assert (Hl : List.length (encode_utf16le s) = Z.to_nat n)
    by (unfold n, blen; lia).
  repeat split.
  - intros ->; reflexivity.
  - intros ->; reflexivity.
  - intros Hz.
    replace (Z.to_nat z) with (S (S (Z.to_nat (z - 2)))) by lia.
    cbn [nth_error]; apply nth_error_app1; lia.
  - intros ->.
    replace (Z.to_nat (n + 2)) with (S (S (Z.to_nat n))) by lia.
    cbn [nth_error]; rewrite nth_error_app2 by lia.
    rewrite Hl, Nat.sub_diag; reflexivity.
  - intros ->.
    replace (Z.to_nat (n + 3)) with (S (S (Z.to_nat n + 1))) by lia.
    cbn [nth_error]; rewrite nth_error_app2 by lia.
    rewrite Hl; replace (Z.to_nat n + 1 - Z.to_nat n)%nat with 1%nat by lia.
    reflexivity.
Qed.

(** Where the digits of [str n] stand in a buffer, an occurrence of a
    delimited pattern of the same width that shares a byte with them starts
    on the dot before them and holds the same digits. *)
Lemma delimited_over_digits (d : list byte) (o n run p i : Z) :
  blen (encode_utf16le (str o)) = blen (encode_utf16le (str n)) ->
  at_offset (encode_utf16le (str n)) d run ->
  at_offset (encode_utf16le ("." ++ str o ++ ".")) d p ->
  run <= i < run + blen (encode_utf16le (str n)) ->
  p <= i < p + blen (encode_utf16le ("." ++ str o ++ ".")) ->
  p = run - 2 /\ encode_utf16le (str o) = encode_utf16le (str n).
Proof.
  set (N := encode_utf16le (str n)); set (O := encode_utf16le (str o)).
  set (P := encode_utf16le ("." ++ str o ++ ".")).
  intros Hw HN HP Hi Hpi.
  assert (HblenP : blen P = blen O + 4).
  { unfold P; rewrite delimited_pattern, !blen_cons, blen_app; fold O.
    change (blen [x2e; x00]) with 2; lia. }
  pose proof (proj1 HN) as Hrun0. pose proof (proj1 HP) as Hp0.
  destruct (encode_str_first n) as (b0 & Hb0 & Hb0z); fold N in Hb0.
  assert (HL : 0 < blen N).
  { unfold blen; destruct N; [discriminate | cbn [List.length]; lia]. }
  (* a byte of the pattern, read in the buffer *)
  assert (Pat : forall z, 0 <= z < blen P ->
            nth_error d (Z.to_nat (p + z)) = nth_error P (Z.to_nat z)).
  { intros z Hz; rewrite (at_offset_byte P d p (p + z) HP) by lia.
    f_equal; lia. }
  (* a byte of the digits, read in the buffer *)
  assert (Dig : forall z, 0 <= z < blen N ->
            nth_error d (Z.to_nat (run + z)) = nth_error N (Z.to_nat z)).
  { intros z Hz; rewrite (at_offset_byte N d run (run + z) HN) by lia.
    f_equal; lia. }
  destruct (delimited_pattern_bytes (str o) 0) as (P0 & _).
  destruct (delimited_pattern_bytes (str o) 1) as (_ & P1 & _).
  destruct (delimited_pattern_bytes (str o) (blen O + 2)) as (_ & _ & _ & P2 & _).
  destruct (delimited_pattern_bytes (str o) (blen O + 3)) as (_ & _ & _ & _ & P3).
  fold P O in P0, P1, P2, P3.
  specialize (P0 eq_refl); specialize (P1 eq_refl).
  specialize (P2 eq_refl); specialize (P3 eq_refl).
  (* the dots of the pattern do not stand on a digit *)
  assert (NoDot : forall z, 0 <= z < blen P ->
            nth_error P (Z.to_nat z) = Some x2e ->
            run <= p + z < run + blen N -> False).
  { intros z Hz Hdot Hin.
    pose proof (Pat z Hz) as E; rewrite Hdot in E.
    replace (p + z) with (run + (p + z - run)) in E by lia.
    rewrite Dig in E by lia.
    apply (encode_str_no_dot n (Z.to_nat (p + z - run))); fold N; congruence. }
  (* a zero of the pattern does not stand on the first digit *)
  assert (NoZero : forall z, 0 <= z < blen P ->
            nth_error P (Z.to_nat z) = Some x00 -> p + z = run -> False).
  { intros z Hz Hzero Hin.
    pose proof (Pat z Hz) as E; rewrite Hzero, Hin in E.
    replace run with (run + 0) in E by lia.
    rewrite Dig in E by lia; change (Z.to_nat 0) with 0%nat in E.
    congruence. }
  assert (Hp : p = run - 2).
  { destruct (Z.lt_ge_cases p run) as [Hlt|Hge].
    - destruct (Z.eq_dec p (run - 1)) as [E1|E1];
        [exfalso; apply (NoZero 1); [lia | exact P1 | lia]|].
      destruct (Z.eq_dec p (run - 2)) as [E2|E2]; [exact E2|].
      exfalso.
      destruct (Z.eq_dec (p + (blen O + 3)) run) as [E3|E3];
        [apply (NoZero (blen O + 3)); [lia | exact P3 | exact E3]|].
      apply (NoDot (blen O + 2)); [lia | exact P2 | lia].
    - exfalso; apply (NoDot 0); [lia | exact P0 | lia]. }
  split; [exact Hp|].
  apply nth_error_ext; intros k.
  destruct (Nat.lt_ge_cases k (List.length O)) as [Hk|Hk].
  - destruct (delimited_pattern_bytes (str o) (Z.of_nat k + 2))
      as (_ & _ & P' & _); fold P O in P'.
    unfold blen in Hw, HL, HblenP |- *.
    specialize (P' ltac:(unfold blen; lia)).
    replace (Z.to_nat (Z.of_nat k + 2 - 2)) with k in P' by lia.
    rewrite <- P', <- Pat by (unfold blen; lia).
    replace (p + (Z.of_nat k + 2)) with (run + Z.of_nat k) by lia.
    rewrite Dig by (unfold blen; lia); f_equal; lia.
  - assert (Hk' : (List.length N <= k)%nat) by (unfold blen in Hw; lia).
    apply nth_error_None in Hk, Hk'; congruence.
Qed.

(** X12.  The same-width text update leaves the new digits in the text: when
    the old and the new build have as many digits and the update returns
    [True], the encoding of [str] of the new build stands at the digit run
    that the scan located, two bytes past the second dot, also after the
    global substitution has run; the ledger has gained exactly the line of
    that run. *)
Theorem same_width_writes_digits (self self' : ResVersionBumper)
    (cv nv : VersionInfo) :
  0 <= file_version_string_offset self ->
  current_version self = Some cv -> new_version self = Some nv ->
  len (str (build nv)) = len (str (build cv)) ->
  update_string_version self = Ok (self', true) ->
  exists run,
    scan_build_offset
      (rounds (data self) (file_version_string_offset self)) (data self)
      (file_version_string_offset self) 0 = Ok run /\
    file_version_string_offset self + 2 <= run /\
    at_offset (encode_utf16le (str (build nv))) (data self') run /\
    modifications self'
    = modifications self
        ++ [mkModificationRecord ".res" run FileVersion_text_Build
              (ShownText (str (build cv))) (ShownText (str (build nv)))].
Proof.
  intros Hstart Hcv Hnv Hlen H.
  unfold update_string_version in H; rewrite Hcv, Hnv, Hlen, Z.sub_diag in H.
  cbv zeta in H; cbn [Z.eqb] in H.
  unfold _update_string_version_same_length in H.
  bind_inv H; rename a into run; rename Ha into Hrun.
  destruct (Z.eqb_spec run (-1)) as [E|E]; [discriminate|].
  bind_inv H; rename a into mid; rename Ha into Hmid.
  bind_inv H; rename a into swept; rename Ha into Hsweep.
  injection H as <-.
  destruct (scan_build_offset_range _ _ _ _ _ Hstart Hrun) as [R|R];
    [contradiction|].
  exists run; split; [exact Hrun|]; split; [lia|].
  set (N := encode_utf16le (str (build nv))).
  set (O := encode_utf16le (str (build cv))).
  assert (Hw : blen O = blen N)
    by (unfold O, N; rewrite !blen_encode_utf16le; lia).
  assert (Hrun0 : 0 <= run + 0 * 2) by lia.
  (* the digits stand in the buffer after the writing loop *)
  assert (Hmid_at : at_offset N mid run).
  { apply at_offset_nth; split; [lia|]; intros k Hk.
    pose proof (write_chars_writes _ _ _ _ _ Hrun0 Hmid k Hk) as W.
    replace (run + 0 * 2) with run in W by lia; exact W. }
  (* the sweep keeps them *)
  destruct (update_all_version_strings_Ok _ _ _ _ Hlen Hsweep) as (_ & Hchg).
  cbn [record set_data data] in Hchg.
  split.
  - apply (at_offset_same_bytes N mid); [exact Hmid_at|].
    intros i Hi; destruct (Hchg i) as [Heq|(p & Hp & Hold & Hnew)];
      [exact Heq|].
    destruct (delimited_over_digits mid (build cv) (build nv) run p (Z.of_nat i)
                Hw Hmid_at Hold Hi Hp) as (-> & Esame).
    assert (Epat : encode_utf16le ("." ++ str (build nv) ++ ".")
                   = encode_utf16le ("." ++ str (build cv) ++ ".")).
    { rewrite !delimited_pattern, Esame; reflexivity. }
    rewrite Epat in Hnew.
    rewrite <- (Nat2Z.id i).
    rewrite (at_offset_byte _ _ _ _ Hnew Hp), (at_offset_byte _ _ _ _ Hold Hp).
    reflexivity.
  - unfold _update_all_version_strings in Hsweep.
    bind_inv Hsweep; destruct a as [d count].
    destruct (1 <? count); injection Hsweep as <-; reflexivity.
Qed.

Lemma same_width_writes_digits_witness :
  at_offset (encode_utf16le "7") (data (snd same_two)) 396.
Proof.
  destruct (same_width_writes_digits (fst same_two) (snd same_two)
              (v_10_2503 6) (v_10_2503 7))
    as (run & Hrun & _ & Hat & _); try (vm_compute; reflexivity).
  - vm_compute; discriminate.
  - assert (E : run = 396) by (vm_compute in Hrun; congruence).
    rewrite E in Hat; exact Hat.
Defined.

(** ** The digit run that the patches locate *)

Lemma unpack_from_H_inside (d : list byte) (o v : Z) :
  0 <= o -> unpack_from_H d o = Ok v -> o + 2 <= blen d.
Proof.
  intros Ho H; unfold unpack_from_H in H; bind_inv H.
  apply struct_offset_inside in Ha; [|lia].
  destruct Ha as (Hfit & Hn & _); specialize (Hn Ho); lia.
Qed.

Lemma part_then_dot_tail (d : list byte) (i c : Z) (p : list Z) :
  part_then_dot d i (c :: p) -> part_then_dot d (i + 2) p.
Proof.
  intros [Hall Hdot]; split.
  - intros j c' H.
    replace (i + 2 + 2 * Z.of_nat j) with (i + 2 * Z.of_nat (S j)) by lia.
    apply Hall; exact H.
  - cbn [List.length] in Hdot.
    replace (i + 2 + 2 * Z.of_nat (List.length p))
      with (i + 2 * Z.of_nat (S (List.length p))) by lia.
    exact Hdot.
Qed.

(** The scan for the second dot walks over a part and counts its dot. *)
Lemma scan_build_offset_part (d : list byte) (p : list Z) :
  forall fuel i dot_count,
    0 <= i -> (List.length p < fuel)%nat -> part_then_dot d i p ->
    scan_build_offset fuel d i dot_count
    = if dot_count + 1 =? 2 then Ok (i + 2 * Z.of_nat (List.length p) + 2)
      else scan_build_offset (fuel - S (List.length p)) d
             (i + 2 * Z.of_nat (List.length p) + 2) (dot_count + 1).
Proof.
  induction p as [|c p IH]; intros fuel i dc Hi Hfuel Hp;
    (destruct fuel as [|fuel]; [cbn [List.length] in Hfuel; lia|]);
    cbn [scan_build_offset List.length].
  - destruct Hp as [_ Hdot]; cbn [List.length] in Hdot.
    rewrite Z.mul_0_r, Z.add_0_r in *.
    pose proof (unpack_from_H_inside _ _ _ Hi Hdot) as Hin.
    destruct (Z.ltb_spec i (blen d - 1)) as [_|L]; [|lia].
    rewrite Hdot; cbn [bind]; change (ord ".") with 46; cbn [Z.eqb Pos.eqb].
    replace (S fuel - 1)%nat with fuel by lia; reflexivity.
  - pose proof (part_then_dot_tail _ _ _ _ Hp) as Hp'.
    destruct Hp as [Hall _].
    destruct (Hall 0%nat c eq_refl) as (Hc & Hc0 & Hc46).
    rewrite Z.mul_0_r, Z.add_0_r in Hc.
    pose proof (unpack_from_H_inside _ _ _ Hi Hc) as Hin.
    destruct (Z.ltb_spec i (blen d - 1)) as [_|L]; [|lia].
    rewrite Hc; cbn [bind]; change (ord ".") with 46.
    destruct (Z.eqb_spec c 0) as [?|_]; [contradiction|].
    destruct (Z.eqb_spec c 46) as [?|_]; [contradiction|].
    assert (Hi2 : 0 <= i + 2) by lia.
    cbn [List.length] in Hfuel.
    rewrite (IH fuel (i + 2) dc Hi2 ltac:(lia) Hp').
    replace (i + 2 + 2 * Z.of_nat (List.length p) + 2)
      with (i + 2 * Z.of_nat (S (List.length p)) + 2) by lia.
    reflexivity.
Qed.

(** The scan for the end of the digits walks over a part to its dot. *)
Lemma scan_build_end_part (d : list byte) (p : list Z) :
  forall fuel i,
    0 <= i -> (List.length p < fuel)%nat -> part_then_dot d i p ->
    scan_build_end fuel d i = Ok (i + 2 * Z.of_nat (List.length p)).
Proof.
  induction p as [|c p IH]; intros fuel i Hi Hfuel Hp;
    (destruct fuel as [|fuel]; [cbn [List.length] in Hfuel; lia|]);
    cbn [scan_build_end List.length].
  - destruct Hp as [_ Hdot]; cbn [List.length] in Hdot.
    rewrite Z.mul_0_r, Z.add_0_r in *.
    pose proof (unpack_from_H_inside _ _ _ Hi Hdot) as Hin.
    destruct (Z.ltb_spec i (blen d - 1)) as [_|L]; [|lia].
    rewrite Hdot; cbn [bind]; change (ord ".") with 46; reflexivity.
  - pose proof (part_then_dot_tail _ _ _ _ Hp) as Hp'.
    destruct Hp as [Hall _].
    destruct (Hall 0%nat c eq_refl) as (Hc & Hc0 & Hc46).
    rewrite Z.mul_0_r, Z.add_0_r in Hc.
    pose proof (unpack_from_H_inside _ _ _ Hi Hc) as Hin.
    destruct (Z.ltb_spec i (blen d - 1)) as [_|L]; [|lia].
    rewrite Hc; cbn [bind]; change (ord ".") with 46.
    destruct (Z.eqb_spec c 46) as [?|_]; [contradiction|].
    destruct (Z.eqb_spec c 0) as [?|_]; [contradiction|].
    cbn [orb].
    assert (Hi2 : 0 <= i + 2) by lia.
    cbn [List.length] in Hfuel.
    rewrite (IH fuel (i + 2) Hi2 ltac:(lia) Hp'); f_equal; lia.
Qed.

(** A dot-free part inside a text that was read unit by unit. *)
Lemma part_of_text (d : list byte) (off : Z) (before p after : list Z) :
  (forall j c, nth_error (before ++ p ++ 46 :: after) j = Some c ->
     unpack_from_H d (off + 2 * Z.of_nat j) = Ok c /\ c <> 0) ->
  ~ In 46 p ->
  part_then_dot d (off + 2 * Z.of_nat (List.length before)) p.
Proof.
  intros Hall Hp; split.
  - intros j c Hj.
    assert (Hlt : (j < List.length p)%nat)
      by (apply nth_error_Some; congruence).
    destruct (Hall (List.length before + j)%nat c) as (Hc & Hc0).
    { rewrite nth_error_app2, Nat.add_comm, Nat.add_sub by lia.
      rewrite nth_error_app1 by lia; exact Hj. }
    replace (off + 2 * Z.of_nat (List.length before) + 2 * Z.of_nat j)
      with (off + 2 * Z.of_nat (List.length before + j)) by lia.
    split; [exact Hc|]; split; [exact Hc0|].
    intros ->; apply Hp; apply nth_error_In with j; exact Hj.
  - destruct (Hall (List.length before + List.length p)%nat 46) as (Hc & _).
    { rewrite nth_error_app2, Nat.add_comm, Nat.add_sub by lia.
      rewrite nth_error_app2, Nat.sub_diag by lia; reflexivity. }
    replace (off + 2 * Z.of_nat (List.length before)
             + 2 * Z.of_nat (List.length p))
      with (off + 2 * Z.of_nat (List.length before + List.length p)) by lia.
    exact Hc.
Qed.

Section DigitRun.

Variable py_int : list Z -> option Z.

(** X13.  The digits that the patches locate are the digits that the
    analysis parsed: after a successful text analysis the text read at the
    value offset is four dot-free parts joined by dots, [int] read the
    current build from the third, the scan for the second dot stops on the
    first code unit of that third part, and the scan for the end of the
    digits stops on the dot after it. *)
Theorem build_span_is_parsed_part (self self' : ResVersionBumper) :
  find_string_version py_int self = Ok (self', true) ->
  exists p0 p1 p2 p3 cv,
    let d := data self' in
    let off := file_version_string_offset self' in
    let run := off + 2 * Z.of_nat (List.length p0 + List.length p1 + 2) in
    read_version_chars (rounds d off) d off
    = Ok (p0 ++ 46 :: p1 ++ 46 :: p2 ++ 46 :: p3) /\
    current_version self' = Some cv /\
    py_int p2 = Some (build cv) /\
    build_span self' = Ok (run, run + 2 * Z.of_nat (List.length p2)) /\
    forall j c, nth_error p2 j = Some c ->
                unpack_from_H d (run + 2 * Z.of_nat j) = Ok c.
Proof.
  intros H.
  pose proof (find_string_version_true py_int _ _ H)
    as (Hdata & _ & _ & Hoff & _).
  unfold find_string_version in H; cbv zeta in H.
  destruct (find (data self) file_version_key 0 =? -1); [discriminate|].
  bind_inv H; rename a into off; clear Ha.
  cbn [set_string_offset data] in H.
  bind_inv H; rename a into chars; rename Ha into Hread.
  bind_inv H; rename a into cv; rename Ha into Hv.
  injection H as <-.
  cbn [set_current_version set_string_offset data file_version_string_offset
         current_version] in *.
  destruct (read_version_chars_spec _ _ _ _ Hoff Hread) as (Hall & Hfit & _).
  (* the four parts *)
  unfold from_string in Hv.
  destruct (split_dot chars) as [|p0 [|p1 [|p2 [|p3 [|p4 ps]]]]] eqn:Hs;
    try discriminate.
  unfold int in Hv.
  destruct (py_int p0) as [M|]; [|discriminate].
  destruct (py_int p1) as [m|]; [|discriminate].
  destruct (py_int p2) as [b|] eqn:E2; [|discriminate].
  destruct (py_int p3) as [r|]; [|discriminate].
  cbn [bind] in Hv; injection Hv as <-.
  destruct (split_dot_four _ _ _ _ _ Hs) as (-> & N0 & N1 & N2 & _).
  specialize (Hfit ltac:(destruct p0; discriminate)).
  rewrite !length_app in Hfit; cbn [List.length] in Hfit.
  rewrite !length_app in Hfit; cbn [List.length] in Hfit.
  rewrite !length_app in Hfit; cbn [List.length] in Hfit.
  exists p0, p1, p2, p3, (mkVersionInfo M m b r).
  cbv zeta; cbn [build].
  set (d := data self) in *.
  set (run := off + 2 * Z.of_nat (List.length p0 + List.length p1 + 2)).
  (* the parts where they stand *)
  assert (P0 : part_then_dot d off p0).
  { replace off with (off + 2 * Z.of_nat (@List.length Z [])) at 1
      by (cbn [List.length]; lia).
    apply (part_of_text d off [] p0 (p1 ++ 46 :: p2 ++ 46 :: p3));
      [exact Hall | exact N0]. }
  assert (P1 : part_then_dot d (off + 2 * Z.of_nat (List.length p0) + 2) p1).
  { replace (off + 2 * Z.of_nat (List.length p0) + 2)
      with (off + 2 * Z.of_nat (List.length (p0 ++ [46])))
      by (rewrite length_app; cbn [List.length]; lia).
    apply (part_of_text d off (p0 ++ [46]) p1 (p2 ++ 46 :: p3)); [|exact N1].
    rewrite <- app_assoc; exact Hall. }
  assert (P2 : part_then_dot d run p2).
  { replace run
      with (off + 2 * Z.of_nat (List.length (p0 ++ 46 :: p1 ++ [46])))
      by (unfold run; rewrite length_app; cbn [List.length];
          rewrite length_app; cbn [List.length]; lia).
    apply (part_of_text d off (p0 ++ 46 :: p1 ++ [46]) p2 p3); [|exact N2].
    rewrite <- app_assoc; cbn [app]; rewrite <- app_assoc; exact Hall. }
  split; [exact Hread|]; split; [reflexivity|]; split; [exact E2|].
  split; [|intros j c Hj; apply (proj1 P2 j c Hj)].
  unfold build_span; cbv zeta.
  cbn [set_current_version set_string_offset data file_version_string_offset].
  fold d.
  assert (F0 : (List.length p0 < rounds d off)%nat) by (unfold rounds; lia).
  rewrite (scan_build_offset_part d p0 _ off 0 Hoff F0 P0).
  cbn [Z.add Z.eqb Pos.eqb Pos.add].
  assert (Hoff1 : 0 <= off + 2 * Z.of_nat (List.length p0) + 2) by lia.
  assert (F1 : (List.length p1 < rounds d off - S (List.length p0))%nat)
    by (unfold rounds; lia).
  rewrite (scan_build_offset_part d p1 _ _ 1 Hoff1 F1 P1).
  cbn [Z.add Z.eqb Pos.eqb Pos.add Pos.succ bind].
  replace (off + 2 * Z.of_nat (List.length p0) + 2
           + 2 * Z.of_nat (List.length p1) + 2) with run by (unfold run; lia).
  assert (Hrun : 0 <= run) by (unfold run; lia).
  assert (F2 : (List.length p2 < rounds d run)%nat)
    by (unfold rounds, run; lia).
  rewrite (scan_build_end_part d p2 _ run Hrun F2 P2); reflexivity.
Qed.

End DigitRun.

Lemma build_span_is_parsed_part_witness :
  let located :=
    set_current_version (set_string_offset (set_data init (res_two 9)) 380)
      (v_10_2503 9) in
  exists p0 p1 p2 p3 cv,
    read_version_chars (rounds (res_two 9) 380) (res_two 9) 380
    = Ok (p0 ++ 46 :: p1 ++ 46 :: p2 ++ 46 :: p3) /\
    int_ascii p2 = Some (build cv) /\
    build_span located
    = Ok (380 + 2 * Z.of_nat (List.length p0 + List.length p1 + 2),
          380 + 2 * Z.of_nat (List.length p0 + List.length p1 + 2)
          + 2 * Z.of_nat (List.length p2)).
Proof.
  intros located.
  destruct (build_span_is_parsed_part int_ascii (set_data init (res_two 9))
              located)
    as (p0 & p1 & p2 & p3 & cv & H1 & _ & H3 & H4 & _);
    [vm_compute; reflexivity|].
  exists p0, p1, p2, p3, cv; split; [exact H1|]; split; [exact H3 | exact H4].
Defined.

(** ** The project file *)















(** ** The sweep after a resize, match by match *)

Lemma splice_parts (d : list byte) (p stop : Z) (new : list byte) :
  0 <= p <= stop -> stop <= blen d ->
  splice d p new stop
  = firstn (Z.to_nat p) d ++ new ++ skipn (Z.to_nat stop) d.
Proof.
  intros Hp Hs; unfold splice, slice_to, slice_from.
  rewrite !slice_index_inside by lia; reflexivity.
Qed.

(** The spliced bytes stand where they were put. *)
Lemma splice_at (d : list byte) (p stop : Z) (new : list byte) :
  0 <= p <= stop -> stop <= blen d ->
  at_offset new (splice d p new stop) p.
Proof.
  intros Hp Hs; split; [lia|].
  rewrite splice_parts by assumption.
  rewrite skipn_app, skipn_all2 by (rewrite length_firstn; unfold blen in Hs; lia).
  rewrite length_firstn, Nat.min_l by (unfold blen in Hs; lia).
  rewrite Nat.sub_diag; cbn [skipn app].
  apply starts_with_iff; eexists; reflexivity.
Qed.

(** What stood at or after the end of the replaced bytes stands as far
    further as the splice has added. *)
Lemma splice_shift (sub d : list byte) (p stop x : Z) (new : list byte) :
  0 <= p <= stop -> stop <= blen d -> stop <= x ->
  at_offset sub d x ->
  at_offset sub (splice d p new stop) (x - (stop - p) + blen new).
Proof.
  intros Hp Hs Hx [_ H]; pose proof (blen_nonneg new) as Hn.
  split; [lia|].
  rewrite splice_parts by assumption.
  assert (Hf : List.length (firstn (Z.to_nat p) d) = Z.to_nat p)
    by (rewrite length_firstn; unfold blen in Hs; lia).
  rewrite skipn_app, skipn_all2 by lia; rewrite Hf; cbn [app].
  rewrite skipn_app, skipn_all2 by (unfold blen in Hn |- *; lia).
  cbn [app]; rewrite skipn_skipn.
  replace (Z.to_nat (x - (stop - p) + blen new) - Z.to_nat p
           - List.length new + Z.to_nat stop)%nat
    with (Z.to_nat x) by (unfold blen in *; lia).
  exact H.
Qed.

Lemma spaced_splices_new (new : list byte) (width : Z) (d : list byte)
    (positions : list Z) :
  forall lo,
    0 <= width -> 0 <= lo <= blen d -> spaced width lo (blen d) positions ->
    forall j q, nth_error positions j = Some q ->
      lo + Z.of_nat j * blen new <= q + Z.of_nat j * (blen new - width) /\
      at_offset new
        (fold_right (fun p acc => splice acc p new (p + width)) d positions)
        (q + Z.of_nat j * (blen new - width)).
Proof.
  induction positions as [|p ps IH]; intros lo Hw Hlo Hs j q Hj;
    [destruct j; discriminate|].
  destruct Hs as (H1 & H2 & H3); cbn [fold_right].
  assert (Hlo' : 0 <= p + width <= blen d) by lia.
  destruct (spaced_splices new width d ps (p + width) Hw Hlo' H3) as (_ & Hfit).
  cbv zeta in Hfit.
  destruct j as [|j]; cbn [nth_error] in Hj.
  - injection Hj as <-; rewrite Z.mul_0_l, !Z.add_0_r; split; [lia|].
    apply splice_at; lia.
  - destruct (IH (p + width) Hw Hlo' H3 j q Hj) as (Hge & Hat).
    split; [lia|].
    replace (q + Z.of_nat (S j) * (blen new - width))
      with (q + Z.of_nat j * (blen new - width) - (p + width - p) + blen new)
      by lia.
    apply splice_shift; [lia | lia | | exact Hat].
    pose proof (blen_nonneg new); nia.
Qed.

(** X16.  The sweep that closes a resizing patch, match by match.  Of the
    matches of the old version text that it finds, it leaves the first as
    it is, with every byte up to its end, and rewrites each later one: the
    new version text then stands at the place of that match, moved by the
    difference of the two lengths once for every match rewritten before
    it. *)
Theorem resizing_sweep_matches (self self' : ResVersionBumper)
    (old_build new_build : string) (cv nv : VersionInfo) (first : Z)
    (others : list Z) :
  current_version self = Some cv -> new_version self = Some nv ->
  let old_pattern :=
    encode_utf16le (version_text (major cv) (minor cv) old_build (release cv)) in
  let new_pattern :=
    encode_utf16le (version_text (major nv) (minor nv) new_build (release nv)) in
  find_positions (rounds (data self) 0) (data self) old_pattern 0
    = Ok (first :: others) ->
  _update_all_version_strings_with_length_change self old_build new_build
    = Ok self' ->
  at_offset old_pattern (data self') first /\
  (forall i, Z.of_nat i < first + blen old_pattern ->
             nth_error (data self') i = nth_error (data self) i) /\
  forall j q, nth_error others j = Some q ->
    at_offset new_pattern (data self')
      (q + Z.of_nat j * (blen new_pattern - blen old_pattern)).
Proof.
  intros Hcv Hnv old_pattern new_pattern Hpos H.
  unfold _update_all_version_strings_with_length_change in H.
  rewrite Hcv, Hnv in H; fold old_pattern new_pattern in H; rewrite Hpos in H.
  cbn [bind tl] in H.
  rewrite <- fold_left_rev_right, rev_involutive in H.
  assert (Hd : data self'
               = fold_right
                   (fun p acc => splice acc p new_pattern (p + blen old_pattern))
                   (data self) others).
  { destruct (1 <? _); injection H as <-; reflexivity. }
  pose proof (find_positions_spaced _ _ _ _ _ (Z.le_refl 0) Hpos)
    as (H1 & H2 & H3).
  pose proof (blen_nonneg old_pattern) as Hw.
  assert (Hat : at_offset old_pattern (data self) first).
  { unfold rounds in Hpos; cbn [find_positions] in Hpos.
    destruct (Z.eqb_spec (find (data self) old_pattern 0) (-1)) as [E|E];
      [discriminate|].
    bind_inv Hpos; injection Hpos as <- _.
    apply (find_hit _ _ 0 (Z.le_refl 0) E). }
  assert (Hlo : 0 <= first + blen old_pattern <= blen (data self)) by lia.
  assert (Hframe : forall i, Z.of_nat i < first + blen old_pattern ->
            nth_error (data self') i = nth_error (data self) i).
  { intros i Hi; rewrite Hd.
    apply (spaced_splices_before _ (blen old_pattern) (data self) others
             (first + blen old_pattern)); assumption. }
  split; [|split; [exact Hframe|]].
  - apply (at_offset_same_bytes old_pattern (data self)); [exact Hat|].
    intros i Hi; apply Hframe; lia.
  - intros j q Hj; rewrite Hd.
    apply (spaced_splices_new new_pattern (blen old_pattern) (data self) others
             (first + blen old_pattern) Hw Hlo H3 j q Hj).
Qed.

Lemma resizing_sweep_matches_witness :
  at_offset (encode_utf16le "1.2.9.0") (data three_texts_swept) 0 /\
  at_offset (encode_utf16le "1.2.10.0") (data three_texts_swept) 16 /\
  at_offset (encode_utf16le "1.2.10.0") (data three_texts_swept) 34.
Proof.
  destruct (resizing_sweep_matches three_texts three_texts_swept "9" "10"
              (mkVersionInfo 1 2 9 0) (mkVersionInfo 1 2 10 0) 0 [16; 32])
    as (H1 & _ & H3); try (vm_compute; reflexivity).
  split; [exact H1|].
  split; [exact (H3 0%nat 16 eq_refl) | exact (H3 1%nat 32 eq_refl)].
Defined.

(** ** When the binary update returns, and termination *)

Section Totality.

Variable py_int : list Z -> option Z.

(** X17.  After a successful analysis the binary update returns exactly
    when the new build fits 16 bits: with a build within 0..65535 it cannot
    fail, and with any other build, a negative one as well, it raises
    [struct.error] for the range of the format and nothing else. *)
Theorem binary_update_range (content : list byte)
    (self planned : ResVersionBumper) (new_build : option Z) (nv : VersionInfo) :
  analyze py_int (on_disk content) init = Ok (self, true) ->
  calculate_new_version self new_build = Ok (planned, nv) ->
  match update_binary_version planned with
  | Ok _ => 0 <= build nv <= 65535
  | Raise e => e = StructError FormatRange /\ ~ 0 <= build nv <= 65535
  end.
Proof.
  intros Ha Hc.
  destruct (analyze_true py_int content self Ha)
    as (A1 & _ & A3 & A4 & A5 & _).
  apply calculate_new_version_Ok in Hc.
  destruct Hc as (cv & _ & -> & _).
  unfold update_binary_version.
  cbn [set_new_version new_version data file_version_ls_offset]; cbv zeta.
  set (bo := file_version_ls_offset self + 2).
  assert (Hbo : 0 <= bo /\ bo + 2 <= blen (data self))
    by (unfold bo; rewrite A1; lia).
  assert (Hs : blen (slice (data self) bo (bo + 2)) = 2)
    by (rewrite blen_slice; lia).
  destruct (getitem_ok (slice (data self) bo (bo + 2)) 1) as [b1 E1]; [lia|].
  destruct (getitem_ok (slice (data self) bo (bo + 2)) 0) as [b0 E0]; [lia|].
  destruct (unpack_from_H_ok (data self) bo) as [v Ev]; [lia..|].
  rewrite E1, E0, Ev; cbn [bind].
  destruct (pack_into_H (data self) bo (build nv)) as [d|e] eqn:Hp;
    cbn [bind].
  - pose proof (blen_pack_into_H _ _ _ _ Hp) as Hlen.
    destruct (pack_into_H_Ok _ _ _ _ Hp) as (_ & _ & Hr & _).
    cbn [set_data data].
    assert (Hs' : blen (slice d bo (bo + 2)) = 2)
      by (rewrite blen_slice; lia).
    destruct (getitem_ok (slice d bo (bo + 2)) 1) as [c1 F1]; [lia|].
    destruct (getitem_ok (slice d bo (bo + 2)) 0) as [c0 F0]; [lia|].
    rewrite F1, F0; cbn [bind]; exact Hr.
  - unfold pack_into_H in Hp; rewrite struct_offset_ok in Hp by lia.
    cbn [bind] in Hp.
    destruct ((build nv <? 0) || (65535 <? build nv)) eqn:E; [|discriminate].
    injection Hp as <-; split; [reflexivity|].
    apply orb_true_iff in E; destruct E as [E|E]; apply Z.ltb_lt in E; lia.
Qed.

(** X18.  Every loop of a session ends: the analysis, the binary update and
    either text update never use up the rounds that the buffer's length
    allows them, on any buffer and for any target build. *)
Theorem session_terminates (content : list byte) (new_build : option Z) :
  terminates (session py_int content new_build).
Proof.
  unfold session.
  apply terminates_bind; [apply terminates_analyze|].
  intros [self ok] _; destruct ok; cbn [negb]; [|apply terminates_Ok].
  apply terminates_bind.
  - unfold calculate_new_version; destruct (current_version self); discriminate.
  - intros [planned nv] _.
    apply terminates_bind; [apply terminates_update_binary_version|].
    intros prepared_self _; apply terminates_update_string_version.
Qed.

End Totality.

Lemma binary_update_range_witness :
  match
    update_binary_version
      (set_new_version (analysed (res_two 9)) (v_10_2503 10))
  with
  | Ok _ => 0 <= 10 <= 65535
  | Raise e => e = StructError FormatRange /\ ~ 0 <= 10 <= 65535
  end.
Proof.
  apply (binary_update_range int_ascii (res_two 9) (analysed (res_two 9))
           (set_new_version (analysed (res_two 9)) (v_10_2503 10)) (Some 10)
           (v_10_2503 10)); vm_compute; reflexivity.
Defined.
